(** * Clipboard monitor: content classifier, deduplication gate, inference
      adapter, multi-agent analyzer, dataset sink and novelty tracker.

    Shallow embedding of [src/llama-stack-clipboard.py], of
    [src/experimental/novelty_tracker.py] and of the batch loop of
    [src/docs/clipboard.py].

    Conventions of the embedding:
    - a Python [str] is a [string]; its characters are read as code points
      below 256;
    - a [dict] that is iterated (the agent roster, a response record) is an
      association list in insertion order; a [Counter] is a [gmap string nat]
      read with default 0; a [set] of strings is a [gset string];
    - a Python float is read as the rational [Q] it stands for, with exact
      arithmetic: what is proved of scores is proved of their exact values,
      and nothing is made to depend on how rounding orders two scores;
    - an exception is a value of [exn] returned in [outcome]; the state at the
      point of the raise is kept, as in Python;
    - the file system, the clock and the model server are explicit: writes are
      appended to a log, the server is an oracle indexed by the call number;
    - a name that a module neither defines nor imports raises NameError
      where it is read ([DATASET_FILE] in novelty_tracker.py). *)

From stdpp Require Import gmap strings list.
From Stdlib Require Import Ascii QArith Lqa Lia.

Close Scope Q_scope.
Local Open Scope nat_scope.
Local Open Scope string_scope.
Local Open Scope list_scope.

(* ===================================================================== *)
(** ** Python string primitives *)
(* ===================================================================== *)

Module PyStr.

Definition chr (n : nat) : ascii := Ascii.ascii_of_nat n.
Definition newline : ascii := chr 10.
Definition colon : ascii := chr 58.
Definition nl : string := String newline EmptyString.
Definition dquote : string := String (chr 34) EmptyString.

(** [str.isspace] on one character: TAB..CR, FS..US, space, NEL, NBSP. *)
Definition is_space (c : ascii) : bool :=
  let n := Ascii.nat_of_ascii c in
  (((9 <=? n) && (n <=? 13)) || ((28 <=? n) && (n <=? 32))
   || (n =? 133) || (n =? 160))%nat.

(** [c in s] for a one-character needle. *)
Fixpoint contains_char (c : ascii) (s : string) : bool :=
  match s with
  | EmptyString => false
  | String d rest => Ascii.eqb d c || contains_char c rest
  end.

(** [s.split(sep)] for a one-character separator: never empty. *)
Fixpoint split (sep : ascii) (s : string) : list string :=
  match s with
  | EmptyString => [EmptyString]
  | String c rest =>
      if Ascii.eqb c sep then EmptyString :: split sep rest
      else match split sep rest with
           | [] => [String c EmptyString]
           | hd :: tl => String c hd :: tl
           end
  end.

Fixpoint lstrip (s : string) : string :=
  match s with
  | EmptyString => EmptyString
  | String c rest => if is_space c then lstrip rest else s
  end.

Fixpoint rstrip (s : string) : string :=
  match s with
  | EmptyString => EmptyString
  | String c rest =>
      match rstrip rest with
      | EmptyString => if is_space c then EmptyString else String c EmptyString
      | kept => String c kept
      end
  end.

(** [s.strip()] *)
Definition strip (s : string) : string := rstrip (lstrip s).

(** [s.startswith(p)] *)
Definition startswith (p s : string) : bool := String.prefix p s.

(** [sep.join(parts)] *)
Fixpoint join (sep : string) (parts : list string) : string :=
  match parts with
  | [] => EmptyString
  | [p] => p
  | p :: more => p +:+ sep +:+ join sep more
  end.

(** Scan for non-overlapping occurrences, left to right; [skip] is the
    number of characters still covered by the last match. *)
Fixpoint count_from (sub : string) (skip : nat) (s : string) : nat :=
  match s with
  | EmptyString => 0
  | String _ rest =>
      match skip with
      | S k => count_from sub k rest
      | O => if String.prefix sub s
             then S (count_from sub (String.length sub - 1) rest)
             else count_from sub 0 rest
      end
  end.

(** [s.count(sub)] *)
Definition count (sub s : string) : nat :=
  match sub with
  | EmptyString => S (String.length s)
  | _ => count_from sub 0 s
  end.

(** [s[:n]] *)
Definition take (n : nat) (s : string) : string := String.substring 0 n s.


Fixpoint repeat_line (line : string) (n : nat) : list string :=
  match n with
  | O => []
  | S k => line :: repeat_line line k
  end.

(** [str.format(prev_thoughts=...)] on a template whose only replacement
    field is [{prev_thoughts}] (no other brace occurs in the templates of
    this program); [skip] counts the characters of a field being consumed. *)
Definition placeholder : string := "{prev_thoughts}".

Fixpoint format_from (template : string) (skip : nat) (prev_thoughts : string)
  : string :=
  match template with
  | EmptyString => EmptyString
  | String c rest =>
      match skip with
      | S k => format_from rest k prev_thoughts
      | O => if String.prefix placeholder template
             then prev_thoughts
                    +:+ format_from rest (String.length placeholder - 1) prev_thoughts
             else String c (format_from rest 0 prev_thoughts)
      end
  end.

Definition format (template prev_thoughts : string) : string :=
  format_from template 0 prev_thoughts.

End PyStr.

(* ===================================================================== *)
(** ** Exceptions *)
(* ===================================================================== *)

Inductive exn := ValueError | IndexError | AttributeError | NameError.

Inductive outcome (A : Type) :=
| Ok (a : A)
| Raise (e : exn).
Arguments Ok {A} a.
Arguments Raise {A} e.

Module Clipboard.

(* =================================================================== *)
(** ** Content items *)
(* =================================================================== *)

(** The dict [{"type": ..., "content": ..., "hash": ...}]. *)
Record ContentItem := mkContent {
  item_type : string;
  item_content : string;
  item_hash : string
}.

(* =================================================================== *)
(** ** analyze_content_type *)
(* =================================================================== *)

Definition code_indicators : list (string * nat) :=
  [ ("import ", 5); ("def ", 3); ("class ", 3); ("return ", 3);
    ("    ", 2); (");", 2); ("};", 2) ].

Definition structured_indicators : list (string * nat) :=
  [ ("{", 1); ("}", 1); ("[", 1); ("]", 1);
    (PyStr.dquote +:+ "key" +:+ PyStr.dquote, 2);
    (PyStr.dquote +:+ "value" +:+ PyStr.dquote, 2) ].

(** [sum(text.count(indicator) * weight for indicator, weight in table.items())] *)
Definition weighted_score (table : list (string * nat)) (text : string) : nat :=
  foldr (fun iw acc => PyStr.count (fst iw) text * snd iw + acc) 0 table.

Definition code_score := weighted_score code_indicators.
Definition structured_score := weighted_score structured_indicators.

Definition analyze_content_type (content : ContentItem) : string :=
  if negb (String.eqb (item_type content) "text") then item_type content
  else
    let text := item_content content in
    if (10 <? code_score text)%nat then "code"
    else if (10 <? structured_score text)%nat then "structured_data"
    else "natural_text".

(* =================================================================== *)
(** ** process_clipboard_content *)
(* =================================================================== *)

Definition min_content_length : nat := 10.
(** [os.path.expanduser("~/Desktop/llama-pile/assets")]: the leading [~]
    stands for the home directory that [expanduser] puts in its place. *)
Definition ASSETS_DIR : string := "~/Desktop/llama-pile/assets".

(** Python truthiness of a [str]. *)
Definition truthy (s : string) : bool := negb (String.eqb s "").

(** [str(latest_screenshot)]: the path, or ["None"]. *)
Definition str_of_screenshot (p : option string) : string :=
  match p with Some path => path | None => "None" end.

(** The module global [last_content_hash] and the asset store. *)
Record GateState := mkGate {
  last_content_hash : option string;
  copied : list (string * string)
}.

Definition hash_is (h : string) (last : option string) : bool :=
  match last with
  | Some l => String.eqb h l
  | None => false
  end.

Section Gate.
(** [hashlib.md5(s.encode()).hexdigest()] and the digest of a file's
    bytes, [get_image_hash]. *)
Variable md5_hex : string -> string.
Variable get_image_hash : string -> string.

Definition get_content_hash (content : string) : string := md5_hex content.

Definition save_image (image_path : string) (st : GateState)
  : string * GateState :=
  let new_path := ASSETS_DIR +:+ "/" +:+ get_image_hash image_path +:+ ".png" in
  (new_path,
   mkGate (last_content_hash st) (copied st ++ [(image_path, new_path)])).

(** [text_content] is [pyperclip.paste()], [latest_screenshot] is
    [get_latest_screenshot()]. *)
Definition process_clipboard_content
  (text_content : string) (latest_screenshot : option string)
  (st : GateState) : option ContentItem * GateState :=
  let current_hash :=
    get_content_hash (if truthy text_content then text_content
                      else str_of_screenshot latest_screenshot) in
  if hash_is current_hash (last_content_hash st)
     || (truthy text_content
         && (String.length text_content <? min_content_length)%nat)
  then (None, st)
  else
    let st1 := mkGate (Some current_hash) (copied st) in
    if truthy text_content
    then (Some (mkContent "text" text_content current_hash), st1)
    else match latest_screenshot with
         | Some shot =>
             let (file_path, st2) := save_image shot st1 in
             (Some (mkContent "image" file_path current_hash), st2)
         | None => (None, st1)
         end.

(** Names for the two expressions the gate tests: [current_hash], and
    the condition of its first [if]. *)
Definition fingerprint (text_content : string)
  (latest_screenshot : option string) : string :=
  get_content_hash (if truthy text_content then text_content
                    else str_of_screenshot latest_screenshot).

Definition skip_condition (text_content : string)
  (latest_screenshot : option string) (st : GateState) : bool :=
  hash_is (fingerprint text_content latest_screenshot) (last_content_hash st)
  || (truthy text_content
      && (String.length text_content <? min_content_length)%nat).

(** The gate called [n] more times on the same clipboard and screenshot. *)
Fixpoint poll_again (n : nat) (text_content : string)
  (latest_screenshot : option string) (st : GateState)
  : list (option ContentItem) * GateState :=
  match n with
  | O => ([], st)
  | S k =>
      let (r, st1) := process_clipboard_content text_content latest_screenshot st in
      let (rs, st2) := poll_again k text_content latest_screenshot st1 in
      (r :: rs, st2)
  end.
End Gate.

(* =================================================================== *)
(** ** query_llama_stack *)
(* =================================================================== *)

Definition retry_attempts : nat := 3.
Definition retry_delay : nat := 5.
Definition AI_provider : string := "meta-reference".
Definition AI_model_id : string := "meta-llama/Llama-3.2-1B-Instruct".
Definition AI_environment : string := "single-node".
Definition AI_system_message : string :=
  "You are a poetic assistant, skilled in explaining complex programming concepts with creative flair.".

(** One element of the iterated response, by the attributes it carries. *)
Inductive chunk :=
| EventDelta (delta : string)
| ChoiceMessage (content : string)
| OtherChunk.

(** What [client.inference.chat_completion] does on one call: it raises, or
    it returns an iterable whose iteration ends normally or by an exception
    ([stream_fails]); the chunks listed are those yielded before the end. *)
Inductive call_result :=
| CallRaises (error : string)
| CallReturns (chunks : list chunk) (stream_fails : bool).

Inductive response_metadata :=
| MetaOk (provider model timestamp : string)
| MetaError (error : string).

(** The dict returned by [query_llama_stack]. *)
Record Response := mkResponse {
  response : string;
  metadata : response_metadata
}.

Inductive event :=
| EvCall (user_message : string)
| EvSleep (seconds : nat)
| EvStreamWarning.

(** The outside world of the adapter: how many calls the client has
    received, and what the adapter did, in order. *)
Record Net := mkNet {
  calls_made : nat;
  events : list event
}.

Definition chunk_text (ch : chunk) : option string :=
  match ch with
  | EventDelta delta => Some delta
  | ChoiceMessage content => Some content
  | OtherChunk => None
  end.

Definition length_limit : nat := 1000.

(** The [for chunk in response] loop: [seen_facts] and [full_response] are
    the loop's variables.  The result is [full_response] when the loop is
    left, and whether it was left by [break] (then the rest of the stream is
    never requested). *)
Fixpoint consume (chunks : list chunk) (seen_facts : gset string)
  (full_response : string) : string * bool :=
  match chunks with
  | [] => (full_response, false)
  | ch :: rest =>
      match chunk_text ch with
      | None => consume rest seen_facts full_response
      | Some new_text =>
          let seen1 :=
            if decide (new_text ∈ seen_facts) then seen_facts
            else {[ new_text ]} ∪ seen_facts in
          let full1 :=
            if decide (new_text ∈ seen_facts) then full_response
            else full_response +:+ new_text in
          if (length_limit <? String.length full1)%nat then (full1, true)
          else consume rest seen1 full1
      end
  end.

Definition instruction_suffix : string :=
  PyStr.nl +:+ PyStr.nl +:+ "IMPORTANT: Keep responses concise. No repetition.".

Definition error_response (error : string) : Response :=
  mkResponse "Error: Llama Stack server unavailable" (MetaError error).

Section Adapter.
(** [client k user_message]: the outcome of the [k]-th call made to the
    client since start-up.  [now_iso] stands for
    [datetime.now().isoformat()]. *)
Variable client : nat -> string -> call_result.
Variable now_iso : string.

(** The [for attempt in range(retry_attempts)] loop, [remaining]
    iterations from [attempt] on.  [None] is Python's implicit
    [return None] when the loop runs out. *)
Fixpoint attempt_loop (remaining attempt : nat) (prompt : string) (w : Net)
  : option Response * Net :=
  match remaining with
  | O => (None, w)
  | S k =>
      let user_message := prompt +:+ instruction_suffix in
      let w1 := mkNet (S (calls_made w)) (events w ++ [EvCall user_message]) in
      match client (calls_made w) user_message with
      | CallReturns chunks stream_fails =>
          let (full_response, broke) := consume chunks ∅ EmptyString in
          let w2 := if stream_fails && negb broke
                    then mkNet (calls_made w1) (events w1 ++ [EvStreamWarning])
                    else w1 in
          (Some (mkResponse (PyStr.strip full_response)
                            (MetaOk AI_provider AI_model_id now_iso)), w2)
      | CallRaises e =>
          if (attempt <? retry_attempts - 1)%nat
          then attempt_loop k (S attempt) prompt
                 (mkNet (calls_made w1) (events w1 ++ [EvSleep retry_delay]))
          else (Some (error_response e), w1)
      end
  end.

Definition query_llama_stack (prompt : string) (w : Net)
  : option Response * Net :=
  attempt_loop retry_attempts 0 prompt w.
End Adapter.

(* =================================================================== *)
(** ** AGENT_CONFIG *)
(* =================================================================== *)

Record Agent := mkAgent {
  name : string;
  personality : string;
  prompt_template : string
}.

Definition indent : string := "            ".
Definition template_of (first : string) (more : list string) : string :=
  PyStr.join PyStr.nl (first :: map (fun l => indent +:+ l) more).

Definition curator : Agent :=
  mkAgent "Curator"
    "A detail-oriented observer who detects content type and topic shifts"
    (template_of
       "Analyze content for type and topic changes. Pay special attention to:"
       [ "- Programming code vs natural language";
         "- Technical documentation vs conversational text";
         "- Structured data vs prose";
         "- Major subject matter shifts";
         "";
         "Rules:";
         "- Each key and value should be 1-3 words maximum";
         "- ALWAYS start with 'content_type' and 'context_shift'";
         "- If content type changes (e.g. code vs text), ALWAYS mark context_shift as true";
         "- Format as 'key: value'";
         "";
         "Previous context: {prev_thoughts}";
         "";
         "List the key-value pairs for this content:" ]).

Definition analyst : Agent :=
  mkAgent "Analyst"
    "A technical analyzer who identifies structural patterns"
    (template_of
       "Analyze content structure and complexity while tracking shifts."
       [ "";
         "Rules:";
         "- Each key and value should be 1-3 words maximum";
         "- ALWAYS start with 'structure_type' and 'complexity_level'";
         "- Note dramatic shifts in content structure";
         "- Format as 'key: value'";
         "";
         "Previous flow: {prev_thoughts}";
         "";
         "List the key-value pairs for this analysis:" ]).

Definition synthesizer : Agent :=
  mkAgent "Synthesizer"
    "An integrator who identifies significant transitions"
    (template_of
       "Synthesize shifts in content type and structure."
       [ "";
         "Rules:";
         "- Each key and value should be 1-3 words maximum";
         "- ALWAYS evaluate significance of change";
         "- Format as 'key: value'";
         "- Add change metrics";
         "";
         "Previous synthesis: {prev_thoughts}";
         "";
         "List the key-value pairs for your synthesis:" ]).

Definition AGENT_CONFIG : list (string * Agent) :=
  [ ("curator", curator); ("analyst", analyst); ("synthesizer", synthesizer) ].

(* =================================================================== *)
(** ** analyze_content *)
(* =================================================================== *)

Definition truncate_content (text : string) (max_chars : nat) : string :=
  if (String.length text <=? max_chars)%nat then text
  else PyStr.take max_chars text +:+ "... [truncated]".

(** [[line.strip() for line in thought.split('\n') if ':' in line]] *)
Definition kv_lines (thought : string) : list string :=
  map PyStr.strip
      (filter (fun line => PyStr.contains_char PyStr.colon line = true)
              (PyStr.split PyStr.newline thought)).

(** [f"{agent_name}:\n" + "\n".join(kv_pairs)] *)
Definition block_of (agent_name thought : string) : string :=
  agent_name +:+ ":" +:+ PyStr.nl +:+ PyStr.join PyStr.nl (kv_lines thought).

(** The body of the [enumerate] loop of [format_previous_thoughts];
    [list(AGENT_CONFIG.keys())[i]] raises IndexError out of range. *)
Fixpoint format_blocks (i : nat) (thoughts : list string)
  : outcome (list string) :=
  match thoughts with
  | [] => Ok []
  | thought :: more =>
      match map fst AGENT_CONFIG !! i with
      | None => Raise IndexError
      | Some agent_name =>
          let block := block_of agent_name thought in
          match format_blocks (S i) more with
          | Ok blocks => Ok (block :: blocks)
          | Raise e => Raise e
          end
      end
  end.

Definition format_previous_thoughts (thoughts : list string) : outcome string :=
  match thoughts with
  | [] => Ok "no_previous: true"
  | _ => match format_blocks 0 thoughts with
         | Ok formatted => Ok (PyStr.join PyStr.nl formatted)
         | Raise e => Raise e
         end
  end.

(** The prompt built for one agent from [prev_thoughts]. *)
Definition render_prompt (content_type : string) (agent : Agent)
  (prev_thoughts truncated_content : string) : string :=
  "Content type detected: " +:+ content_type +:+ PyStr.nl +:+ PyStr.nl
  +:+ PyStr.format (prompt_template agent) prev_thoughts
  +:+ PyStr.nl +:+ PyStr.nl +:+ "Content to analyze:" +:+ PyStr.nl
  +:+ truncated_content.

(** The value stored under an agent id in [final_response]. *)
Record AgentResult := mkResult {
  result_response : string;
  context_content_type : string;
  context_previous_thoughts : string;
  context_role : string
}.

(** One iteration of the agent loop, as it happened (not a Python value:
    it records the local variables of the iteration). *)
Record Step := mkStep {
  step_agent : string;
  step_prev_thoughts : string;
  step_prompt : string;
  step_response_text : string;
  step_kept : bool
}.

Definition rejected (response_text : string) : bool :=
  negb (truthy response_text) || PyStr.startswith "Error:" response_text.

Section Analyzer.
Variable client : nat -> string -> call_result.
Variable now_iso : string.

(** The [for agent_id, agent in AGENT_CONFIG.items()] loop over the
    agents still to run. *)
Fixpoint agent_loop (agents : list (string * Agent)) (content : ContentItem)
  (content_type : string) (agents_thoughts : list string)
  (final_response : list (string * AgentResult)) (trace : list Step)
  (w : Net)
  : outcome (list (string * AgentResult)) * list Step * Net :=
  match agents with
  | [] => (Ok final_response, trace, w)
  | (agent_id, agent) :: rest =>
      let truncated_content := truncate_content (item_content content) 512 in
      match format_previous_thoughts agents_thoughts with
      | Raise e => (Raise e, trace, w)
      | Ok prev_thoughts =>
          let prompt :=
            render_prompt content_type agent prev_thoughts truncated_content in
          match query_llama_stack client now_iso prompt w with
          | (None, w1) => (Raise AttributeError, trace, w1)
          | (Some resp, w1) =>
              let response_text := PyStr.strip (response resp) in
              if rejected response_text
              then agent_loop rest content content_type agents_thoughts
                     final_response
                     (trace ++ [mkStep agent_id prev_thoughts prompt
                                       response_text false])
                     w1
              else agent_loop rest content content_type
                     (agents_thoughts ++ [response_text])
                     (final_response ++
                        [(agent_id,
                          mkResult response_text content_type prev_thoughts
                                   (personality agent))])
                     (trace ++ [mkStep agent_id prev_thoughts prompt
                                       response_text true])
                     w1
          end
      end
  end.

(** [analyze_content]: any exception is caught and turned into [None]. *)
Definition analyze_content_traced (content : ContentItem) (w : Net)
  : option (list (string * AgentResult)) * list Step * Net :=
  let content_type := analyze_content_type content in
  match agent_loop AGENT_CONFIG content content_type [] [] [] w with
  | (Ok final_response, trace, w1) => (Some final_response, trace, w1)
  | (Raise _, trace, w1) => (None, trace, w1)
  end.

Definition analyze_content (content : ContentItem) (w : Net)
  : option (list (string * AgentResult)) * Net :=
  let '(r, _, w1) := analyze_content_traced content w in (r, w1).
End Analyzer.

(* =================================================================== *)
(** ** save_to_dataset *)
(* =================================================================== *)

Record AnalysisMetadata := mkAnalysisMeta {
  agent_count : nat;
  content_type : string;
  content_length : nat
}.

Record StackMetadata := mkStackMeta {
  meta_provider : string;
  meta_model : string;
  meta_environment : string;
  meta_system_message : string
}.

(** One line of the dataset file. *)
Record DatasetRecord := mkRecord {
  timestamp : string;
  content : ContentItem;
  ai_response : list (string * AgentResult);
  llama_stack_metadata : StackMetadata;
  analysis_metadata : AnalysisMetadata
}.

(** The dataset file is the list of its lines; opening with mode ["a"]
    appends. *)
Definition save_to_dataset (now_iso : string) (content : ContentItem)
  (ai_response : list (string * AgentResult)) (dataset : list DatasetRecord)
  : list DatasetRecord :=
  let data :=
    mkRecord now_iso content ai_response
      (mkStackMeta AI_provider AI_model_id AI_environment AI_system_message)
      (mkAnalysisMeta (length AGENT_CONFIG) (item_type content)
                      (String.length (item_content content))) in
  dataset ++ [data].

(** The body of [content_processor] for one dequeued item: analyse, and
    save when the analysis is a non-empty dict. *)
Definition process_item (client : nat -> string -> call_result)
  (now_iso : string) (content : ContentItem) (w : Net)
  (dataset : list DatasetRecord) : Net * list DatasetRecord :=
  match analyze_content client now_iso content w with
  | (Some ((_ :: _) as analysis), w1) =>
      (w1, save_to_dataset now_iso content analysis dataset)
  | (_, w1) => (w1, dataset)
  end.

End Clipboard.

(* ===================================================================== *)
(** ** experimental/novelty_tracker.py *)
(* ===================================================================== *)

Module Novelty.

(** [PERFORMANCE_CONFIG] *)
Definition history_size : nat := 1000.
Definition baseline_period : nat := 100.

(** A value of the response record handed to [add_response]: a dict (with
    its ['response'] entry, a [str], when it has one) or anything else. *)
Inductive agent_value :=
| AgentDict (response : option string)
| NotADict.

Definition response_dict := list (string * agent_value).
Definition matrix := list (list Q).

(** The dict [self.baseline_metrics]. *)
Record Baseline := mkBaseline {
  responses_processed : nat;
  unique_keys : gset string;
  unique_values : gset string;
  response_lengths : list nat;
  timestamp : string;
  attention_scores : list Q;
  attention_matrices : list matrix
}.

(** The dataclass [BaselineMetrics]. *)
Record BaselineMetrics := mkMetrics {
  bm_timestamp : string;
  bm_total_responses : nat;
  bm_unique_keys : nat;
  bm_unique_values : nat;
  bm_avg_response_length : Q;
  bm_key_diversity : Q;
  bm_value_diversity : Q;
  bm_mean_attention : option Q;
  bm_attention_std : option Q;
  bm_attention_max : option Q;
  bm_attention_min : option Q
}.

(** The fields of a [NoveltyTracker] (the lock aside); [maxlen] is the
    bound of the deque [response_history]. *)
Record Tracker := mkTracker {
  response_history : list response_dict;
  maxlen : nat;
  key_frequency : gmap string nat;
  value_frequency : gmap string nat;
  baseline_metrics : Baseline;
  is_baseline_period : bool
}.

(** A file that lines 105 to 114 of [_save_baseline_metrics] write. *)
Inductive file_write :=
| NoveltyBaselineJson (metrics : BaselineMetrics)
| AttentionBaselineJson (timestamp : string) (matrices : list matrix).

Definition is_snapshot (f : file_write) : bool :=
  match f with
  | NoveltyBaselineJson _ => true
  | AttentionBaselineJson _ _ => false
  end.

(** Number of times the baseline snapshot has been written. *)
Definition snapshot_writes (files : list file_write) : nat :=
  length (List.filter is_snapshot files).

(** [NoveltyTracker.__init__] *)
Definition new_tracker (size : nat) (now_iso : string) : Tracker :=
  mkTracker [] size ∅ ∅ (mkBaseline 0 ∅ ∅ [] now_iso [] []) true.

(** Reading a [Counter]: a missing key counts 0. *)
Definition freq (c : gmap string nat) (k : string) : nat := default 0 (c !! k).

(** [c[k] += 1] *)
Definition incr (c : gmap string nat) (k : string) : gmap string nat :=
  <[ k := freq c k + 1 ]> c.

(** [deque(maxlen=n).append(x)] *)
Definition deque_append {A} (n : nat) (d : list A) (x : A) : list A :=
  let d1 := d ++ [x] in drop (length d1 - n) d1.

Definition Qsum (l : list Q) : Q := foldr Qplus 0%Q l.

(** [np.mean] *)
Definition np_mean (l : list Q) : Q :=
  (Qsum l / inject_Z (Z.of_nat (length l)))%Q.

Definition Qof_nat (n : nat) : Q := inject_Z (Z.of_nat n).

Definition Qmax_list (l : list Q) : Q :=
  match l with
  | [] => 0%Q
  | x :: more => foldr (fun a b => if Qle_bool b a then a else b) x more
  end.

Definition Qmin_list (l : list Q) : Q :=
  match l with
  | [] => 0%Q
  | x :: more => foldr (fun a b => if Qle_bool a b then a else b) x more
  end.

(** [[line.strip().split(':') for line in text.split('\n') if ':' in line]] *)
Definition raw_pairs (text : string) : list (list string) :=
  map (fun line => PyStr.split PyStr.colon (PyStr.strip line))
      (filter (fun line => PyStr.contains_char PyStr.colon line = true)
              (PyStr.split PyStr.newline text)).

(** [1.0 / (frequency + 1)] *)
Definition inverse_frequency (frequency : nat) : Q :=
  (1 / Qof_nat (frequency + 1))%Q.

Section Tracker.
(** [np.std] is not a rational function; it is left abstract. *)
Variable np_std : list Q -> Q.

Definition when_scored (scores : list Q) (f : list Q -> Q) : option Q :=
  match scores with
  | [] => None
  | _ => Some (f scores)
  end.

(** [_save_baseline_metrics]; [files] is the log of the files written so
    far.  Lines 90 to 102 build the [BaselineMetrics].  Line 104 then reads
    the global [DATASET_FILE], a name that novelty_tracker.py neither
    defines nor imports (the two monitors bind it in their own modules,
    where a function of this module does not look it up): evaluating it
    raises NameError before either file is opened, and lines 105 to 119,
    which would append [NoveltyBaselineJson metrics] and
    [AttentionBaselineJson] to the log, are never reached. *)
Definition _save_baseline_metrics (b : Baseline) (files : list file_write)
  : outcome unit * list file_write :=
  let metrics :=
    mkMetrics (timestamp b) (responses_processed b)
      (size (unique_keys b)) (size (unique_values b))
      (np_mean (map Qof_nat (response_lengths b)))
      (Qof_nat (size (unique_keys b)) / Qof_nat (responses_processed b))%Q
      (Qof_nat (size (unique_values b)) / Qof_nat (responses_processed b))%Q
      (when_scored (attention_scores b) np_mean)
      (when_scored (attention_scores b) np_std)
      (when_scored (attention_scores b) Qmax_list)
      (when_scored (attention_scores b) Qmin_list) in
  (Raise NameError, files).

(** Python truthiness of the optional [attention_matrix] argument, a list
    of rows of numbers when it is given. *)
Definition matrix_given (attention_matrix : option matrix) : option matrix :=
  match attention_matrix with
  | Some (row :: rows) => Some (row :: rows)
  | _ => None
  end.

(** The body of [for k, v in pairs] in [add_response]; [npairs] is
    [len(pairs)].  Unpacking anything but two fields raises ValueError.
    The latch is cleared on line 84 only when the call on line 83 returns;
    an exception raised there leaves the counters, the aggregates and the
    latch as they are at that point. *)
Definition observe_pair (npairs : nat) (attention_matrix : option matrix)
  (fields : list string) (t : Tracker) (files : list file_write)
  : outcome unit * Tracker * list file_write :=
  match fields with
  | [k0; v0] =>
      let k := PyStr.strip k0 in
      let v := PyStr.strip v0 in
      let kf := incr (key_frequency t) k in
      let vf := incr (value_frequency t) v in
      if is_baseline_period t then
        let b := baseline_metrics t in
        let b1 :=
          mkBaseline (responses_processed b + 1)
            ({[ k ]} ∪ unique_keys b) ({[ v ]} ∪ unique_values b)
            (response_lengths b ++ [npairs]) (timestamp b)
            (match matrix_given attention_matrix with
             | Some m => attention_scores b ++ concat m
             | None => attention_scores b
             end)
            (match matrix_given attention_matrix with
             | Some m => attention_matrices b ++ [m]
             | None => attention_matrices b
             end) in
        if (baseline_period <=? responses_processed b1)%nat then
          match _save_baseline_metrics b1 files with
          | (Ok _, files1) =>
              (Ok tt,
               mkTracker (response_history t) (maxlen t) kf vf b1 false,
               files1)
          | (Raise e, files1) =>
              (Raise e,
               mkTracker (response_history t) (maxlen t) kf vf b1 true,
               files1)
          end
        else
          (Ok tt,
           mkTracker (response_history t) (maxlen t) kf vf b1 true,
           files)
      else
        (Ok tt,
         mkTracker (response_history t) (maxlen t) kf vf
                   (baseline_metrics t) false,
         files)
  | _ => (Raise ValueError, t, files)
  end.

Fixpoint observe_pairs (npairs : nat) (attention_matrix : option matrix)
  (pairs : list (list string)) (t : Tracker) (files : list file_write)
  : outcome unit * Tracker * list file_write :=
  match pairs with
  | [] => (Ok tt, t, files)
  | fields :: more =>
      match observe_pair npairs attention_matrix fields t files with
      | (Ok _, t1, files1) =>
          observe_pairs npairs attention_matrix more t1 files1
      | raised => raised
      end
  end.

(** The loop [for agent_responses in response_dict.values()]. *)
Fixpoint observe_values (attention_matrix : option matrix)
  (values : list agent_value) (t : Tracker) (files : list file_write)
  : outcome unit * Tracker * list file_write :=
  match values with
  | [] => (Ok tt, t, files)
  | AgentDict (Some text) :: more =>
      let pairs := raw_pairs text in
      match observe_pairs (length pairs) attention_matrix pairs t files with
      | (Ok _, t1, files1) => observe_values attention_matrix more t1 files1
      | raised => raised
      end
  | _ :: more => observe_values attention_matrix more t files
  end.

Definition add_response (rd : response_dict)
  (attention_matrix : option matrix) (t : Tracker) (files : list file_write)
  : outcome unit * Tracker * list file_write :=
  match observe_values attention_matrix (map snd rd) t files with
  | (Ok _, t1, files1) =>
      (Ok tt,
       mkTracker (deque_append (maxlen t1) (response_history t1) rd)
                 (maxlen t1) (key_frequency t1) (value_frequency t1)
                 (baseline_metrics t1) (is_baseline_period t1),
       files1)
  | raised => raised
  end.

(** A sequence of [add_response] calls, each with its record and its
    [attention_matrix] argument, and each run whether or not an earlier one
    raised, as under a caller that catches the exception.  For each call:
    its outcome, and the number of snapshot writes made so far. *)
Fixpoint observe_all (calls : list (response_dict * option matrix))
  (t : Tracker) (files : list file_write)
  : list (outcome unit * nat) * Tracker * list file_write :=
  match calls with
  | [] => ([], t, files)
  | (rd, attention_matrix) :: more =>
      let '(r, t1, files1) := add_response rd attention_matrix t files in
      let '(log, t2, files2) := observe_all more t1 files1 in
      ((r, snapshot_writes files1) :: log, t2, files2)
  end.
End Tracker.

(** The loop of [get_novelty_score] filling [key_scores], [value_scores]. *)
Fixpoint score_pairs (t : Tracker) (pairs : list (list string))
  (key_scores value_scores : list Q) : outcome (list Q * list Q) :=
  match pairs with
  | [] => Ok (key_scores, value_scores)
  | [k0; v0] :: more =>
      let k := PyStr.strip k0 in
      let v := PyStr.strip v0 in
      let key_freq := freq (key_frequency t) k in
      let value_freq := freq (value_frequency t) v in
      score_pairs t more
        (key_scores ++ [inverse_frequency key_freq])
        (value_scores ++ [inverse_frequency value_freq])
  | _ :: _ => Raise ValueError
  end.

Definition get_novelty_score (t : Tracker) (response_text : string)
  : outcome Q :=
  match raw_pairs response_text with
  | [] => Ok 0%Q
  | pairs =>
      match score_pairs t pairs [] [] with
      | Ok (key_scores, value_scores) =>
          Ok ((np_mean key_scores + np_mean value_scores) / 2)%Q
      | Raise e => Raise e
      end
  end.

(** Every colon line of a response splits into exactly two fields. *)
Definition well_formed (text : string) : Prop :=
  Forall (fun fields => length fields = 2) (raw_pairs text).

(** Both counters of [t'] dominate those of [t]. *)
Definition grows (t t' : Tracker) : Prop :=
  forall k,
    freq (key_frequency t) k <= freq (key_frequency t') k /\
    freq (value_frequency t) k <= freq (value_frequency t') k.

(** The split colon lines of a value of a record, and of all the values
    of a record in the order in which [add_response] meets them. *)
Definition pairs_of_value (v : agent_value) : list (list string) :=
  match v with
  | AgentDict (Some text) => raw_pairs text
  | _ => []
  end.

Definition record_pairs (rd : response_dict) : list (list string) :=
  concat (map pairs_of_value (map snd rd)).

(** The split lines that come before the first one that does not have
    exactly two fields. *)
Fixpoint counted_prefix (pairs : list (list string)) : list (list string) :=
  match pairs with
  | [k0; v0] :: more => [k0; v0] :: counted_prefix more
  | _ => []
  end.

(** [room t n]: [n] more pairs can be counted without the baseline counter
    reaching [baseline_period] (always so once the latch is cleared). *)
Definition room (t : Tracker) (n : nat) : Prop :=
  is_baseline_period t = false \/
  responses_processed (baseline_metrics t) + n < baseline_period.

(** [at_threshold t]: the latch is set and the next pair counted brings
    the baseline counter to [baseline_period] or beyond. *)
Definition at_threshold (t : Tracker) : Prop :=
  is_baseline_period t = true /\
  baseline_period <= responses_processed (baseline_metrics t) + 1.

(** Whether counting [n] pairs, one after the other, reaches the
    threshold. *)
Definition reaches_threshold (t : Tracker) (n : nat) : bool :=
  is_baseline_period t && (0 <? n)%nat &&
  (baseline_period <=? responses_processed (baseline_metrics t) + n)%nat.

(** The key and the value the loops read off a split line. *)
Definition key_of (fields : list string) : string :=
  PyStr.strip (nth 0 fields "").
Definition value_of (fields : list string) : string :=
  PyStr.strip (nth 1 fields "").

Definition lines (ls : list string) : string := PyStr.join PyStr.nl ls.

(** The contribution of one pair to [key_scores] and to [value_scores]. *)
Definition key_novelty (t : Tracker) (fields : list string) : Q :=
  inverse_frequency (freq (key_frequency t) (key_of fields)).
Definition value_novelty (t : Tracker) (fields : list string) : Q :=
  inverse_frequency (freq (value_frequency t) (value_of fields)).

End Novelty.

(* ===================================================================== *)
(** ** The collector and the processor of llama-stack-clipboard.py *)
(* ===================================================================== *)

Module Pipeline.
Import Clipboard.

(** A file of the screenshot directory: its path and [os.path.getmtime]. *)
Definition screenshot := (string * Q)%type.

(** One insertion of a stable sort by decreasing mtime: [x], which comes
    before every element of [l] in the listing, is put before the first
    element that is not newer than it. *)
Fixpoint insert_by_mtime (x : screenshot) (l : list screenshot) : list screenshot :=
  match l with
  | [] => [x]
  | y :: more =>
      if Qle_bool (snd y) (snd x) then x :: l else y :: insert_by_mtime x more
  end.

(** [sorted(paths, key=os.path.getmtime, reverse=True)]: the sort is stable,
    files of equal mtime keep the order of the listing. *)
Definition sorted_by_mtime (listing : list screenshot) : list screenshot :=
  foldr insert_by_mtime [] listing.

(** [get_latest_screenshot], on the listing [Path(SCREENSHOTS_DIR).glob("*.png")]. *)
Definition get_latest_screenshot (listing : list screenshot) : option string :=
  match sorted_by_mtime listing with
  | [] => None
  | newest :: _ => Some (fst newest)
  end.

Definition max_queue_size : nat := 100.

(** [content_queue.full()] for [Queue(maxsize=max_queue_size)]. *)
Definition full (queue : list ContentItem) : bool :=
  (max_queue_size <=? length queue)%nat.

Section Collector.
Variable md5_hex : string -> string.
Variable get_image_hash : string -> string.

(** One iteration of the loop of [content_collector], on the clipboard text
    and the screenshot listing found at that moment; [queue] is
    [content_queue], oldest item first. *)
Definition content_collector_step (text_content : string)
  (listing : list screenshot) (st : GateState) (queue : list ContentItem)
  : GateState * list ContentItem :=
  match process_clipboard_content md5_hex get_image_hash text_content
          (get_latest_screenshot listing) st with
  | (Some content, st1) =>
      if negb (full queue) then (st1, queue ++ [content]) else (st1, queue)
  | (None, st1) => (st1, queue)
  end.

(** Successive iterations, no item being taken from the queue meanwhile. *)
Fixpoint content_collector_run (polls : list (string * list screenshot))
  (st : GateState) (queue : list ContentItem)
  : GateState * list ContentItem :=
  match polls with
  | [] => (st, queue)
  | (text_content, listing) :: more =>
      let (st1, queue1) := content_collector_step text_content listing st queue in
      content_collector_run more st1 queue1
  end.
End Collector.

(** What a processor writes: the network log, the dataset file and
    [result_queue]. *)
Record Sink := mkSink {
  sink_net : Net;
  sink_dataset : list DatasetRecord;
  result_queue : list (ContentItem * list (string * AgentResult))
}.

Section Processor.
Variable client : nat -> string -> call_result.
Variable now_iso : string.

(** One iteration of the loop of [content_processor], as one processor
    thread runs it when no other thread acts in between: an empty queue
    raises [QueueEmpty] and the loop continues; otherwise the oldest item
    is analysed and, when the analysis is a non-empty dict, saved and
    reported. *)
Definition content_processor_step (queue : list ContentItem) (s : Sink)
  : list ContentItem * Sink :=
  match queue with
  | [] => (queue, s)
  | content :: rest =>
      match analyze_content client now_iso content (sink_net s) with
      | (Some ((_ :: _) as analysis), w1) =>
          (rest,
           mkSink w1
                  (save_to_dataset now_iso content analysis (sink_dataset s))
                  (result_queue s ++ [(content, analysis)]))
      | (_, w1) => (rest, mkSink w1 (sink_dataset s) (result_queue s))
      end
  end.

(** The iterations of one processor thread, taken alone, until the queue
    is empty.  [main] starts [concurrent_agents] = 2 such threads on the
    same queue, dataset file and result queue, without a lock around the
    save and the report: how their records interleave is not described by
    this function, only what one thread does with the items it takes. *)
Fixpoint content_processor_drain (queue : list ContentItem) (s : Sink) : Sink :=
  match queue with
  | [] => s
  | content :: rest =>
      content_processor_drain rest (snd (content_processor_step queue s))
  end.
End Processor.

(** *** The processor threads side by side

    [main] starts [concurrent_agents] = 2 threads that run
    [content_processor] on the same [content_queue], dataset file and
    [result_queue], next to the collector thread.  The queues are
    thread-safe; nothing else synchronises the threads. *)

(** Where a processor thread stands in an iteration of its loop. *)
Inductive worker :=
| Idle
| Holding (content : ContentItem)
| Saving (content : ContentItem) (analysis : list (string * AgentResult))
| Reporting (content : ContentItem) (analysis : list (string * AgentResult)).

(** What the threads share: the content queue, oldest item first; the
    records handed to [save_to_dataset], in the order of the calls (each
    taken as one whole line of the file); the results put on
    [result_queue], in the order of the puts (the main thread takes them
    off to print them). *)
Record Shared := mkShared {
  shared_queue : list ContentItem;
  shared_dataset : list DatasetRecord;
  shared_results : list (ContentItem * list (string * AgentResult))
}.

(** One step of one thread; [ws] holds the state of each processor.  An
    analysis is whatever [analyze_content] returns against some behaviour
    [client] of the server from some state [w] of the call log: with
    several threads calling the server, which replies a thread gets is not
    determined.  Each record gets the time [now_iso] of its own save. *)
Inductive step : Shared * list worker -> Shared * list worker -> Prop :=
| collector_puts s ws content :
    full (shared_queue s) = false ->
    step (s, ws)
         (mkShared (shared_queue s ++ [content]) (shared_dataset s)
                   (shared_results s), ws)
| processor_gets s ws i content rest :
    ws !! i = Some Idle ->
    shared_queue s = content :: rest ->
    step (s, ws)
         (mkShared rest (shared_dataset s) (shared_results s),
          <[ i := Holding content ]> ws)
| processor_analyses s ws i content client now_iso w entry more w1 :
    ws !! i = Some (Holding content) ->
    analyze_content client now_iso content w = (Some (entry :: more), w1) ->
    step (s, ws) (s, <[ i := Saving content (entry :: more) ]> ws)
| processor_gives_up s ws i content client now_iso w w1 :
    ws !! i = Some (Holding content) ->
    (analyze_content client now_iso content w = (None, w1) \/
     analyze_content client now_iso content w = (Some [], w1)) ->
    step (s, ws) (s, <[ i := Idle ]> ws)
| processor_saves s ws i content analysis now_iso :
    ws !! i = Some (Saving content analysis) ->
    step (s, ws)
         (mkShared (shared_queue s)
                   (save_to_dataset now_iso content analysis (shared_dataset s))
                   (shared_results s),
          <[ i := Reporting content analysis ]> ws)
| processor_reports s ws i content analysis :
    ws !! i = Some (Reporting content analysis) ->
    step (s, ws)
         (mkShared (shared_queue s) (shared_dataset s)
                   (shared_results s ++ [(content, analysis)]),
          <[ i := Idle ]> ws).

(** The result a thread has saved and not yet reported. *)
Definition unreported (w : worker)
  : option (ContentItem * list (string * AgentResult)) :=
  match w with
  | Reporting content analysis => Some (content, analysis)
  | _ => None
  end.

(** The item and the analysis of each record of the dataset. *)
Definition entries (dataset : list DatasetRecord)
  : list (ContentItem * list (string * AgentResult)) :=
  map (fun r => (content r, ai_response r)) dataset.

(** [analysis] is a non-empty analysis that [analyze_content] returns for
    [content] against some behaviour of the server. *)
Definition analysed (content : ContentItem)
  (analysis : list (string * AgentResult)) : Prop :=
  analysis <> [] /\
  exists client now_iso w w1,
    analyze_content client now_iso content w = (Some analysis, w1).

(** A thread that is about to save or to report holds such an analysis. *)
Definition worker_ok (w : worker) : Prop :=
  match w with
  | Saving content analysis | Reporting content analysis =>
      analysed content analysis
  | _ => True
  end.

(** A record as [save_to_dataset] writes it for an analysed item. *)
Definition record_ok (r : DatasetRecord) : Prop :=
  analysed (content r) (ai_response r) /\
  agent_count (analysis_metadata r) = 3 /\
  content_type (analysis_metadata r) = item_type (content r).

End Pipeline.

(* ===================================================================== *)
(** ** query_ollama of experimental/novelty_tracker.py *)
(* ===================================================================== *)

Module Selection.
Import Novelty.




Section QueryOllama.
(** [generate k prompt]: what the [k]-th call
    [client.generate(model=AI_MODEL, prompt=prompt)['response']] gives,
    [None] when it raises.  The client and the model name are not defined
    in the file; they are taken as given. *)
Variable generate : nat -> string -> option string.

(** Lines 162 to 169, once the three scores are there.  The weighted
    scores [(1-w)*1.0 + w*n] and their [np.argmax] are computed in double
    precision, where rounding decides between candidates whose exact scores
    are equal or close (two texts with the same lines in another order
    need not get the same sum).  The index chosen is therefore not
    computed from the exact scores but left abstract:
    [best_index t responses]. *)
Variable best_index : Tracker -> list string -> nat.


End QueryOllama.

End Selection.

(* ===================================================================== *)
(** ** The batching processor of docs/clipboard.py *)
(* ===================================================================== *)

Module Batch.
Import Clipboard.

Definition batch_size : nat := 5.

(** How the inner loop of [content_processor] is left: by its own test, or
    by the exception [queue.Empty] of [get_nowait], which the handler of
    the outer loop catches. *)
Inductive ending := Collected | QueueEmpty.

Section Collect.
(** [main] starts [concurrent_agents] = 2 threads that run
    [content_processor] on the same queue, next to the collector.
    [others k queue] is the queue as this thread finds it at its [k]-th
    look, [queue] being the queue as it left it at the look before: in
    between, the other processor may have taken items off and the
    collector may have put some on. *)
Variable others : nat -> list ContentItem -> list ContentItem.

(** The loop
    [while len(batch) < batch_size and not content_queue.empty()], with
    the handler [except Exception: batch = []] of the loop around it.
    [room] is [batch_size - len(batch)], so that [len(batch) < batch_size]
    reads [0 < room]; [looks] counts the looks at the queue ([empty()],
    then [get_nowait()]); [taken] lists the items this thread has taken off
    the queue.  An item is a non-empty dict, so [if content] holds.
    Returns how the loop was left, the batch, the items taken, and the
    queue as this thread leaves it. *)
Fixpoint collect_batch (room looks : nat) (batch taken queue : list ContentItem)
  : ending * list ContentItem * list ContentItem * list ContentItem :=
  match room with
  | O => (Collected, batch, taken, queue)
  | S room1 =>
      match others looks queue with
      | [] => (Collected, batch, taken, [])
      | seen =>
          match others (S looks) seen with
          | [] => (QueueEmpty, [], taken, [])
          | content :: rest =>
              collect_batch room1 (S (S looks)) (batch ++ [content])
                            (taken ++ [content]) rest
          end
      end
  end.

(** The loop as an iteration of [content_processor] enters it: the batch
    is empty then. *)
Definition collect (queue : list ContentItem)
  : ending * list ContentItem * list ContentItem * list ContentItem :=
  collect_batch batch_size 0 [] [] queue.
End Collect.

(** No other thread acts on the queue. *)
Definition alone (k : nat) (queue : list ContentItem) : list ContentItem :=
  queue.

End Batch.

(* ===================================================================== *)
(** ** Notions used to state the further properties *)
(* ===================================================================== *)

Module Notions.

(** A text that does not begin with white space. *)
Definition clean_start (s : string) : Prop :=
  match s with
  | EmptyString => True
  | String c _ => PyStr.is_space c = false
  end.

(** The calls and the sleeps recorded in a piece of the adapter's log. *)
Definition calls_in (log : list Clipboard.event) : nat :=
  length (List.filter (fun e => match e with Clipboard.EvCall _ => true | _ => false end) log).

Definition seconds_slept (log : list Clipboard.event) : nat :=
  foldr (fun e acc => match e with Clipboard.EvSleep n => n + acc | _ => acc end) 0 log.

(** The texts carried by the chunks of a stream, and their concatenation. *)
Definition delta_texts (chunks : list Clipboard.chunk) : list string :=
  omap Clipboard.chunk_text chunks.

Definition concat_texts (texts : list string) : string :=
  foldr String.append "" texts.

(** The texts of a list where they first occur: every later repetition of
    a text is left out. *)
Fixpoint first_occurrences (texts : list string) : list string :=
  match texts with
  | [] => []
  | x :: more => x :: filter (fun y => y <> x) (first_occurrences more)
  end.

(** An entry of an analysis as [analyze_content] stores it for the content
    type [ct]: a usable answer, with the type and the role of a persona of
    the roster. *)
Definition entry_ok (ct : string) (e : string * Clipboard.AgentResult) : Prop :=
  Clipboard.rejected (Clipboard.result_response (snd e)) = false /\
  PyStr.strip (Clipboard.result_response (snd e))
  = Clipboard.result_response (snd e) /\
  Clipboard.context_content_type (snd e) = ct /\
  exists agent,
    In (fst e, agent) Clipboard.AGENT_CONFIG /\
    Clipboard.context_role (snd e) = Clipboard.personality agent.

End Notions.

(* ===================================================================== *)
(** * Properties *)
(* ===================================================================== *)

Module PyStrFacts.
Import PyStr.

(** The primitives on the inputs the claims turn on. *)
Example split_two_colons :
  split colon "time: 12:30" = ["time"; " 12"; "30"].
Proof. reflexivity. Qed.

Example split_one_colon : split colon "topic: space" = ["topic"; " space"].
Proof. reflexivity. Qed.

Example split_empty : split newline "" = [""].
Proof. reflexivity. Qed.

Example split_lines :
  split newline ("a: b" +:+ nl +:+ nl +:+ "c") = ["a: b"; ""; "c"].
Proof. reflexivity. Qed.

Example strip_both_ends : strip ("  a b " +:+ nl) = "a b".
Proof. reflexivity. Qed.

Example strip_blank : strip "   " = "".
Proof. reflexivity. Qed.

Example count_does_not_overlap : count "    " "         " = 2.
Proof. reflexivity. Qed.

Example count_def : count "def " "def f(): def g(): undef h" = 3.
Proof. reflexivity. Qed.

Example format_replaces_field :
  format "Previous context: {prev_thoughts}!" "no_previous: true"
  = "Previous context: no_previous: true!".
Proof. reflexivity. Qed.

Example join_lines : join nl ["a"; "b"] = "a" +:+ nl +:+ "b".
Proof. reflexivity. Qed.


Lemma append_cons (x : ascii) (a b : string) :
  String x a +:+ b = String x (a +:+ b).
Proof. reflexivity. Qed.

Lemma append_assoc (a b c : string) : (a +:+ b) +:+ c = a +:+ (b +:+ c).
Proof.
  induction a as [|x a IH]; [reflexivity|].
  rewrite !append_cons. now rewrite IH.
Qed.

Lemma append_empty_r (a : string) : a +:+ "" = a.
Proof.
  induction a as [|x a IH]; [reflexivity|].
  rewrite append_cons. now rewrite IH.
Qed.

Lemma length_append (a b : string) :
  String.length (a +:+ b) = String.length a + String.length b.
Proof.
  induction a as [|x a IH]; [reflexivity|].
  rewrite append_cons. simpl. now rewrite IH.
Qed.




Lemma lstrip_length (s : string) : String.length (lstrip s) <= String.length s.
Proof.
  induction s as [|c s IH]; simpl; [lia|].
  destruct (is_space c); simpl; lia.
Qed.

Lemma rstrip_length (s : string) : String.length (rstrip s) <= String.length s.
Proof.
  induction s as [|c s IH]; simpl; [lia|].
  destruct (rstrip s) eqn:E; simpl in *; [destruct (is_space c); simpl; lia | lia].
Qed.

Lemma strip_length (s : string) : String.length (strip s) <= String.length s.
Proof.
  unfold strip. pose proof (rstrip_length (lstrip s)). pose proof (lstrip_length s). lia.
Qed.

End PyStrFacts.

Module ClipboardFacts.
Import Clipboard.

(* =================================================================== *)
(** ** The classifier *)
(* =================================================================== *)

Lemma code_score_def (text : string) :
  3 * PyStr.count "def " text <= code_score text.
Proof. unfold code_score, weighted_score, code_indicators. simpl. lia. Qed.

Lemma weighted_score_none (table : list (string * nat)) (text : string) :
  (forall ind, In ind (map fst table) -> PyStr.count ind text = 0) ->
  weighted_score table text = 0.
Proof.
  induction table as [|[ind w] table IH]; simpl; intros H; [reflexivity|].
  rewrite (H ind) by now left.
  rewrite IH; [reflexivity|]. intros i Hi. apply H. now right.
Qed.

(** C6. For a text item, [analyze_content_type] answers "code" exactly when
    the weighted code score is above 10, else "structured_data" exactly
    when the weighted structured-data score is above 10, else
    "natural_text".  A text with 11 occurrences of "def " is code; a text
    in which no indicator occurs is natural text.  An item that is not
    text is answered with its own type, whatever its scores. *)
Theorem analyze_content_type_decision (c : ContentItem) :
  (item_type c <> "text" -> analyze_content_type c = item_type c) /\
  (item_type c = "text" ->
     let text := item_content c in
     (analyze_content_type c = "code" <-> 10 < code_score text) /\
     (analyze_content_type c = "structured_data" <->
        code_score text <= 10 /\ 10 < structured_score text) /\
     (analyze_content_type c = "natural_text" <->
        code_score text <= 10 /\ structured_score text <= 10) /\
     (PyStr.count "def " text = 11 -> analyze_content_type c = "code") /\
     ((forall ind,
          In ind (map fst (code_indicators ++ structured_indicators)) ->
          PyStr.count ind text = 0) ->
      analyze_content_type c = "natural_text")).
Proof.
  unfold analyze_content_type. split.
  - intros Hne. destruct (String.eqb_spec (item_type c) "text") as [E|E];
      [contradiction | reflexivity].
  - intros Ht. cbv zeta. rewrite Ht.
    change (negb (String.eqb "text" "text")) with false. cbv iota.
    set (text := item_content c).
    assert (Hdec :
      (10 < code_score text /\
         (if (10 <? code_score text)%nat then "code"
          else if (10 <? structured_score text)%nat then "structured_data"
          else "natural_text") = "code") \/
      (code_score text <= 10 /\ 10 < structured_score text /\
         (if (10 <? code_score text)%nat then "code"
          else if (10 <? structured_score text)%nat then "structured_data"
          else "natural_text") = "structured_data") \/
      (code_score text <= 10 /\ structured_score text <= 10 /\
         (if (10 <? code_score text)%nat then "code"
          else if (10 <? structured_score text)%nat then "structured_data"
          else "natural_text") = "natural_text")).
    { destruct (Nat.ltb_spec 10 (code_score text)); [left; auto|].
      destruct (Nat.ltb_spec 10 (structured_score text)); right; [left|right]; auto. }
    repeat split.
    + intros E. destruct Hdec as [[? _]|[(_ & _ & E')|(_ & _ & E')]];
        [assumption | rewrite E' in E; discriminate..].
    + intros H. destruct Hdec as [[_ E]|[(? & _)|(? & _)]]; [assumption | lia..].
    + destruct Hdec as [[_ E']|[(? & _)|(_ & _ & E')]];
        [rewrite E' in H; discriminate | assumption | rewrite E' in H; discriminate].
    + destruct Hdec as [[_ E']|[(_ & ? & _)|(_ & _ & E')]];
        [rewrite E' in H; discriminate | assumption | rewrite E' in H; discriminate].
    + intros [H1 H2]. destruct Hdec as [[? _]|[(_ & _ & E')|(_ & ? & _)]];
        [lia | assumption | lia].
    + destruct Hdec as [[_ E']|[(_ & _ & E')|(? & _)]];
        [rewrite E' in H; discriminate.. | assumption].
    + destruct Hdec as [[_ E']|[(_ & _ & E')|(_ & ? & _)]];
        [rewrite E' in H; discriminate.. | assumption].
    + intros [H1 H2]. destruct Hdec as [[? _]|[(_ & ? & _)|(_ & _ & E')]];
        [lia.. | assumption].
    + intros H11. pose proof (code_score_def text) as Hs.
      destruct Hdec as [[_ E]|[(? & _)|(? & _)]]; [assumption | lia..].
    + intros Hnone.
      assert (Hc : code_score text = 0).
      { apply weighted_score_none. intros i Hi. apply Hnone.
        rewrite map_app. apply in_or_app. now left. }
      assert (Hs : structured_score text = 0).
      { apply weighted_score_none. intros i Hi. apply Hnone.
        rewrite map_app. apply in_or_app. now right. }
      destruct Hdec as [[? _]|[(_ & ? & _)|(_ & _ & E')]]; [lia.. | assumption].
Qed.

Lemma analyze_content_type_witness :
  analyze_content_type
    (mkContent "text" (PyStr.join "" (PyStr.repeat_line "def " 11)) "h")
  = "code" /\
  analyze_content_type
    (mkContent "text" "hello world this is a test clipboard entry" "h")
  = "natural_text" /\
  analyze_content_type (mkContent "image" "shot.png" "h") = "image".
Proof.
  split; [|split].
  - apply (proj1 (proj2 (proj2 (proj2
             (proj2 (analyze_content_type_decision
                       (mkContent "text"
                          (PyStr.join "" (PyStr.repeat_line "def " 11)) "h"))
                    eq_refl))))).
    vm_compute. reflexivity.
  - apply (proj2 (proj2 (proj2 (proj2
             (proj2 (analyze_content_type_decision
                       (mkContent "text"
                          "hello world this is a test clipboard entry" "h"))
                    eq_refl))))).
    intros ind Hin. simpl in Hin.
    repeat (destruct Hin as [<-|Hin]; [vm_compute; reflexivity|]).
    destruct Hin.
  - apply (proj1 (analyze_content_type_decision
                    (mkContent "image" "shot.png" "h"))).
    discriminate.
Defined.

(* =================================================================== *)
(** ** The deduplication gate *)
(* =================================================================== *)

Section GateFacts.
Variable md5_hex get_image_hash : string -> string.

Local Abbreviation gate := (process_clipboard_content md5_hex get_image_hash).
Local Abbreviation fingerprint := (Clipboard.fingerprint md5_hex).
Local Abbreviation skip_condition := (Clipboard.skip_condition md5_hex).

Lemma gate_skips text shot st :
  skip_condition text shot st = true -> gate text shot st = (None, st).
Proof.
  unfold Clipboard.skip_condition, Clipboard.fingerprint, process_clipboard_content.
  intros ->. reflexivity.
Qed.

Lemma gate_then_skips text shot st :
  skip_condition text shot (snd (gate text shot st)) = true.
Proof.
  destruct (skip_condition text shot st) eqn:Hs.
  - rewrite gate_skips by assumption. exact Hs.
  - unfold Clipboard.skip_condition, Clipboard.fingerprint in *.
    unfold process_clipboard_content. rewrite Hs.
    destruct (truthy text); [|destruct shot]; simpl;
      rewrite String.eqb_refl; reflexivity.
Qed.

Lemma poll_again_skipped n text shot st :
  skip_condition text shot st = true ->
  poll_again md5_hex get_image_hash n text shot st = (repeat None n, st).
Proof.
  intros Hs. induction n as [|n IH]; [reflexivity|].
  simpl. rewrite gate_skips by assumption.
  rewrite IH. reflexivity.
Qed.

(** C7 (amended). The gate produces no item and leaves its state alone
    when the fingerprint equals the last one seen or the text is shorter
    than [min_content_length].  Otherwise it records the fingerprint as
    last seen and, when the capture has clipboard text or a screenshot,
    produces an item carrying that fingerprint; with neither it produces
    no item.  After any call, every further call on the same clipboard
    and screenshot is skipped and changes nothing. *)
Theorem dedup_gate text shot st :
  (skip_condition text shot st = true -> gate text shot st = (None, st)) /\
  (skip_condition text shot st = false ->
     last_content_hash (snd (gate text shot st))
     = Some (fingerprint text shot) /\
     (truthy text = true \/ shot <> None ->
      exists item, fst (gate text shot st) = Some item /\
                   item_hash item = fingerprint text shot) /\
     (truthy text = false -> shot = None ->
      fst (gate text shot st) = None)) /\
  (forall n,
      poll_again md5_hex get_image_hash n text shot (snd (gate text shot st))
      = (repeat None n, snd (gate text shot st))).
Proof.
  split; [apply gate_skips|]. split.
  - intros Hs. unfold process_clipboard_content.
    unfold Clipboard.skip_condition, Clipboard.fingerprint in Hs. rewrite Hs.
    unfold Clipboard.fingerprint.
    destruct (truthy text) eqn:Ht; [|destruct shot as [p|]]; simpl.
    + split; [reflexivity|]. split; [|discriminate].
      intros _. eexists; split; reflexivity.
    + split; [reflexivity|]. split; [|discriminate].
      intros _. eexists; split; reflexivity.
    + split; [reflexivity|]. split; [|reflexivity].
      intros [H|H]; [discriminate | contradiction].
  - intros n. apply poll_again_skipped, gate_then_skips.
Qed.
End GateFacts.

(** C7, the claim as stated fails on a capture with an empty clipboard and
    no screenshot: neither skip condition holds, yet no item is produced,
    and the last-seen fingerprint changes although nothing was accepted. *)
Lemma empty_capture_updates_fingerprint :
  Clipboard.skip_condition (fun s => s) "" None (mkGate None []) = false /\
  process_clipboard_content (fun s => s) (fun s => s) "" None (mkGate None [])
  = (None, mkGate (Some "None") []).
Proof. split; reflexivity. Qed.

Lemma dedup_gate_witness :
  process_clipboard_content (fun s => s) (fun s => s)
    "hello world this is a test clipboard entry" None (mkGate None [])
  = (Some (mkContent "text" "hello world this is a test clipboard entry"
                     "hello world this is a test clipboard entry"),
     mkGate (Some "hello world this is a test clipboard entry") []) /\
  poll_again (fun s => s) (fun s => s) 4
    "hello world this is a test clipboard entry" None
    (mkGate (Some "hello world this is a test clipboard entry") [])
  = ([None; None; None; None],
     mkGate (Some "hello world this is a test clipboard entry") []).
Proof.
  split; [reflexivity|].
  exact (proj2 (proj2 (dedup_gate (fun s => s) (fun s => s)
           "hello world this is a test clipboard entry" None (mkGate None [])))
           4).
Defined.

(* =================================================================== *)
(** ** The inference adapter *)
(* =================================================================== *)

Section AdapterFacts.
Variable client : nat -> string -> call_result.
Variable now_iso : string.

Lemma attempt_loop_returns remaining attempt prompt w :
  retry_attempts <= attempt + remaining -> 0 < remaining ->
  exists r w', attempt_loop client now_iso remaining attempt prompt w = (Some r, w').
Proof.
  revert attempt w. induction remaining as [|k IH]; intros attempt w Hle Hpos; [lia|].
  simpl. destruct (client (calls_made w) (prompt +:+ instruction_suffix)) as [e|chunks fails].
  - destruct (attempt <? 2)%nat eqn:Hlt.
    + apply Nat.ltb_lt in Hlt. apply IH; unfold retry_attempts in *; lia.
    + eauto.
  - destruct (consume chunks ∅ "") as [full broke]. eauto.
Qed.

(** The adapter always returns a dict: neither an exception nor [None]. *)
Lemma query_llama_stack_returns prompt w :
  exists r w', query_llama_stack client now_iso prompt w = (Some r, w').
Proof.
  unfold query_llama_stack. apply attempt_loop_returns; unfold retry_attempts; lia.
Qed.

(** C8. When every attempt raises a transport error, the adapter calls
    the client exactly three times, sleeps [retry_delay] seconds between
    attempts, and returns the sentinel dict whose response starts with
    "Error:"; it does not raise. *)
Theorem transport_errors_exhaust_retries prompt w (errors : nat -> string) :
  (forall k, calls_made w <= k < calls_made w + retry_attempts ->
             client k (prompt +:+ instruction_suffix) = CallRaises (errors k)) ->
  query_llama_stack client now_iso prompt w
  = (Some (error_response (errors (calls_made w + 2))),
     mkNet (calls_made w + 3)
           (events w ++ [ EvCall (prompt +:+ instruction_suffix);
                          EvSleep retry_delay;
                          EvCall (prompt +:+ instruction_suffix);
                          EvSleep retry_delay;
                          EvCall (prompt +:+ instruction_suffix) ])) /\
  PyStr.startswith "Error:"
    (response (error_response (errors (calls_made w + 2)))) = true.
Proof.
  intros Herr. split; [|reflexivity].
  unfold query_llama_stack, retry_attempts in *. simpl.
  rewrite (Herr (calls_made w)) by lia.
  rewrite (Herr (S (calls_made w))) by lia.
  rewrite (Herr (S (S (calls_made w)))) by lia.
  replace (calls_made w + 2) with (S (S (calls_made w))) by lia.
  replace (calls_made w + 3) with (S (S (S (calls_made w)))) by lia.
  rewrite <- !app_assoc. reflexivity.
Qed.
End AdapterFacts.

Lemma transport_errors_witness :
  query_llama_stack (fun _ _ => CallRaises "connection refused") "now" "p"
                    (mkNet 0 [])
  = (Some (error_response "connection refused"),
     mkNet 3 [ EvCall ("p" +:+ instruction_suffix); EvSleep 5;
               EvCall ("p" +:+ instruction_suffix); EvSleep 5;
               EvCall ("p" +:+ instruction_suffix) ]).
Proof.
  exact (proj1 (transport_errors_exhaust_retries
                  (fun _ _ => CallRaises "connection refused") "now" "p"
                  (mkNet 0 []) (fun _ => "connection refused")
                  (fun k _ => eq_refl))).
Defined.

(** What [consume] returns is a text of at most [length_limit] characters
    followed by at most one more delta; the loop is left by [break]
    exactly when the text has grown beyond the limit. *)
Lemma consume_bound chunks seen full :
  String.length full <= length_limit ->
  exists before last,
    fst (consume chunks seen full) = before +:+ last /\
    String.length before <= length_limit /\
    (last = "" \/ In (Some last) (map chunk_text chunks)) /\
    (snd (consume chunks seen full) = false ->
     String.length (fst (consume chunks seen full)) <= length_limit) /\
    (snd (consume chunks seen full) = true ->
     length_limit < String.length (fst (consume chunks seen full))).
Proof.
  revert seen full. induction chunks as [|ch rest IH]; intros seen full Hfull.
  - exists full, "". simpl. rewrite PyStrFacts.append_empty_r.
    repeat split; auto; discriminate.
  - simpl. destruct (chunk_text ch) as [new_text|] eqn:Hch.
    + destruct (decide (new_text ∈ seen)) as [Hin|Hnin].
      * destruct (Nat.ltb_spec length_limit (String.length full)) as [Hgt|Hle]; [lia|].
        destruct (IH seen full Hfull) as (b & l & E & Hb & Hl & Hf & Ht).
        exists b, l. repeat split; auto. destruct Hl; auto.
      * destruct (Nat.ltb_spec length_limit (String.length (full +:+ new_text)))
          as [Hgt|Hle].
        -- exists full, new_text. simpl. repeat split; auto; discriminate.
        -- destruct (IH ({[new_text]} ∪ seen) (full +:+ new_text) Hle)
             as (b & l & E & Hb & Hl & Hf & Ht).
           exists b, l. repeat split; auto. destruct Hl; auto.
    + destruct (IH seen full Hfull) as (b & l & E & Hb & Hl & Hf & Ht).
      exists b, l. repeat split; auto. destruct Hl; auto.
Qed.

(** C9, the claim as stated fails: one delta of 1001 characters is returned
    whole. *)
Lemma long_delta_exceeds_ceiling :
  let delta := PyStr.join "" (PyStr.repeat_line "a" 1001) in
  option_map (fun r => String.length (response r))
    (fst (query_llama_stack (fun _ _ => CallReturns [EventDelta delta] false)
                            "now" "p" (mkNet 0 [])))
  = Some 1001.
Proof. vm_compute. reflexivity. Qed.

Lemma first_occurrences_NoDup texts :
  NoDup (Notions.first_occurrences texts).
Proof.
  induction texts as [|x more IH]; [constructor|].
  cbn [Notions.first_occurrences]. constructor.
  - intros Hin. apply list_elem_of_filter in Hin as [Hne _]. now apply Hne.
  - now apply NoDup_filter.
Qed.

Lemma filter_unseen_seen (seen : gset string) x (l : list string) :
  x ∈ seen ->
  filter (fun y => y ∉ seen) (filter (fun y => y <> x) l)
  = filter (fun y => y ∉ seen) l.
Proof.
  intros Hx. rewrite list_filter_filter. apply list_filter_iff.
  intros y. split; [tauto|]. intros Hy. split; [exact Hy|].
  intros ->. contradiction.
Qed.

Lemma filter_unseen_add (seen : gset string) x (l : list string) :
  filter (fun y => y ∉ seen) (filter (fun y => y <> x) l)
  = filter (fun y => y ∉ {[ x ]} ∪ seen) l.
Proof.
  rewrite list_filter_filter. apply list_filter_iff.
  intros y. rewrite elem_of_union, elem_of_singleton. tauto.
Qed.

Lemma filter_unseen_none (seen : gset string) (l : list string) :
  seen = ∅ -> filter (fun y => y ∉ seen) l = l.
Proof.
  intros ->. induction l as [|x l IH]; [reflexivity|].
  rewrite filter_cons_True by apply not_elem_of_empty. now rewrite IH.
Qed.

(** What [consume] appends to [full]: the deltas of the part of the stream
    it has read, in their order, without those seen before and without
    their own repetitions; the part read is the whole stream unless the
    loop was left by [break]. *)
Lemma consume_dedup chunks seen full :
  exists taken rest,
    chunks = taken ++ rest /\
    (rest = [] \/ snd (consume chunks seen full) = true) /\
    fst (consume chunks seen full)
    = full +:+ Notions.concat_texts
                 (filter (fun y => y ∉ seen)
                    (Notions.first_occurrences (Notions.delta_texts taken))).
Proof.
  unfold Notions.concat_texts, Notions.delta_texts.
  revert seen full. induction chunks as [|ch more IH]; intros seen full.
  - exists [], []. split; [reflexivity|]. split; [left; reflexivity|].
    cbn. now rewrite PyStrFacts.append_empty_r.
  - cbn [consume]. destruct (chunk_text ch) as [new_text|] eqn:Hch.
    + destruct (decide (new_text ∈ seen)) as [Hin|Hnin].
      * destruct (length_limit <? String.length full)%nat.
        -- exists [ch], more. split; [reflexivity|]. split; [right; reflexivity|].
           cbn [omap list_omap Notions.first_occurrences fst]. rewrite Hch.
           cbn [Notions.first_occurrences]. rewrite filter_nil.
           rewrite filter_cons_False by (intros Hc; apply Hc; exact Hin).
           rewrite filter_nil. cbn. now rewrite PyStrFacts.append_empty_r.
        -- destruct (IH seen full) as (taken & rest & -> & Hrest & E).
           exists (ch :: taken), rest. split; [reflexivity|].
           split; [exact Hrest|]. rewrite E.
           cbn [omap list_omap]. rewrite Hch.
           cbn [Notions.first_occurrences].
           rewrite filter_cons_False by (intros Hc; apply Hc; exact Hin).
           now rewrite filter_unseen_seen.
      * destruct (length_limit <? String.length (full +:+ new_text))%nat.
        -- exists [ch], more. split; [reflexivity|]. split; [right; reflexivity|].
           cbn [omap list_omap Notions.first_occurrences fst]. rewrite Hch.
           cbn [Notions.first_occurrences]. rewrite filter_nil.
           rewrite filter_cons_True by exact Hnin.
           rewrite filter_nil. cbn [foldr].
           now rewrite PyStrFacts.append_empty_r.
        -- destruct (IH ({[new_text]} ∪ seen) (full +:+ new_text))
             as (taken & rest & -> & Hrest & E).
           exists (ch :: taken), rest. split; [reflexivity|].
           split; [exact Hrest|]. rewrite E.
           cbn [omap list_omap]. rewrite Hch.
           cbn [Notions.first_occurrences].
           rewrite filter_cons_True by exact Hnin.
           rewrite filter_unseen_add. cbn [foldr].
           now rewrite PyStrFacts.append_assoc.
    + destruct (IH seen full) as (taken & rest & -> & Hrest & E).
      exists (ch :: taken), rest. split; [reflexivity|].
      split; [exact Hrest|]. rewrite E.
      cbn [omap list_omap]. rewrite Hch. reflexivity.
Qed.

(** C9 (amended). Concatenation stops as soon as the assembled text is
    longer than 1000 characters, without truncating it.  Unless it is the
    error sentinel, the text returned is the assembled text of a call that
    returned, stripped.  The assembled text is the concatenation, in their
    order, of the deltas of the part of the stream that was read, each text
    appended where it first occurs and never again; the part read is the
    whole stream unless the text has grown beyond 1000 characters; and the
    text is made of at most 1000 characters followed by at most one more
    delta of the stream.  So when no delta is longer than [m], the text
    returned has at most [1000 + m] characters. *)
Theorem response_length_bound client now_iso prompt w (m : nat) :
  (forall k msg chunks fails delta,
      client k msg = CallReturns chunks fails ->
      In (Some delta) (map chunk_text chunks) ->
      String.length delta <= m) ->
  exists r w',
    query_llama_stack client now_iso prompt w = (Some r, w') /\
    String.length (response r) <= length_limit + m /\
    (response r = "Error: Llama Stack server unavailable" \/
     exists k chunks fails taken rest before last,
       client k (prompt +:+ instruction_suffix) = CallReturns chunks fails /\
       chunks = taken ++ rest /\
       (rest = [] \/ length_limit < String.length (before +:+ last)) /\
       before +:+ last
       = Notions.concat_texts
           (Notions.first_occurrences (Notions.delta_texts taken)) /\
       NoDup (Notions.first_occurrences (Notions.delta_texts taken)) /\
       String.length before <= length_limit /\
       (last = "" \/ In (Some last) (map chunk_text chunks)) /\
       response r = PyStr.strip (before +:+ last)).
Proof.
  intros Hm. unfold query_llama_stack.
  assert (Hgen : forall remaining attempt w0,
             retry_attempts <= attempt + remaining -> 0 < remaining ->
             exists r w',
               attempt_loop client now_iso remaining attempt prompt w0 = (Some r, w') /\
               String.length (response r) <= length_limit + m /\
               (response r = "Error: Llama Stack server unavailable" \/
                exists k chunks fails taken rest before last,
                  client k (prompt +:+ instruction_suffix)
                  = CallReturns chunks fails /\
                  chunks = taken ++ rest /\
                  (rest = [] \/ length_limit < String.length (before +:+ last)) /\
                  before +:+ last
                  = Notions.concat_texts
                      (Notions.first_occurrences (Notions.delta_texts taken)) /\
                  NoDup (Notions.first_occurrences (Notions.delta_texts taken)) /\
                  String.length before <= length_limit /\
                  (last = "" \/ In (Some last) (map chunk_text chunks)) /\
                  response r = PyStr.strip (before +:+ last))).
  { induction remaining as [|k IH]; intros attempt w0 Hle Hpos; [lia|].
    cbn [attempt_loop].
    destruct (client (calls_made w0) (prompt +:+ instruction_suffix))
      as [e|chunks fails] eqn:Hc.
    - destruct (attempt <? retry_attempts - 1)%nat eqn:Hlt.
      + apply Nat.ltb_lt in Hlt. apply IH; unfold retry_attempts in *; lia.
      + do 2 eexists. split; [reflexivity|]. cbn [response error_response].
        split; [|left; reflexivity].
        unfold length_limit. apply Nat.le_trans with 1000; [|lia].
        apply Nat.leb_le. reflexivity.
    - destruct (consume_bound chunks ∅ "") as (b & l & E & Hb & Hl & _ & Hbroke).
      { simpl. unfold length_limit. lia. }
      destruct (consume_dedup chunks ∅ "") as (taken & rest & Echunks & Hrest & Ep).
      rewrite (filter_unseen_none ∅) in Ep by reflexivity.
      destruct (consume chunks ∅ "") as [full broke]. cbn [fst snd] in *.
      change ("" +:+ ?x) with x in Ep.
      do 2 eexists. split; [reflexivity|]. cbn [response]. split.
      + subst full.
        pose proof (PyStrFacts.strip_length (b +:+ l)) as Hs.
        rewrite PyStrFacts.length_append in Hs.
        destruct Hl as [->|Hin]; [cbn [String.length] in Hs; lia|].
        specialize (Hm _ _ _ _ _ Hc Hin). lia.
      + right. exists (calls_made w0), chunks, fails, taken, rest, b, l.
        split; [exact Hc|]. split; [exact Echunks|].
        split.
        { destruct Hrest as [Hnil|Hb']; [left; exact Hnil|].
          right. rewrite <- E. exact (Hbroke Hb'). }
        split; [rewrite <- E; exact Ep|].
        split; [apply first_occurrences_NoDup|].
        split; [exact Hb|]. split; [exact Hl|]. rewrite E. reflexivity. }
  apply Hgen; unfold retry_attempts; lia.
Qed.

(** The delta "key: " comes twice in the stream and once in the answer. *)
Lemma response_length_bound_witness :
  exists r w',
    query_llama_stack
      (fun _ _ => CallReturns
                    [EventDelta "key: "; EventDelta "key: "; EventDelta "value"]
                    false)
      "now" "p" (mkNet 0 []) = (Some r, w') /\
    String.length (response r) <= length_limit + 5 /\
    response r = "key: value".
Proof.
  destruct (response_length_bound
              (fun _ _ => CallReturns
                            [EventDelta "key: "; EventDelta "key: "; EventDelta "value"]
                            false)
              "now" "p" (mkNet 0 []) 5) as (r & w' & E & Hlen & _).
  - intros k msg chunks fails delta Hc Hin. injection Hc as <- _.
    simpl in Hin. destruct Hin as [H|[H|[H|[]]]]; injection H as <-;
      apply Nat.leb_le; reflexivity.
  - exists r, w'. split; [exact E|]. split; [exact Hlen|].
    vm_compute in E. injection E as <- _. reflexivity.
Defined.

(* =================================================================== *)
(** ** The multi-agent analyzer *)
(* =================================================================== *)



Lemma format_previous_thoughts_none :
  format_previous_thoughts [] = Ok "no_previous: true".
Proof. reflexivity. Qed.

Lemma format_previous_thoughts_one a :
  format_previous_thoughts [a] = Ok (block_of "curator" a).
Proof. reflexivity. Qed.

Lemma format_previous_thoughts_two a b :
  format_previous_thoughts [a; b]
  = Ok (block_of "curator" a +:+ PyStr.nl +:+ block_of "analyst" b).
Proof. reflexivity. Qed.

Ltac close_shape K1 K2 K3 :=
  do 5 eexists; (split; [reflexivity|]);
  repeat split; repeat constructor;
  cbn; rewrite ?K1, ?K2, ?K3; reflexivity.

Section AnalyzerFacts.
Variable client : nat -> string -> call_result.
Variable now_iso : string.
Variable content : ContentItem.

Local Abbreviation ct := (analyze_content_type content).
Local Abbreviation shown := (truncate_content (item_content content) 512).

(** What one run of the agent loop looks like: three steps in roster
    order, each prompt rendered from the thoughts kept so far, and one
    entry of the result per kept step. *)
Lemma analyze_content_shape w :
  exists final s1 s2 s3 w',
    analyze_content_traced client now_iso content w
    = (Some final, [s1; s2; s3], w') /\
    map step_agent [s1; s2; s3] = ["curator"; "analyst"; "synthesizer"] /\
    map fst final = map step_agent (List.filter step_kept [s1; s2; s3]) /\
    Forall (fun s => step_kept s = negb (rejected (step_response_text s)))
           [s1; s2; s3] /\
    step_prompt s1 = render_prompt ct curator (step_prev_thoughts s1) shown /\
    step_prompt s2 = render_prompt ct analyst (step_prev_thoughts s2) shown /\
    step_prompt s3 = render_prompt ct synthesizer (step_prev_thoughts s3) shown /\
    format_previous_thoughts [] = Ok (step_prev_thoughts s1) /\
    format_previous_thoughts
      (map step_response_text (List.filter step_kept [s1]))
    = Ok (step_prev_thoughts s2) /\
    format_previous_thoughts
      (map step_response_text (List.filter step_kept [s1; s2]))
    = Ok (step_prev_thoughts s3).
Proof.
  unfold analyze_content_traced, AGENT_CONFIG.
  cbn [agent_loop]. rewrite ?format_previous_thoughts_none.
  destruct (query_llama_stack_returns client now_iso
              (render_prompt ct curator "no_previous: true" shown) w)
    as (r1 & w1 & ->).
  destruct (rejected (PyStr.strip (response r1))) eqn:K1;
    cbn [agent_loop app].
  - rewrite ?format_previous_thoughts_none.
    destruct (query_llama_stack_returns client now_iso
                (render_prompt ct analyst "no_previous: true" shown) w1)
      as (r2 & w2 & ->).
    destruct (rejected (PyStr.strip (response r2))) eqn:K2;
      cbn [agent_loop app].
    + rewrite ?format_previous_thoughts_none.
      destruct (query_llama_stack_returns client now_iso
                  (render_prompt ct synthesizer "no_previous: true" shown) w2)
        as (r3 & w3 & ->).
      destruct (rejected (PyStr.strip (response r3))) eqn:K3;
        close_shape K1 K2 K3.
    + rewrite ?format_previous_thoughts_one.
      destruct (query_llama_stack_returns client now_iso
                  (render_prompt ct synthesizer
                     (block_of "curator" (PyStr.strip (response r2))) shown) w2)
        as (r3 & w3 & ->).
      destruct (rejected (PyStr.strip (response r3))) eqn:K3;
        close_shape K1 K2 K3.
  - rewrite ?format_previous_thoughts_one.
    destruct (query_llama_stack_returns client now_iso
                (render_prompt ct analyst
                   (block_of "curator" (PyStr.strip (response r1))) shown) w1)
      as (r2 & w2 & ->).
    destruct (rejected (PyStr.strip (response r2))) eqn:K2;
      cbn [agent_loop app].
    + rewrite ?format_previous_thoughts_one.
      destruct (query_llama_stack_returns client now_iso
                  (render_prompt ct synthesizer
                     (block_of "curator" (PyStr.strip (response r1))) shown) w2)
        as (r3 & w3 & ->).
      destruct (rejected (PyStr.strip (response r3))) eqn:K3;
        close_shape K1 K2 K3.
    + rewrite ?format_previous_thoughts_two.
      destruct (query_llama_stack_returns client now_iso
                  (render_prompt ct synthesizer
                     (block_of "curator" (PyStr.strip (response r1))
                      +:+ PyStr.nl
                      +:+ block_of "analyst" (PyStr.strip (response r2)))
                     shown) w2)
        as (r3 & w3 & ->).
      destruct (rejected (PyStr.strip (response r3))) eqn:K3;
        close_shape K1 K2 K3.
Qed.
End AnalyzerFacts.





(* =================================================================== *)
(** ** The dataset sink *)
(* =================================================================== *)

Lemma filter_kept_length (steps : list Step) :
  length (List.filter step_kept steps) <= length steps /\
  (Exists (fun s => step_kept s = false) steps ->
   length (List.filter step_kept steps) < length steps).
Proof.
  induction steps as [|s steps [IH1 IH2]]; simpl.
  - split; [lia|]. intros H. inversion H.
  - destruct (step_kept s) eqn:K; simpl; split; try lia.
    + intros H. apply Exists_cons in H as [H|H]; [congruence|].
      specialize (IH2 H). lia.
Qed.

(** C10. Every record the sink appends carries [agent_count = 3], the
    size of the roster, whatever the analysis holds.  A record written by
    the processor for an analysis in which a persona was skipped has fewer
    than three entries in [ai_response] and still [agent_count = 3]. *)
Theorem agent_count_is_static client now_iso content w dataset :
  (forall analysis,
      exists rec,
        save_to_dataset now_iso content analysis dataset = dataset ++ [rec] /\
        ai_response rec = analysis /\
        agent_count (analysis_metadata rec) = 3) /\
  (exists final s1 s2 s3 w',
      analyze_content_traced client now_iso content w
      = (Some final, [s1; s2; s3], w') /\
      length final = length (List.filter step_kept [s1; s2; s3]) /\
      (Exists (fun s => step_kept s = false) [s1; s2; s3] -> length final < 3) /\
      (final = [] ->
       process_item client now_iso content w dataset = (w', dataset)) /\
      (final <> [] ->
       exists rec,
         process_item client now_iso content w dataset = (w', dataset ++ [rec]) /\
         ai_response rec = final /\
         agent_count (analysis_metadata rec) = 3)).
Proof.
  split.
  - intros analysis. eexists. split; [reflexivity|]. split; reflexivity.
  - destruct (analyze_content_shape client now_iso content w)
      as (final & s1 & s2 & s3 & w' & E & _ & Hkeys & _).
    exists final, s1, s2, s3, w'.
    assert (Hlen : length final = length (List.filter step_kept [s1; s2; s3])).
    { rewrite <- (length_map fst final), Hkeys. apply length_map. }
    split; [exact E|]. split; [exact Hlen|]. split.
    { intros Hex. rewrite Hlen.
      apply (proj2 (filter_kept_length [s1; s2; s3])) in Hex. exact Hex. }
    unfold process_item, analyze_content. rewrite E. split.
    + intros ->. reflexivity.
    + intros Hne. destruct final as [|entry more]; [contradiction|].
      eexists. split; [reflexivity|]. split; reflexivity.
Qed.

(** A server that is down for the curator's three attempts and then
    answers: the record has two entries and [agent_count = 3]. *)
Lemma agent_count_witness :
  let client := fun k (_ : string) =>
                  if (k <? 3)%nat then CallRaises "down"
                  else CallReturns [EventDelta "key: value"] false in
  let content := mkContent "text" "hello world this is a test clipboard entry" "h" in
  exists rec w',
    process_item client "now" content (mkNet 0 []) [] = (w', [rec]) /\
    map fst (ai_response rec) = ["analyst"; "synthesizer"] /\
    agent_count (analysis_metadata rec) = 3.
Proof.
  intros client content.
  destruct (agent_count_is_static client "now" content (mkNet 0 []) [])
    as (_ & final & s1 & s2 & s3 & w' & E & _ & _ & _ & Hsave).
  vm_compute in E. injection E as <- _ _ _ _.
  destruct Hsave as (rec & Hp & Ha & Hc); [discriminate|].
  exists rec, w'. split; [exact Hp|]. split; [|exact Hc].
  rewrite Ha. reflexivity.
Defined.

End ClipboardFacts.

Module NoveltyFacts.
Import Novelty.

(* =================================================================== *)
(** ** One pair, one response, one record *)
(* =================================================================== *)

Lemma freq_incr_same c k : freq (incr c k) k = freq c k + 1.
Proof. unfold freq, incr. now rewrite lookup_insert_eq. Qed.

Lemma freq_incr_ne c k k' : k <> k' -> freq (incr c k) k' = freq c k'.
Proof. intros Hne. unfold freq, incr. now rewrite lookup_insert_ne. Qed.

Lemma freq_incr_le c k k' : freq c k' <= freq (incr c k) k'.
Proof.
  destruct (decide (k = k')) as [->|Hne].
  - rewrite freq_incr_same. lia.
  - now rewrite freq_incr_ne.
Qed.

Lemma grows_refl t : grows t t.
Proof. intros k. split; lia. Qed.

Lemma grows_trans t1 t2 t3 : grows t1 t2 -> grows t2 t3 -> grows t1 t3.
Proof.
  intros H12 H23 k. destruct (H12 k), (H23 k). split; lia.
Qed.

Section CallFacts.
Variable np_std : list Q -> Q.

(** What the body of the loop does to a line of two fields: both counters
    are advanced; while the latch is set the baseline counter is advanced
    too, and NameError is raised exactly when it thereby reaches
    [baseline_period]. *)
Lemma observe_pair_counts n m k0 v0 t files :
  exists r t',
    observe_pair np_std n m [k0; v0] t files = (r, t', files) /\
    key_frequency t' = incr (key_frequency t) (PyStr.strip k0) /\
    value_frequency t' = incr (value_frequency t) (PyStr.strip v0) /\
    is_baseline_period t' = is_baseline_period t /\
    response_history t' = response_history t /\
    maxlen t' = maxlen t /\
    (is_baseline_period t = true ->
     responses_processed (baseline_metrics t')
     = responses_processed (baseline_metrics t) + 1) /\
    (is_baseline_period t = false -> baseline_metrics t' = baseline_metrics t) /\
    (at_threshold t -> r = Raise NameError) /\
    (~ at_threshold t -> r = Ok tt).
Proof.
  unfold observe_pair, at_threshold, _save_baseline_metrics.
  destruct (is_baseline_period t) eqn:L.
  - cbn [responses_processed].
    destruct (Nat.leb_spec baseline_period
                (responses_processed (baseline_metrics t) + 1)) as [Hfull|Hnot].
    + do 2 eexists. split; [reflexivity|]. cbn.
      repeat split; try reflexivity; try discriminate.
      intros Hn. exfalso. apply Hn. split; [reflexivity | exact Hfull].
    + do 2 eexists. split; [reflexivity|]. cbn.
      repeat split; try reflexivity; try discriminate.
      intros [_ Hc]. lia.
  - do 2 eexists. split; [reflexivity|]. cbn.
    repeat split; try reflexivity; try discriminate.
    intros [Hc _]. discriminate Hc.
Qed.

Lemma observe_pair_malformed n m fields t files :
  length fields <> 2 ->
  observe_pair np_std n m fields t files = (Raise ValueError, t, files).
Proof.
  intros Hbad. destruct fields as [|a [|b [|c d]]]; simpl in *;
    try reflexivity; lia.
Qed.

(** No call changes the files, the latch, the history or its bound inside
    the loop over the pairs. *)
Lemma observe_pair_keeps n m fields t files r t' files' :
  observe_pair np_std n m fields t files = (r, t', files') ->
  files' = files /\
  is_baseline_period t' = is_baseline_period t /\
  response_history t' = response_history t /\ maxlen t' = maxlen t /\
  grows t t'.
Proof.
  destruct (Nat.eq_dec (length fields) 2) as [Hlen|Hbad].
  - destruct fields as [|k0 [|v0 [|x more]]]; try discriminate.
    destruct (observe_pair_counts n m k0 v0 t files)
      as (r1 & t1 & -> & Hk & Hv & HL & Hh & Hm & _).
    intros [= _ <- <-]. split; [reflexivity|]. split; [exact HL|].
    split; [exact Hh|]. split; [exact Hm|].
    intros k. rewrite Hk, Hv. split; apply freq_incr_le.
  - rewrite (observe_pair_malformed n m fields t files Hbad).
    intros [= _ <- <-]. split; [reflexivity|]. split; [reflexivity|].
    split; [reflexivity|]. split; [reflexivity|]. apply grows_refl.
Qed.

Lemma observe_pairs_keeps n m pairs t files r t' files' :
  observe_pairs np_std n m pairs t files = (r, t', files') ->
  files' = files /\
  is_baseline_period t' = is_baseline_period t /\
  response_history t' = response_history t /\ maxlen t' = maxlen t /\
  grows t t'.
Proof.
  revert t files. induction pairs as [|fields more IH]; intros t files; simpl.
  - intros [= _ <- <-]. split; [reflexivity|]. split; [reflexivity|].
    split; [reflexivity|]. split; [reflexivity|]. apply grows_refl.
  - destruct (observe_pair np_std n m fields t files) as [[r1 t1] f1] eqn:E1.
    apply observe_pair_keeps in E1 as (-> & HL & Hh & Hm & Hg).
    destruct r1 as [[]|e].
    + intros E. apply IH in E as (-> & HL2 & Hh2 & Hm2 & Hg2).
      split; [reflexivity|]. split; [congruence|]. split; [congruence|].
      split; [congruence|]. exact (grows_trans _ _ _ Hg Hg2).
    + intros [= _ <- <-]. auto.
Qed.

Lemma observe_values_keeps m values t files r t' files' :
  observe_values np_std m values t files = (r, t', files') ->
  files' = files /\
  is_baseline_period t' = is_baseline_period t /\
  response_history t' = response_history t /\ maxlen t' = maxlen t /\
  grows t t'.
Proof.
  revert t files. induction values as [|v more IH]; intros t files; simpl.
  - intros [= _ <- <-]. split; [reflexivity|]. split; [reflexivity|].
    split; [reflexivity|]. split; [reflexivity|]. apply grows_refl.
  - destruct v as [[text|]|]; try (apply IH).
    destruct (observe_pairs np_std (length (raw_pairs text)) m
                (raw_pairs text) t files) as [[r1 t1] f1] eqn:E1.
    apply observe_pairs_keeps in E1 as (-> & HL & Hh & Hm & Hg).
    destruct r1 as [[]|e].
    + intros E. apply IH in E as (-> & HL2 & Hh2 & Hm2 & Hg2).
      split; [reflexivity|]. split; [congruence|]. split; [congruence|].
      split; [congruence|]. exact (grows_trans _ _ _ Hg Hg2).
    + intros [= _ <- <-]. auto.
Qed.

(** [add_response] never writes a file and never changes the latch. *)
Lemma add_response_keeps rd m t files r t' files' :
  add_response np_std rd m t files = (r, t', files') ->
  files' = files /\
  is_baseline_period t' = is_baseline_period t /\
  maxlen t' = maxlen t /\
  grows t t'.
Proof.
  unfold add_response.
  destruct (observe_values np_std m (map snd rd) t files) as [[r1 t1] f1] eqn:E1.
  apply observe_values_keeps in E1 as (-> & HL & Hh & Hm & Hg).
  destruct r1 as [[]|e]; intros [= _ <- <-]; auto.
Qed.

Lemma observe_all_keeps calls t files log t' files' :
  observe_all np_std calls t files = (log, t', files') ->
  files' = files /\
  is_baseline_period t' = is_baseline_period t /\
  Forall (fun entry => snd entry = snapshot_writes files) log.
Proof.
  revert t log t' files'.
  induction calls as [|[rd m] more IH]; intros t log t' files'; simpl.
  - intros [= <- <- <-]. auto.
  - destruct (add_response np_std rd m t files) as [[r t1] f1] eqn:E1.
    apply add_response_keeps in E1 as (-> & HL & _).
    destruct (observe_all np_std more t1 files) as [[log2 t2] f2] eqn:E2.
    apply IH in E2 as (-> & HL2 & Hlog).
    intros [= <- <- <-]. split; [reflexivity|]. split; [congruence|].
    constructor; [reflexivity | exact Hlog].
Qed.

Lemma observe_pairs_history n m pairs t files r t' files' :
  observe_pairs np_std n m pairs t files = (r, t', files') ->
  response_history t' = response_history t /\ maxlen t' = maxlen t.
Proof.
  intros E. apply observe_pairs_keeps in E as (_ & _ & Hh & Hm & _). auto.
Qed.

(** Lines of two fields are counted one after the other as long as there
    is room below the threshold. *)
Lemma observe_pairs_room n m good rest t files extra :
  Forall (fun fields => length fields = 2) good ->
  room t (length good + extra) ->
  exists t1,
    observe_pairs np_std n m (good ++ rest) t files
    = observe_pairs np_std n m rest t1 files /\
    room t1 extra /\
    is_baseline_period t1 = is_baseline_period t /\
    response_history t1 = response_history t /\
    maxlen t1 = maxlen t /\
    (is_baseline_period t = true ->
     responses_processed (baseline_metrics t1)
     = responses_processed (baseline_metrics t) + length good) /\
    (is_baseline_period t = false -> baseline_metrics t1 = baseline_metrics t) /\
    grows t t1 /\
    (forall fields, In fields good ->
       freq (key_frequency t) (key_of fields) + 1
       <= freq (key_frequency t1) (key_of fields) /\
       freq (value_frequency t) (value_of fields) + 1
       <= freq (value_frequency t1) (value_of fields)).
Proof.
  intros Hwf. revert t.
  induction Hwf as [|fields more Hlen _ IH]; intros t Hroom.
  - exists t. split; [reflexivity|]. split; [exact Hroom|].
    split; [reflexivity|]. split; [reflexivity|]. split; [reflexivity|].
    split; [intros _; cbn [length]; lia|]. split; [reflexivity|].
    split; [apply grows_refl|]. intros fields [].
  - destruct fields as [|k0 [|v0 [|x tail]]]; try discriminate.
    destruct (observe_pair_counts n m k0 v0 t files)
      as (r1 & t1 & E1 & Hk & Hv & HL & Hh & Hm & Hrp & Hb & _ & Hok).
    assert (Hr : r1 = Ok tt).
    { apply Hok. intros [L Hge]. destruct Hroom as [Hc|Hlt]; [congruence|].
      cbn [length] in Hlt. lia. }
    subst r1.
    assert (Hroom1 : room t1 (length more + extra)).
    { destruct Hroom as [Hc|Hlt]; [left; congruence|].
      destruct (is_baseline_period t) eqn:L; [|left; congruence].
      right. rewrite (Hrp eq_refl). cbn [length] in Hlt. lia. }
    destruct (IH t1 Hroom1)
      as (t2 & E2 & Hroom2 & HL2 & Hh2 & Hm2 & Hrp2 & Hb2 & Hg2 & Hin2).
    exists t2. change (([k0; v0] :: more) ++ rest)
      with ([k0; v0] :: (more ++ rest)).
    cbn [observe_pairs]. rewrite E1.
    split; [exact E2|]. split; [exact Hroom2|].
    split; [congruence|]. split; [congruence|]. split; [congruence|].
    assert (Hg1 : grows t t1).
    { intros k. rewrite Hk, Hv. split; apply freq_incr_le. }
    split.
    { intros L. rewrite Hrp2 by congruence. rewrite (Hrp L). cbn [length]. lia. }
    split.
    { intros L. rewrite Hb2 by congruence. exact (Hb L). }
    split; [exact (grows_trans _ _ _ Hg1 Hg2)|].
    intros fields [<-|Hmore].
    + unfold key_of, value_of. cbn [nth].
      destruct (Hg2 (PyStr.strip k0)) as [Hgk _].
      destruct (Hg2 (PyStr.strip v0)) as [_ Hgv].
      rewrite Hk, freq_incr_same in Hgk. rewrite Hv, freq_incr_same in Hgv.
      split; assumption.
    + destruct (Hin2 fields Hmore) as [Hik Hiv].
      destruct (Hg1 (key_of fields)) as [Hgk _].
      destruct (Hg1 (value_of fields)) as [_ Hgv].
      split; lia.
Qed.

(** With the latch set, the pair that brings the baseline counter to
    [baseline_period] is counted and NameError is raised: the pairs and
    the lines after it are not looked at. *)
Lemma observe_pairs_threshold n m good rest t files :
  Forall (fun fields => length fields = 2) good ->
  is_baseline_period t = true ->
  good <> [] ->
  baseline_period <= responses_processed (baseline_metrics t) + length good ->
  exists t',
    observe_pairs np_std n m (good ++ rest) t files
    = (Raise NameError, t', files) /\
    is_baseline_period t' = true /\
    baseline_period <= responses_processed (baseline_metrics t') /\
    response_history t' = response_history t.
Proof.
  intros Hwf. revert t.
  induction Hwf as [|fields more Hlen _ IH]; intros t L Hne Hge;
    [contradiction|].
  destruct fields as [|k0 [|v0 [|x tail]]]; try discriminate.
  destruct (observe_pair_counts n m k0 v0 t files)
    as (r1 & t1 & E1 & _ & _ & HL & Hh & _ & Hrp & _ & Hraise & Hok).
  change (([k0; v0] :: more) ++ rest) with ([k0; v0] :: (more ++ rest)).
  cbn [observe_pairs]. rewrite E1. specialize (Hrp L).
  destruct (Nat.le_gt_cases baseline_period
              (responses_processed (baseline_metrics t) + 1)) as [Hfull|Hnot].
  - rewrite (Hraise (conj L Hfull)). exists t1.
    split; [reflexivity|]. split; [congruence|]. split; [lia | exact Hh].
  - rewrite Hok by (intros [_ Hc]; lia).
    cbn [length] in Hge.
    destruct (IH t1) as (t' & E & HL' & Hrp' & Hh').
    + congruence.
    + intros ->. cbn [length] in Hge. lia.
    + lia.
    + exists t'. split; [exact E|]. split; [exact HL'|].
      split; [exact Hrp' | congruence].
Qed.

(** A line that does not have two fields ends the loop with ValueError, or
    with NameError when the lines before it reach the threshold; whichever
    it is, only keys and values of the lines before it are counted. *)
Lemma observe_pairs_malformed n m good bad rest t files :
  Forall (fun fields => length fields = 2) good ->
  length bad <> 2 ->
  exists t',
    observe_pairs np_std n m (good ++ bad :: rest) t files
    = (Raise (if reaches_threshold t (length good)
              then NameError else ValueError), t', files) /\
    response_history t' = response_history t.
Proof.
  intros Hwf Hbad. unfold reaches_threshold.
  destruct (is_baseline_period t) eqn:L; cbn [andb].
  - destruct good as [|fields more].
    + cbn [length Nat.ltb Nat.leb andb app observe_pairs].
      rewrite (observe_pair_malformed n m bad t files Hbad). eauto.
    + change (0 <? length (fields :: more))%nat with true. cbn [andb].
      destruct (Nat.leb_spec baseline_period
                  (responses_processed (baseline_metrics t)
                   + length (fields :: more))) as [Hfull|Hnot].
      * destruct (observe_pairs_threshold n m (fields :: more) (bad :: rest)
                    t files Hwf L) as (t' & E & _ & _ & Hh);
          [discriminate | exact Hfull | eauto].
      * destruct (observe_pairs_room n m (fields :: more) (bad :: rest) t files 0
                    Hwf) as (t1 & E & _ & _ & Hh & _).
        { right. lia. }
        rewrite E. cbn [observe_pairs].
        rewrite (observe_pair_malformed n m bad t1 files Hbad). eauto.
  - destruct (observe_pairs_room n m good (bad :: rest) t files 0 Hwf)
      as (t1 & E & _ & _ & Hh & _); [left; exact L|].
    rewrite E. cbn [observe_pairs].
    rewrite (observe_pair_malformed n m bad t1 files Hbad). eauto.
Qed.

Lemma counted_prefix_split pairs :
  Exists (fun fields => length fields <> 2) pairs ->
  Forall (fun fields => length fields = 2) (counted_prefix pairs) /\
  exists bad rest,
    pairs = counted_prefix pairs ++ bad :: rest /\ length bad <> 2.
Proof.
  induction pairs as [|fields more IH]; intros Hex; [inversion Hex|].
  destruct (Nat.eq_dec (length fields) 2) as [Hlen|Hbad].
  - destruct fields as [|k0 [|v0 [|x tail]]]; try discriminate.
    apply Exists_cons in Hex as [Hc|Hex]; [contradiction|].
    destruct (IH Hex) as (Hwf & bad & rest & Heq & Hbad).
    cbn [counted_prefix]. split; [constructor; [reflexivity | exact Hwf]|].
    exists bad, rest. split; [|exact Hbad].
    change (([k0; v0] :: counted_prefix more) ++ bad :: rest)
      with ([k0; v0] :: (counted_prefix more ++ bad :: rest)).
    now rewrite <- Heq.
  - split.
    + destruct fields as [|k0 [|v0 [|x tail]]];
        try (exfalso; apply Hbad; reflexivity); constructor.
    + exists fields, more. split; [|exact Hbad].
      destruct fields as [|k0 [|v0 [|x tail]]];
        try (exfalso; apply Hbad; reflexivity); reflexivity.
Qed.

(** The pairs of a record, across its values. *)
Lemma observe_values_room m values rest t files extra :
  Forall (fun fields => length fields = 2) (concat (map pairs_of_value values)) ->
  room t (length (concat (map pairs_of_value values)) + extra) ->
  exists t1,
    observe_values np_std m (values ++ rest) t files
    = observe_values np_std m rest t1 files /\
    room t1 extra /\
    is_baseline_period t1 = is_baseline_period t /\
    response_history t1 = response_history t /\
    maxlen t1 = maxlen t /\
    (is_baseline_period t = true ->
     responses_processed (baseline_metrics t1)
     = responses_processed (baseline_metrics t)
       + length (concat (map pairs_of_value values))) /\
    (is_baseline_period t = false -> baseline_metrics t1 = baseline_metrics t) /\
    grows t t1 /\
    (forall fields, In fields (concat (map pairs_of_value values)) ->
       freq (key_frequency t) (key_of fields) + 1
       <= freq (key_frequency t1) (key_of fields) /\
       freq (value_frequency t) (value_of fields) + 1
       <= freq (value_frequency t1) (value_of fields)).
Proof.
  revert t. induction values as [|v more IH]; intros t Hwf Hroom.
  - exists t. split; [reflexivity|]. split; [exact Hroom|].
    split; [reflexivity|]. split; [reflexivity|]. split; [reflexivity|].
    split; [intros _; cbn [map concat length]; lia|]. split; [reflexivity|].
    split; [apply grows_refl|]. intros fields [].
  - cbn [map concat] in Hwf, Hroom |- *.
    apply Forall_app in Hwf as [Hwf1 Hwf2].
    rewrite length_app in Hroom |- *.
    destruct (observe_pairs_room (length (pairs_of_value v)) m
                (pairs_of_value v) [] t files
                (length (concat (map pairs_of_value more)) + extra) Hwf1)
      as (t1 & E1 & Hroom1 & HL1 & Hh1 & Hm1 & Hrp1 & Hb1 & Hg1 & Hin1).
    { destruct Hroom as [Hc|Hlt]; [left; exact Hc | right; lia]. }
    rewrite app_nil_r in E1. cbn [observe_pairs] in E1.
    destruct (IH t1 Hwf2 Hroom1)
      as (t2 & E2 & Hroom2 & HL2 & Hh2 & Hm2 & Hrp2 & Hb2 & Hg2 & Hin2).
    exists t2. split.
    { change ((v :: more) ++ rest) with (v :: (more ++ rest)).
      destruct v as [[text|]|]; cbn [observe_values pairs_of_value] in *.
      - rewrite E1. exact E2.
      - injection E1 as <-. exact E2.
      - injection E1 as <-. exact E2. }
    split; [exact Hroom2|].
    split; [congruence|]. split; [congruence|]. split; [congruence|].
    split.
    { intros L. rewrite Hrp2 by congruence. rewrite (Hrp1 L). lia. }
    split.
    { intros L. rewrite Hb2 by congruence. exact (Hb1 L). }
    split; [exact (grows_trans _ _ _ Hg1 Hg2)|].
    intros fields Hin. apply in_app_or in Hin as [Hin|Hin].
    + destruct (Hin1 fields Hin) as [Hik Hiv].
      destruct (Hg2 (key_of fields)) as [Hgk _].
      destruct (Hg2 (value_of fields)) as [_ Hgv].
      split; lia.
    + destruct (Hin2 fields Hin) as [Hik Hiv].
      destruct (Hg1 (key_of fields)) as [Hgk _].
      destruct (Hg1 (value_of fields)) as [_ Hgv].
      split; lia.
Qed.

Lemma observe_values_threshold m values t files :
  Forall (fun fields => length fields = 2) (concat (map pairs_of_value values)) ->
  is_baseline_period t = true ->
  concat (map pairs_of_value values) <> [] ->
  baseline_period
  <= responses_processed (baseline_metrics t)
     + length (concat (map pairs_of_value values)) ->
  exists t',
    observe_values np_std m values t files = (Raise NameError, t', files) /\
    is_baseline_period t' = true /\
    baseline_period <= responses_processed (baseline_metrics t') /\
    response_history t' = response_history t.
Proof.
  revert t. induction values as [|v more IH]; intros t Hwf L Hne Hge;
    [now contradiction Hne|].
  cbn [map concat] in Hwf, Hne, Hge.
  apply Forall_app in Hwf as [Hwf1 Hwf2]. rewrite length_app in Hge.
  destruct (Nat.le_gt_cases baseline_period
              (responses_processed (baseline_metrics t)
               + length (pairs_of_value v))) as [Hfull|Hnot].
  - destruct (pairs_of_value v) as [|fields tail] eqn:Ev.
    + (* no pair here: the counter is already at the threshold *)
      assert (Hv : observe_values np_std m (v :: more) t files
                   = observe_values np_std m more t files).
      { destruct v as [[text|]|]; cbn [observe_values pairs_of_value] in *;
          try reflexivity. now rewrite Ev. }
      rewrite Hv. apply IH; assumption.
    + destruct (observe_pairs_threshold (length (fields :: tail)) m
                  (fields :: tail) [] t files Hwf1 L)
        as (t' & E & HL & Hrp & Hh); [discriminate | exact Hfull |].
      rewrite app_nil_r in E.
      destruct v as [[text|]|]; cbn [pairs_of_value] in Ev; try discriminate.
      cbn [observe_values]. rewrite Ev, E. eauto.
  - destruct (observe_values_room m [v] more t files 0)
      as (t1 & E1 & _ & HL1 & Hh1 & _ & Hrp1 & _).
    { cbn [map concat]. rewrite app_nil_r. exact Hwf1. }
    { right. cbn [map concat]. rewrite app_nil_r. lia. }
    cbn [map concat] in Hrp1. rewrite app_nil_r in Hrp1. specialize (Hrp1 L).
    change ([v] ++ more) with (v :: more) in E1. rewrite E1.
    destruct (IH t1 Hwf2) as (t' & E & HL & Hrp & Hh).
    + congruence.
    + intros Hnil. rewrite Hnil in Hge. cbn [length] in Hge. lia.
    + lia.
    + exists t'. split; [exact E|]. split; [exact HL|].
      split; [exact Hrp | congruence].
Qed.

(** At the threshold the first pair of the record is counted and the call
    ends there. *)
Lemma observe_values_first_pair m values t files fields rest :
  at_threshold t ->
  concat (map pairs_of_value values) = fields :: rest ->
  exists r t',
    observe_values np_std m values t files = (r, t', files) /\
    response_history t' = response_history t /\
    at_threshold t' /\
    (length fields = 2 ->
     r = Raise NameError /\
     key_frequency t' = incr (key_frequency t) (key_of fields) /\
     value_frequency t' = incr (value_frequency t) (value_of fields)) /\
    (length fields <> 2 ->
     r = Raise ValueError /\ t' = t).
Proof.
  intros Ht. induction values as [|v more IH]; intros Heq; [discriminate|].
  cbn [map concat] in Heq.
  destruct (pairs_of_value v) as [|first tail] eqn:Ev.
  - assert (Hv : observe_values np_std m (v :: more) t files
                 = observe_values np_std m more t files).
    { destruct v as [[text|]|]; cbn [observe_values pairs_of_value] in *;
        try reflexivity. now rewrite Ev. }
    rewrite Hv. apply IH. exact Heq.
  - injection Heq as -> _.
    destruct v as [[text|]|]; cbn [pairs_of_value] in Ev; try discriminate.
    cbn [observe_values]. rewrite Ev. cbn [observe_pairs].
    destruct (Nat.eq_dec (length fields) 2) as [Hlen|Hbad].
    + destruct fields as [|k0 [|v0 [|x more']]]; try discriminate.
      destruct (observe_pair_counts (length ([k0; v0] :: tail)) m k0 v0 t files)
        as (r1 & t1 & -> & Hk & Hv & HL & Hh & _ & Hrp & _ & Hraise & _).
      rewrite (Hraise Ht). exists (Raise NameError), t1.
      split; [reflexivity|]. split; [exact Hh|].
      destruct Ht as [L Hge]. split.
      { split; [congruence|]. rewrite (Hrp L). lia. }
      split; [|intros Hc; now contradiction Hc].
      intros _. split; [reflexivity|]. split; assumption.
    + rewrite (observe_pair_malformed _ m fields t files Hbad).
      exists (Raise ValueError), t.
      split; [reflexivity|]. split; [reflexivity|]. split; [exact Ht|].
      split; [intros Hc; contradiction | auto].
Qed.

Lemma observe_values_no_pairs m values t files :
  concat (map pairs_of_value values) = [] ->
  observe_values np_std m values t files = (Ok tt, t, files).
Proof.
  induction values as [|v more IH]; intros Hnil; [reflexivity|].
  cbn [map concat] in Hnil. apply app_eq_nil in Hnil as [Hv Hmore].
  destruct v as [[text|]|]; cbn [observe_values pairs_of_value] in *;
    try (apply IH; exact Hmore).
  rewrite Hv. cbn [observe_pairs]. apply IH. exact Hmore.
Qed.

Lemma in_record_pairs rd agent text fields :
  In (agent, AgentDict (Some text)) rd -> In fields (raw_pairs text) ->
  In fields (record_pairs rd).
Proof.
  intros Hrd Hf. unfold record_pairs. apply in_concat.
  exists (raw_pairs text). split; [|exact Hf].
  apply in_map_iff. exists (AgentDict (Some text)). split; [reflexivity|].
  apply in_map_iff. exists (agent, AgentDict (Some text)). auto.
Qed.

(** A record whose colon lines all split in two, observed where there is
    room below the threshold: the call returns, every pair is counted. *)
Lemma add_response_room rd m t files extra :
  Forall (fun fields => length fields = 2) (record_pairs rd) ->
  room t (length (record_pairs rd) + extra) ->
  exists t',
    add_response np_std rd m t files = (Ok tt, t', files) /\
    room t' extra /\
    is_baseline_period t' = is_baseline_period t /\
    (is_baseline_period t = true ->
     responses_processed (baseline_metrics t')
     = responses_processed (baseline_metrics t) + length (record_pairs rd)) /\
    response_history t'
    = deque_append (maxlen t) (response_history t) rd /\
    grows t t' /\
    (forall fields, In fields (record_pairs rd) ->
       freq (key_frequency t) (key_of fields) + 1
       <= freq (key_frequency t') (key_of fields) /\
       freq (value_frequency t) (value_of fields) + 1
       <= freq (value_frequency t') (value_of fields)).
Proof.
  intros Hwf Hroom. unfold record_pairs in *.
  destruct (observe_values_room m (map snd rd) [] t files extra Hwf Hroom)
    as (t1 & E1 & Hroom1 & HL1 & Hh1 & Hm1 & Hrp1 & _ & Hg1 & Hin1).
  rewrite app_nil_r in E1. cbn [observe_values] in E1.
  unfold add_response. rewrite E1. eexists. split; [reflexivity|].
  unfold room in *. cbn [is_baseline_period baseline_metrics response_history
                         key_frequency value_frequency].
  split; [exact Hroom1|]. split; [exact HL1|]. split; [exact Hrp1|].
  split; [now rewrite Hh1, Hm1|]. split; [exact Hg1 | exact Hin1].
Qed.

Lemma add_response_threshold rd m t files :
  Forall (fun fields => length fields = 2) (record_pairs rd) ->
  is_baseline_period t = true ->
  record_pairs rd <> [] ->
  baseline_period
  <= responses_processed (baseline_metrics t) + length (record_pairs rd) ->
  exists t',
    add_response np_std rd m t files = (Raise NameError, t', files) /\
    is_baseline_period t' = true /\
    baseline_period <= responses_processed (baseline_metrics t') /\
    response_history t' = response_history t.
Proof.
  intros Hwf L Hne Hge. unfold record_pairs in *.
  destruct (observe_values_threshold m (map snd rd) t files Hwf L Hne Hge)
    as (t' & E & HL & Hrp & Hh).
  unfold add_response. rewrite E. eauto.
Qed.

Lemma add_response_first_pair rd m t files fields rest :
  at_threshold t ->
  record_pairs rd = fields :: rest ->
  exists r t',
    add_response np_std rd m t files = (r, t', files) /\
    response_history t' = response_history t /\
    at_threshold t' /\
    (length fields = 2 ->
     r = Raise NameError /\
     key_frequency t' = incr (key_frequency t) (key_of fields) /\
     value_frequency t' = incr (value_frequency t) (value_of fields)) /\
    (length fields <> 2 ->
     r = Raise ValueError /\ t' = t).
Proof.
  intros Ht Heq. unfold record_pairs in Heq.
  destruct (observe_values_first_pair m (map snd rd) t files fields rest Ht Heq)
    as (r & t' & E & Hh & Ht' & H2 & Hbad).
  unfold add_response. rewrite E. exists r, t'.
  destruct (Nat.eq_dec (length fields) 2) as [Hlen|Hne].
  - destruct (H2 Hlen) as (-> & Hk & Hv).
    split; [reflexivity|]. split; [exact Hh|]. split; [exact Ht'|].
    split; [auto | intros Hc; contradiction].
  - destruct (Hbad Hne) as (-> & ->).
    split; [reflexivity|]. split; [reflexivity|]. split; [exact Ht|].
    split; [intros Hc; contradiction | auto].
Qed.

(** A record observed again and again. *)
Lemma observe_all_room n rd m t files :
  Forall (fun fields => length fields = 2) (record_pairs rd) ->
  room t (n * length (record_pairs rd)) ->
  exists log t',
    observe_all np_std (repeat (rd, m) n) t files = (log, t', files) /\
    Forall (fun entry => fst entry = Ok tt) log /\
    grows t t' /\
    (forall fields, In fields (record_pairs rd) ->
       freq (key_frequency t) (key_of fields) + n
       <= freq (key_frequency t') (key_of fields) /\
       freq (value_frequency t) (value_of fields) + n
       <= freq (value_frequency t') (value_of fields)).
Proof.
  intros Hwf. revert t. induction n as [|n IH]; intros t Hroom.
  - exists [], t. split; [reflexivity|]. split; [constructor|].
    split; [apply grows_refl|]. intros; lia.
  - destruct (add_response_room rd m t files (n * length (record_pairs rd))
                Hwf Hroom)
      as (t1 & E1 & Hroom1 & _ & _ & _ & Hg1 & Hin1).
    destruct (IH t1 Hroom1) as (log & t' & E & Hlog & Hg & Hin).
    exists ((Ok tt, snapshot_writes files) :: log), t'.
    cbn [repeat observe_all]. rewrite E1, E.
    split; [reflexivity|]. split; [constructor; [reflexivity | exact Hlog]|].
    split; [exact (grows_trans _ _ _ Hg1 Hg)|].
    intros fields Hf.
    destruct (Hin1 fields Hf) as [Hk1 Hv1].
    destruct (Hin fields Hf) as [Hk Hv].
    split; lia.
Qed.

(** Whatever ends the loop at a line that does not have two fields, only
    the lines before it have been counted. *)
Lemma observe_pairs_within n m good bad rest t files r t' files' :
  Forall (fun fields => length fields = 2) good ->
  length bad <> 2 ->
  observe_pairs np_std n m (good ++ bad :: rest) t files = (r, t', files') ->
  r <> Ok tt /\
  (forall k, ~ In k (map key_of good) ->
     freq (key_frequency t') k = freq (key_frequency t) k) /\
  (forall v, ~ In v (map value_of good) ->
     freq (value_frequency t') v = freq (value_frequency t) v).
Proof.
  intros Hwf Hbad. revert t.
  induction Hwf as [|fields more Hlen _ IH]; intros t.
  - cbn [app observe_pairs].
    rewrite (observe_pair_malformed n m bad t files Hbad).
    intros [= <- <- _]. split; [discriminate|]. split; reflexivity.
  - destruct fields as [|k0 [|v0 [|x tail]]]; try discriminate.
    change (([k0; v0] :: more) ++ bad :: rest)
      with ([k0; v0] :: (more ++ bad :: rest)).
    cbn [observe_pairs].
    destruct (observe_pair_counts n m k0 v0 t files)
      as (r1 & t1 & -> & Hk & Hv & _).
    assert (Hhere : (forall k, ~ In k (map key_of ([k0; v0] :: more)) ->
                       freq (key_frequency t1) k = freq (key_frequency t) k) /\
                    (forall v, ~ In v (map value_of ([k0; v0] :: more)) ->
                       freq (value_frequency t1) v = freq (value_frequency t) v)).
    { split; intros x Hx; [rewrite Hk | rewrite Hv];
        apply freq_incr_ne; intros Heq; apply Hx; left; exact Heq. }
    destruct r1 as [[]|e].
    + intros E. apply IH in E as (Hr & Hks & Hvs).
      split; [exact Hr|]. destruct Hhere as [Hk1 Hv1]. split.
      * intros k Hx. rewrite Hks by (intros Hc; apply Hx; right; exact Hc).
        apply Hk1, Hx.
      * intros v Hx. rewrite Hvs by (intros Hc; apply Hx; right; exact Hc).
        apply Hv1, Hx.
    + intros [= <- <- _]. split; [discriminate | exact Hhere].
Qed.

Lemma observe_all_within n agent text m t files good bad rest :
  raw_pairs text = good ++ bad :: rest ->
  Forall (fun fields => length fields = 2) good ->
  length bad <> 2 ->
  exists log t',
    observe_all np_std (repeat ([(agent, AgentDict (Some text))], m) n) t files
    = (log, t', files) /\
    Forall (fun entry => fst entry <> Ok tt) log /\
    response_history t' = response_history t /\
    (forall k, ~ In k (map key_of good) ->
       freq (key_frequency t') k = freq (key_frequency t) k) /\
    (forall v, ~ In v (map value_of good) ->
       freq (value_frequency t') v = freq (value_frequency t) v).
Proof.
  intros Heq Hwf Hbad. revert t. induction n as [|n IH]; intros t.
  - exists [], t. split; [reflexivity|]. split; [constructor|].
    split; [reflexivity|]. split; reflexivity.
  - cbn [repeat observe_all]. unfold add_response at 1.
    cbn [map snd observe_values].
    destruct (observe_pairs np_std (length (raw_pairs text)) m (raw_pairs text)
                t files) as [[r1 t1] f1] eqn:E1.
    pose proof (observe_pairs_keeps _ _ _ _ _ _ _ _ E1) as (-> & _ & Hh1 & _).
    rewrite Heq in E1 at 2.
    apply (observe_pairs_within _ _ _ _ _ _ _ _ _ _ Hwf Hbad) in E1
      as (Hr1 & Hk1 & Hv1).
    destruct r1 as [[]|e]; [now contradiction Hr1|].
    destruct (IH t1) as (log & t' & E & Hlog & Hh & Hk & Hv).
    rewrite E. exists ((Raise e, snapshot_writes files) :: log), t'.
    split; [reflexivity|].
    split; [constructor; [discriminate | exact Hlog]|].
    split; [congruence|]. split.
    + intros k Hx. rewrite (Hk k Hx). apply Hk1, Hx.
    + intros v Hx. rewrite (Hv v Hx). apply Hv1, Hx.
Qed.

Lemma observe_all_first_pair n rd m t files k0 v0 rest :
  at_threshold t ->
  record_pairs rd = [k0; v0] :: rest ->
  exists log t',
    observe_all np_std (repeat (rd, m) n) t files = (log, t', files) /\
    Forall (fun entry => fst entry = Raise NameError) log /\
    response_history t' = response_history t /\
    (forall k, k <> PyStr.strip k0 ->
       freq (key_frequency t') k = freq (key_frequency t) k) /\
    (forall v, v <> PyStr.strip v0 ->
       freq (value_frequency t') v = freq (value_frequency t) v).
Proof.
  intros Ht Heq. revert t Ht. induction n as [|n IH]; intros t Ht.
  - exists [], t. split; [reflexivity|]. split; [constructor|].
    split; [reflexivity|]. split; reflexivity.
  - destruct (add_response_first_pair rd m t files [k0; v0] rest Ht Heq)
      as (r & t1 & E1 & Hh1 & Ht1 & H2 & _).
    destruct (H2 eq_refl) as (-> & Hk1 & Hv1).
    unfold key_of, value_of in Hk1, Hv1. cbn [nth] in Hk1, Hv1.
    destruct (IH t1 Ht1) as (log & t' & E & Hlog & Hh & Hk & Hv).
    cbn [repeat observe_all]. rewrite E1, E.
    exists ((Raise NameError, snapshot_writes files) :: log), t'.
    split; [reflexivity|].
    split; [constructor; [reflexivity | exact Hlog]|].
    split; [congruence|]. split.
    + intros k Hne. rewrite (Hk k Hne), Hk1. apply freq_incr_ne. congruence.
    + intros v Hne. rewrite (Hv v Hne), Hv1. apply freq_incr_ne. congruence.
Qed.
End CallFacts.

(* =================================================================== *)
(** ** The baseline snapshot *)
(* =================================================================== *)

(** C1. The snapshot is not persisted when the hundredth response is fed,
    for two reasons.  [_save_baseline_metrics] reads the global
    [DATASET_FILE], which its module does not define: it raises NameError
    before a file is opened, so that over any sequence of calls on a fresh
    tracker, with or without attention matrices, no snapshot is ever
    written and the latch is never cleared.  And the counter compared with
    [baseline_period] is advanced once per key/value pair, not once per
    response: a record whose colon lines split in two is observed without
    error as long as the pairs counted stay below 100, and the call that
    brings them to 100 raises NameError, which it does again at every
    later pair.  So one response of 100 colon lines raises at the first
    call, 100 one-line responses raise at the hundredth call, and 100
    responses without a colon line never advance the counter. *)
Theorem baseline_counts_pairs (np_std : list Q -> Q) (now_iso : string) :
  let fresh := new_tracker history_size now_iso in
  let one_line : response_dict * option matrix :=
    ([("curator", AgentDict (Some "topic: space"))], None) in
  let hundred_lines : response_dict * option matrix :=
    ([("curator",
       AgentDict (Some (lines (PyStr.repeat_line "topic: space" 100))))],
     None) in
  let no_pairs : response_dict * option matrix :=
    ([("curator", AgentDict (Some "nothing to report"))], None) in
  (forall calls,
      let '(log, t', files') := observe_all np_std calls fresh [] in
      Forall (fun entry => snd entry = 0) log /\
      files' = [] /\
      is_baseline_period t' = true) /\
  (forall rd m t files,
      is_baseline_period t = true ->
      Forall (fun fields => length fields = 2) (record_pairs rd) ->
      (responses_processed (baseline_metrics t) + length (record_pairs rd)
       < baseline_period ->
       exists t',
         add_response np_std rd m t files = (Ok tt, t', files) /\
         is_baseline_period t' = true /\
         responses_processed (baseline_metrics t')
         = responses_processed (baseline_metrics t)
           + length (record_pairs rd)) /\
      (record_pairs rd <> [] ->
       baseline_period
       <= responses_processed (baseline_metrics t) + length (record_pairs rd) ->
       exists t',
         add_response np_std rd m t files = (Raise NameError, t', files) /\
         is_baseline_period t' = true /\
         baseline_period <= responses_processed (baseline_metrics t') /\
         response_history t' = response_history t)) /\
  fst (fst (observe_all np_std (repeat one_line 101) fresh []))
  = repeat (Ok tt, 0) 99 ++ [(Raise NameError, 0); (Raise NameError, 0)] /\
  fst (fst (observe_all np_std [hundred_lines; one_line] fresh []))
  = [(Raise NameError, 0); (Raise NameError, 0)] /\
  fst (fst (observe_all np_std (repeat no_pairs 100) fresh []))
  = repeat (Ok tt, 0) 100 /\
  responses_processed
    (baseline_metrics
       (snd (fst (observe_all np_std (repeat no_pairs 100) fresh [])))) = 0.
Proof.
  intros fresh one_line hundred_lines no_pairs.
  split; [|split; [|split; [|split; [|split]]]].
  - intros calls.
    destruct (observe_all np_std calls fresh []) as [[log t'] files'] eqn:E.
    apply observe_all_keeps in E as (-> & HL & Hlog).
    split; [exact Hlog|]. split; [reflexivity | exact HL].
  - intros rd m t files L Hwf. split.
    + intros Hlt.
      destruct (add_response_room np_std rd m t files 0 Hwf)
        as (t' & E & _ & HL & Hrp & _); [right; lia|].
      exists t'. split; [exact E|]. split; [congruence | exact (Hrp L)].
    + intros Hne Hge.
      exact (add_response_threshold np_std rd m t files Hwf L Hne Hge).
  - vm_compute. reflexivity.
  - vm_compute. reflexivity.
  - vm_compute. reflexivity.
  - vm_compute. reflexivity.
Qed.

(** One response of 100 colon lines, fed to a fresh tracker. *)
Lemma baseline_counts_pairs_witness :
  let rd := [("curator",
              AgentDict (Some (lines (PyStr.repeat_line "topic: space" 100))))] in
  let t := new_tracker history_size "now" in
  exists t',
    add_response (fun _ => 0%Q) rd None t [] = (Raise NameError, t', []) /\
    is_baseline_period t' = true /\
    baseline_period <= responses_processed (baseline_metrics t') /\
    response_history t' = response_history t.
Proof.
  intros rd t.
  refine (proj2 (proj1 (proj2 (baseline_counts_pairs (fun _ => 0%Q) "now"))
                   rd None t [] eq_refl _) _ _).
  - vm_compute. repeat constructor.
  - vm_compute. discriminate.
  - vm_compute. lia.
Defined.

(* =================================================================== *)
(** ** Lines that do not split in two *)
(* =================================================================== *)

Lemma score_pairs_raises t pairs key_scores value_scores :
  Exists (fun fields => length fields <> 2) pairs ->
  score_pairs t pairs key_scores value_scores = Raise ValueError.
Proof.
  intros Hex. revert key_scores value_scores.
  induction Hex as [fields more Hbad | fields more _ IH]; intros ks vs.
  - destruct fields as [|a [|b [|c d]]]; simpl in *; try reflexivity; lia.
  - destruct fields as [|a [|b [|c d]]]; simpl; try reflexivity. apply IH.
Qed.

Section RaiseFacts.
Variable np_std : list Q -> Q.

(** C3. A colon line that does not split into exactly two fields (more
    than one colon, as in "time: 12:30") is not skipped: scoring the text
    raises ValueError, and observing a record that holds it raises too;
    the record is then not added to the history.  The exception of
    [add_response] is the ValueError of the unpacking, unless the lines
    before the offending one bring the baseline counter to its threshold
    first, where NameError is raised instead.  In the record below the
    pair before the offending line is counted, the pair after it is
    not. *)
Theorem malformed_line_raises t files text agent m :
  Exists (fun fields => length fields <> 2) (raw_pairs text) ->
  get_novelty_score t text = Raise ValueError /\
  (exists t' files',
      add_response np_std [(agent, AgentDict (Some text))] m t files
      = (Raise (if reaches_threshold t (length (counted_prefix (raw_pairs text)))
                then NameError else ValueError), t', files') /\
      response_history t' = response_history t) /\
  (let '(r, t', _) :=
     add_response np_std
       [("curator",
         AgentDict (Some (lines ["topic: space"; "time: 12:30"; "mood: calm"])))]
       None (new_tracker history_size "now") [] in
   r = Raise ValueError /\
   freq (key_frequency t') "topic" = 1 /\
   freq (key_frequency t') "mood" = 0 /\
   response_history t' = []).
Proof.
  intros Hex. split; [|split].
  - unfold get_novelty_score.
    destruct (raw_pairs text) as [|fields more] eqn:E; [inversion Hex|].
    now rewrite score_pairs_raises.
  - unfold add_response. cbn [map snd observe_values].
    destruct (counted_prefix_split (raw_pairs text) Hex)
      as (Hwf & bad & rest & Heq & Hbad).
    destruct (observe_pairs_malformed np_std (length (raw_pairs text)) m
                (counted_prefix (raw_pairs text)) bad rest t files Hwf Hbad)
      as (t' & E & Hh).
    rewrite <- Heq in E. rewrite E. exists t', files.
    split; [reflexivity | exact Hh].
  - vm_compute. repeat split; reflexivity.
Qed.
End RaiseFacts.

Lemma malformed_line_witness :
  get_novelty_score (new_tracker history_size "now") "time: 12:30"
  = Raise ValueError.
Proof.
  refine (proj1 (malformed_line_raises (fun _ => 0%Q)
                   (new_tracker history_size "now") [] "time: 12:30"
                   "curator" None _)).
  vm_compute. apply Exists_cons_hd. intros H. discriminate H.
Defined.

(* =================================================================== *)
(** ** The novelty score *)
(* =================================================================== *)

Lemma inverse_frequency_eq f :
  inverse_frequency f = (1 # Pos.of_succ_nat f)%Q.
Proof.
  unfold inverse_frequency, Qof_nat. rewrite Nat.add_1_r. reflexivity.
Qed.

Lemma inverse_frequency_range f :
  (0 <= inverse_frequency f /\ inverse_frequency f <= 1)%Q.
Proof.
  rewrite inverse_frequency_eq. unfold Qle. simpl. lia.
Qed.

Lemma inverse_frequency_decreasing f1 f2 :
  f1 < f2 -> (inverse_frequency f2 < inverse_frequency f1)%Q.
Proof.
  intros H. rewrite !inverse_frequency_eq. unfold Qlt. simpl. lia.
Qed.

Lemma Qsum_range (l : list Q) :
  Forall (fun x => 0 <= x /\ x <= 1)%Q l ->
  (0 <= Qsum l /\ Qsum l <= Qof_nat (length l))%Q.
Proof.
  induction 1 as [|x l [Hx0 Hx1] _ [IH0 IH1]].
  - split; unfold Qle; simpl; lia.
  - cbn [Qsum foldr length]. fold (Qsum l).
    unfold Qof_nat in *. rewrite Nat2Z.inj_succ, <- Z.add_1_l, inject_Z_plus.
    change (inject_Z 1) with 1%Q. lra.
Qed.

Lemma np_mean_range (l : list Q) :
  l <> [] -> Forall (fun x => 0 <= x /\ x <= 1)%Q l ->
  (0 <= np_mean l /\ np_mean l <= 1)%Q.
Proof.
  intros Hne Hall. destruct (Qsum_range l Hall) as [H0 H1].
  assert (Hpos : (0 < Qof_nat (length l))%Q).
  { unfold Qof_nat. change 0%Q with (inject_Z 0). rewrite <- Zlt_Qlt.
    destruct l; [contradiction | simpl; lia]. }
  unfold np_mean. fold (Qof_nat (length l)). split.
  - apply Qle_shift_div_l; [exact Hpos | lra].
  - apply Qle_shift_div_r; [exact Hpos | lra].
Qed.

Lemma half_sum_range (a b : Q) :
  (0 <= a /\ a <= 1 -> 0 <= b /\ b <= 1 ->
   0 <= (a + b) / 2 /\ (a + b) / 2 <= 1)%Q.
Proof.
  intros [? ?] [? ?]. split.
  - apply Qle_shift_div_l; [reflexivity | lra].
  - apply Qle_shift_div_r; [reflexivity | lra].
Qed.

Lemma score_pairs_ok t pairs key_scores value_scores :
  Forall (fun fields => length fields = 2) pairs ->
  score_pairs t pairs key_scores value_scores
  = Ok (key_scores ++ map (key_novelty t) pairs,
        value_scores ++ map (value_novelty t) pairs).
Proof.
  intros Hwf. revert key_scores value_scores.
  induction Hwf as [|fields more Hlen _ IH]; intros ks vs.
  - simpl. now rewrite !app_nil_r.
  - destruct fields as [|k0 [|v0 [|x rest]]]; try discriminate.
    simpl. rewrite IH, <- !app_assoc. reflexivity.
Qed.

Lemma novelty_scores_range t (f : Tracker -> list string -> Q) pairs :
  f = key_novelty \/ f = value_novelty ->
  Forall (fun x => 0 <= x /\ x <= 1)%Q (map (f t) pairs).
Proof.
  intros Hf. induction pairs as [|fields more IH]; simpl; constructor; auto.
  destruct Hf as [-> | ->]; apply inverse_frequency_range.
Qed.

(** C4. Where every colon line of the text splits into two fields,
    [get_novelty_score] returns 0 when there is no colon line, and
    otherwise the mean of the mean key novelty and the mean value novelty,
    each pair contributing [1 / (frequency + 1)]; whatever it returns lies
    in [0, 1].  It does not return for every text: a colon line with
    another number of fields (as in "time: 12:30") makes it raise
    ValueError. *)
Theorem novelty_score_formula t text :
  (raw_pairs text = [] -> get_novelty_score t text = Ok 0%Q) /\
  (raw_pairs text <> [] -> well_formed text ->
   get_novelty_score t text
   = Ok ((np_mean (map (key_novelty t) (raw_pairs text))
          + np_mean (map (value_novelty t) (raw_pairs text))) / 2)%Q) /\
  (forall q, get_novelty_score t text = Ok q -> (0 <= q /\ q <= 1)%Q) /\
  (Exists (fun fields => length fields <> 2) (raw_pairs text) ->
   get_novelty_score t text = Raise ValueError) /\
  get_novelty_score t "time: 12:30" = Raise ValueError.
Proof.
  assert (Hraise : forall txt,
             Exists (fun fields => length fields <> 2) (raw_pairs txt) ->
             get_novelty_score t txt = Raise ValueError).
  { intros txt Hex. unfold get_novelty_score.
    destruct (raw_pairs txt) as [|fields more] eqn:E; [inversion Hex|].
    now rewrite score_pairs_raises. }
  assert (Hok : raw_pairs text <> [] -> well_formed text ->
     get_novelty_score t text
     = Ok ((np_mean (map (key_novelty t) (raw_pairs text))
            + np_mean (map (value_novelty t) (raw_pairs text))) / 2)%Q).
  { intros Hne Hwf. unfold get_novelty_score, well_formed in *.
    destruct (raw_pairs text) as [|fields more] eqn:E; [contradiction|].
    rewrite score_pairs_ok by assumption. reflexivity. }
  split; [|split; [exact Hok|split; [|split]]].
  - intros E. unfold get_novelty_score. now rewrite E.
  - intros q Hq.
    destruct (Forall_Exists_dec (fun fields : list string => length fields = 2)
                (fun fields => length fields <> 2)
                (fun fields => Nat.eq_dec (length fields) 2)
                (raw_pairs text)) as [Hwf|Hex];
      [|rewrite Hraise in Hq by exact Hex; discriminate].
    destruct (raw_pairs text) as [|fields more] eqn:E.
    + unfold get_novelty_score in Hq. rewrite E in Hq.
      injection Hq as <-. split; unfold Qle; simpl; lia.
    + rewrite Hok in Hq; [|discriminate | unfold well_formed; now rewrite E].
      injection Hq as <-.
      apply half_sum_range; (apply np_mean_range; [discriminate|]).
      * apply (novelty_scores_range t key_novelty (fields :: more)). auto.
      * apply (novelty_scores_range t value_novelty (fields :: more)). auto.
  - apply Hraise.
  - apply Hraise. vm_compute. apply Exists_cons_hd. intros H. discriminate H.
Qed.

Lemma novelty_score_witness :
  get_novelty_score (new_tracker history_size "now")
                    (lines ["topic: space"; "mood: calm"])
  = Ok ((np_mean [1; 1] + np_mean [1; 1]) / 2)%Q.
Proof.
  refine (eq_trans
            (proj1 (proj2 (novelty_score_formula (new_tracker history_size "now")
                             (lines ["topic: space"; "mood: calm"]))) _ _) _).
  - vm_compute. discriminate.
  - vm_compute. repeat constructor.
  - vm_compute. reflexivity.
Defined.

(* =================================================================== *)
(** ** Observed pairs lose novelty *)
(* =================================================================== *)

Section GrowthFacts.
Variable np_std : list Q -> Q.

(** C5. The contribution [1 / (frequency + 1)] is strictly decreasing in
    the frequency, but observing a response that contains a pair does not
    always raise the pair's frequency.  It does where the colon lines of
    the record all split in two and five times its pairs fit below the
    baseline threshold (or the latch is cleared): the five calls return,
    each key and each value of the record is counted at least five times
    more, and each pair then contributes strictly less.  It does not for a
    pair that follows a line with another number of fields: each call
    raises before the pair is reached, and its key and value, unless they
    also occur before that line, are counted as often as before.  Nor does
    it at the baseline threshold, where each call counts the first pair of
    the record and raises NameError: every other key and value is counted
    as often as before.  So "topic: space" after "time: 12:30", observed
    five times from a fresh tracker, still scores as on the fresh
    tracker; and so does "topic: space" after "mood: calm", observed five
    times by a tracker that has been fed a hundred one-line responses. *)
Theorem novelty_decays :
  (forall f1 f2, f1 < f2 ->
     (inverse_frequency f2 < inverse_frequency f1)%Q) /\
  (forall rd m agent text fields t files,
     In (agent, AgentDict (Some text)) rd ->
     In fields (raw_pairs text) ->
     Forall (fun fields => length fields = 2) (record_pairs rd) ->
     room t (5 * length (record_pairs rd)) ->
     exists log t',
       observe_all np_std (repeat (rd, m) 5) t files = (log, t', files) /\
       Forall (fun entry => fst entry = Ok tt) log /\
       freq (key_frequency t) (key_of fields) + 5
       <= freq (key_frequency t') (key_of fields) /\
       freq (value_frequency t) (value_of fields) + 5
       <= freq (value_frequency t') (value_of fields) /\
       (key_novelty t' fields < key_novelty t fields)%Q /\
       (value_novelty t' fields < value_novelty t fields)%Q) /\
  (forall n agent text m t files good bad rest fields,
     raw_pairs text = good ++ bad :: rest ->
     Forall (fun fields => length fields = 2) good ->
     length bad <> 2 ->
     ~ In (key_of fields) (map key_of good) ->
     ~ In (value_of fields) (map value_of good) ->
     exists log t',
       observe_all np_std (repeat ([(agent, AgentDict (Some text))], m) n)
         t files = (log, t', files) /\
       Forall (fun entry => fst entry <> Ok tt) log /\
       key_novelty t' fields = key_novelty t fields /\
       value_novelty t' fields = value_novelty t fields) /\
  (forall n rd m t files k0 v0 rest fields,
     at_threshold t ->
     record_pairs rd = [k0; v0] :: rest ->
     key_of fields <> PyStr.strip k0 ->
     value_of fields <> PyStr.strip v0 ->
     exists log t',
       observe_all np_std (repeat (rd, m) n) t files = (log, t', files) /\
       Forall (fun entry => fst entry = Raise NameError) log /\
       key_novelty t' fields = key_novelty t fields /\
       value_novelty t' fields = value_novelty t fields) /\
  (let fresh := new_tracker history_size "now" in
   let rd := [("curator",
               AgentDict (Some (lines ["time: 12:30"; "topic: space"])))] in
   let '(log, t', _) := observe_all np_std (repeat (rd, None) 5) fresh [] in
   map fst log = repeat (Raise ValueError) 5 /\
   freq (key_frequency t') "topic" = 0 /\
   freq (value_frequency t') "space" = 0 /\
   get_novelty_score t' "topic: space" = get_novelty_score fresh "topic: space") /\
  (let fresh := new_tracker history_size "now" in
   let warm_up : response_dict * option matrix :=
     ([("curator", AgentDict (Some "warm: up"))], None) in
   let rd : response_dict * option matrix :=
     ([("curator", AgentDict (Some (lines ["mood: calm"; "topic: space"])))],
      None) in
   let '(log, t', _) :=
     observe_all np_std (repeat warm_up 100 ++ repeat rd 5) fresh [] in
   map fst log = repeat (Ok tt) 99 ++ repeat (Raise NameError) 6 /\
   freq (key_frequency t') "mood" = 5 /\
   freq (key_frequency t') "topic" = 0 /\
   freq (value_frequency t') "space" = 0 /\
   get_novelty_score t' "topic: space" = get_novelty_score fresh "topic: space").
Proof.
  split; [exact inverse_frequency_decreasing|].
  split; [|split; [|split; [|split]]].
  - intros rd m agent text fields t files Hrd Hf Hwf Hroom.
    destruct (observe_all_room np_std 5 rd m t files Hwf Hroom)
      as (log & t' & E & Hlog & _ & Hin).
    destruct (Hin fields (in_record_pairs rd agent text fields Hrd Hf))
      as [Hk Hv].
    exists log, t'. split; [exact E|]. split; [exact Hlog|].
    split; [exact Hk|]. split; [exact Hv|].
    unfold key_novelty, value_novelty.
    split; apply inverse_frequency_decreasing; lia.
  - intros n agent text m t files good bad rest fields Heq Hwf Hbad Hk Hv.
    destruct (observe_all_within np_std n agent text m t files good bad rest
                Heq Hwf Hbad) as (log & t' & E & Hlog & _ & Hks & Hvs).
    exists log, t'. split; [exact E|]. split; [exact Hlog|].
    unfold key_novelty, value_novelty.
    rewrite (Hks _ Hk), (Hvs _ Hv). split; reflexivity.
  - intros n rd m t files k0 v0 rest fields Ht Heq Hk Hv.
    destruct (observe_all_first_pair np_std n rd m t files k0 v0 rest Ht Heq)
      as (log & t' & E & Hlog & _ & Hks & Hvs).
    exists log, t'. split; [exact E|]. split; [exact Hlog|].
    unfold key_novelty, value_novelty.
    rewrite (Hks _ Hk), (Hvs _ Hv). split; reflexivity.
  - vm_compute. repeat split; reflexivity.
  - vm_compute. repeat split; reflexivity.
Qed.
End GrowthFacts.

(** "topic: space" scores 1 on a fresh tracker and 1/6 once a response
    holding just that line has been observed five times. *)
Lemma novelty_decays_witness :
  let rd := [("curator", AgentDict (Some "topic: space"))] in
  let fresh := new_tracker history_size "now" in
  let t' := snd (fst (observe_all (fun _ => 0%Q) (repeat (rd, None) 5) fresh [])) in
  (key_novelty t' ["topic"; " space"] < key_novelty fresh ["topic"; " space"])%Q /\
  get_novelty_score fresh "topic: space" = Ok ((1 + 1) / 2)%Q /\
  get_novelty_score t' "topic: space" = Ok (((1 # 6) + (1 # 6)) / 2)%Q.
Proof.
  intros rd fresh t'.
  destruct (proj1 (proj2 (novelty_decays (fun _ => 0%Q)))
              rd None "curator" "topic: space" ["topic"; " space"] fresh [])
    as (log & t1 & E & _ & _ & _ & Hk & _).
  - left. reflexivity.
  - left. reflexivity.
  - vm_compute. repeat constructor.
  - right. vm_compute. lia.
  - split; [|split; vm_compute; reflexivity].
    unfold t'. rewrite E. exact Hk.
Defined.

End NoveltyFacts.

(* ===================================================================== *)
(** * Further properties of the same code *)
(* ===================================================================== *)

Module StringMore.
Import PyStr Notions.

Lemma take_length n s :
  n <= String.length s -> String.length (take n s) = n.
Proof.
  unfold take. revert s. induction n as [|n IH]; intros s Hn.
  - destruct s; reflexivity.
  - destruct s as [|c s]; simpl in *; [lia|]. rewrite IH; lia.
Qed.

Lemma take_is_prefix n s : exists rest, s = take n s +:+ rest.
Proof.
  unfold take. revert s. induction n as [|n IH]; intros s.
  - exists s. destruct s; reflexivity.
  - destruct s as [|c s]; simpl.
    + exists "". reflexivity.
    + destruct (IH s) as [rest E]. exists rest.
      rewrite PyStrFacts.append_cons. now rewrite <- E.
Qed.

Lemma lstrip_clean s : clean_start (lstrip s).
Proof.
  induction s as [|c s IH]; simpl; [exact I|].
  destruct (is_space c) eqn:E; [exact IH | exact E].
Qed.

Lemma lstrip_of_clean s : clean_start s -> lstrip s = s.
Proof. destruct s as [|c s]; simpl; [reflexivity|]. now intros ->. Qed.

Lemma rstrip_clean s : clean_start s -> clean_start (rstrip s).
Proof.
  destruct s as [|c s]; simpl; [auto|]. intros Hc.
  destruct (rstrip s); [rewrite Hc|]; exact Hc.
Qed.

Lemma rstrip_cons c s :
  rstrip (String c s)
  = match rstrip s with
    | EmptyString => if is_space c then EmptyString else String c EmptyString
    | kept => String c kept
    end.
Proof. reflexivity. Qed.

Lemma rstrip_idempotent s : rstrip (rstrip s) = rstrip s.
Proof.
  induction s as [|c s IH]; [reflexivity|].
  rewrite rstrip_cons. destruct (rstrip s) as [|d kept] eqn:E.
  - destruct (is_space c) eqn:Hc; [reflexivity|].
    rewrite rstrip_cons. simpl. now rewrite Hc.
  - rewrite rstrip_cons, IH. reflexivity.
Qed.

Lemma strip_idempotent s : strip (strip s) = strip s.
Proof.
  unfold strip.
  rewrite (lstrip_of_clean (rstrip (lstrip s)))
    by apply rstrip_clean, lstrip_clean.
  apply rstrip_idempotent.
Qed.

Lemma split_not_nil sep s : split sep s <> [].
Proof.
  destruct s as [|c s]; simpl; [discriminate|].
  destruct (Ascii.eqb c sep); [discriminate|].
  destruct (split sep s); discriminate.
Qed.

(** No piece of a text without [c] contains [c]. *)
Lemma split_without c sep s :
  contains_char c s = false ->
  Forall (fun piece => contains_char c piece = false) (split sep s).
Proof.
  induction s as [|d s IH]; simpl; intros H.
  - repeat constructor.
  - apply orb_false_iff in H as [Hd Hs]. specialize (IH Hs).
    destruct (Ascii.eqb d sep).
    + constructor; [reflexivity | exact IH].
    + destruct (split sep s) as [|hd tl]; inversion IH; subst;
        constructor; simpl; try rewrite Hd; auto.
Qed.

End StringMore.

Module AdapterMore.
Import Clipboard Notions.

(** X1. [truncate_content] returns a text of at most [max_chars]
    characters unchanged; of a longer one it keeps exactly the first
    [max_chars] characters and appends the 15 characters of the marker, so
    the result has [max_chars + 15] characters (more than the text itself
    when the text exceeds [max_chars] by fewer than 15). *)
Theorem truncate_content_shape text max_chars :
  (String.length text <= max_chars -> truncate_content text max_chars = text) /\
  (max_chars < String.length text ->
   truncate_content text max_chars
   = PyStr.take max_chars text +:+ "... [truncated]" /\
   (exists rest, text = PyStr.take max_chars text +:+ rest) /\
   String.length (truncate_content text max_chars) = max_chars + 15) /\
  String.length (truncate_content text max_chars) <= max_chars + 15.
Proof.
  unfold truncate_content.
  destruct (Nat.leb_spec (String.length text) max_chars) as [Hle|Hgt].
  - split; [reflexivity|]. split; [lia|]. lia.
  - split; [lia|].
    assert (Hlen : String.length (PyStr.take max_chars text +:+ "... [truncated]")
                   = max_chars + 15).
    { rewrite PyStrFacts.length_append, StringMore.take_length by lia.
      reflexivity. }
    split; [|lia]. intros _. split; [reflexivity|].
    split; [apply StringMore.take_is_prefix | exact Hlen].
Qed.

Lemma truncate_content_shape_witness :
  truncate_content "0123456789ab" 8 = "01234567... [truncated]" /\
  String.length (truncate_content "0123456789ab" 8) = 8 + 15.
Proof.
  destruct (proj1 (proj2 (truncate_content_shape "0123456789ab" 8)))
    as (E & _ & L).
  - apply Nat.ltb_lt. reflexivity.
  - split; [rewrite E; reflexivity | exact L].
Defined.

Section Budget.
Variable client : nat -> string -> call_result.
Variable now_iso : string.

Lemma calls_in_app a b : calls_in (a ++ b) = calls_in a + calls_in b.
Proof. unfold calls_in. now rewrite List.filter_app, length_app. Qed.

Lemma seconds_slept_app a b :
  seconds_slept (a ++ b) = seconds_slept a + seconds_slept b.
Proof.
  induction a as [|e a IH]; [reflexivity|].
  simpl. destruct e; rewrite ?IH; lia.
Qed.

Lemma attempt_loop_budget remaining attempt prompt w :
  attempt + remaining = retry_attempts -> 0 < remaining ->
  exists r w' log,
    attempt_loop client now_iso remaining attempt prompt w = (Some r, w') /\
    events w' = events w ++ log /\
    calls_made w' = calls_made w + calls_in log /\
    1 <= calls_in log <= remaining /\
    seconds_slept log = retry_delay * (calls_in log - 1) /\
    PyStr.strip (response r) = response r.
Proof.
  revert attempt w. induction remaining as [|k IH]; intros attempt w Hsum Hpos; [lia|].
  cbn [attempt_loop].
  destruct (client (calls_made w) (prompt +:+ instruction_suffix))
    as [e|chunks fails] eqn:Hc.
  - destruct (attempt <? retry_attempts - 1)%nat eqn:Hlt.
    + apply Nat.ltb_lt in Hlt.
      destruct (IH (S attempt)
                  (mkNet (S (calls_made w))
                         ((events w ++ [EvCall (prompt +:+ instruction_suffix)])
                          ++ [EvSleep retry_delay])))
        as (r & w' & log & E & Hev & Hcalls & Hn & Hs & Hstrip);
        [unfold retry_attempts in *; lia | unfold retry_attempts in *; lia |].
      exists r, w',
        ([EvCall (prompt +:+ instruction_suffix); EvSleep retry_delay] ++ log).
      cbn [calls_made events] in *. split; [exact E|].
      split; [rewrite Hev, <- !app_assoc; reflexivity|].
      rewrite calls_in_app, seconds_slept_app.
      change (calls_in [EvCall (prompt +:+ instruction_suffix); EvSleep retry_delay])
        with 1.
      change (seconds_slept [EvCall (prompt +:+ instruction_suffix); EvSleep retry_delay])
        with (retry_delay + 0).
      unfold retry_delay in *.
      split; [lia|]. split; [lia|]. split; [lia | exact Hstrip].
    + exists (error_response e),
        (mkNet (S (calls_made w))
               (events w ++ [EvCall (prompt +:+ instruction_suffix)])),
        [EvCall (prompt +:+ instruction_suffix)].
      cbn [calls_made events].
      change (calls_in [EvCall (prompt +:+ instruction_suffix)]) with 1.
      split; [reflexivity|]. split; [reflexivity|]. split; [lia|].
      split; [lia|]. split; reflexivity.
  - destruct (consume chunks ∅ "") as [full broke].
    destruct (fails && negb broke).
    + do 2 eexists.
      exists [EvCall (prompt +:+ instruction_suffix); EvStreamWarning].
      split; [reflexivity|]. cbn [calls_made events response].
      split; [rewrite <- app_assoc; reflexivity|].
      change (calls_in [EvCall (prompt +:+ instruction_suffix); EvStreamWarning])
        with 1.
      split; [lia|]. split; [lia|]. split; [reflexivity|].
      apply StringMore.strip_idempotent.
    + do 2 eexists. exists [EvCall (prompt +:+ instruction_suffix)].
      split; [reflexivity|]. cbn [calls_made events response].
      split; [reflexivity|].
      change (calls_in [EvCall (prompt +:+ instruction_suffix)]) with 1.
      split; [lia|]. split; [lia|]. split; [reflexivity|].
      apply StringMore.strip_idempotent.
Qed.

(** X2. Whatever the server does, one [query_llama_stack] makes between
    one and three calls, only appends to the log, and sleeps
    [retry_delay] seconds once per call but the last: never more than 10
    seconds in all. *)
Theorem query_call_budget prompt w :
  exists r w' log,
    query_llama_stack client now_iso prompt w = (Some r, w') /\
    events w' = events w ++ log /\
    calls_made w' = calls_made w + calls_in log /\
    1 <= calls_in log <= 3 /\
    seconds_slept log = 5 * (calls_in log - 1) /\
    seconds_slept log <= 10.
Proof.
  destruct (attempt_loop_budget retry_attempts 0 prompt w)
    as (r & w' & log & E & Hev & Hc & Hn & Hs & _);
    [reflexivity | unfold retry_attempts; lia |].
  exists r, w', log. unfold retry_attempts, retry_delay in *.
  repeat split; try assumption; lia.
Qed.

(** X3. The response text [query_llama_stack] returns never begins or
    ends with white space: stripping it again, as [analyze_content] does,
    changes nothing. *)
Theorem query_response_stripped prompt w :
  exists r w',
    query_llama_stack client now_iso prompt w = (Some r, w') /\
    PyStr.strip (response r) = response r /\
    Notions.clean_start (response r).
Proof.
  destruct (attempt_loop_budget retry_attempts 0 prompt w)
    as (r & w' & log & E & _ & _ & _ & _ & Hstrip);
    [reflexivity | unfold retry_attempts; lia |].
  exists r, w'. split; [exact E|]. split; [exact Hstrip|].
  rewrite <- Hstrip. unfold PyStr.strip.
  apply StringMore.rstrip_clean, StringMore.lstrip_clean.
Qed.
(** X4. The answer is that of the first attempt that does not raise: after
    [j] failed attempts ([j] at most 2) the adapter has made [j + 1] calls,
    slept [5 * j] seconds, and returns the stripped text assembled from
    that attempt's stream. *)
Theorem first_answer_wins prompt w j chunks fails (errors : nat -> string) :
  j < retry_attempts ->
  (forall i, i < j ->
     client (calls_made w + i) (prompt +:+ instruction_suffix)
     = CallRaises (errors i)) ->
  client (calls_made w + j) (prompt +:+ instruction_suffix)
  = CallReturns chunks fails ->
  exists w' log,
    query_llama_stack client now_iso prompt w
    = (Some (mkResponse (PyStr.strip (fst (consume chunks ∅ "")))
                        (MetaOk AI_provider AI_model_id now_iso)), w') /\
    events w' = events w ++ log /\
    calls_in log = j + 1 /\
    seconds_slept log = retry_delay * j.
Proof.
  unfold query_llama_stack.
  assert (Hgen : forall j remaining attempt w0,
    attempt + remaining = retry_attempts -> j < remaining ->
    (forall i, i < j ->
       client (calls_made w0 + i) (prompt +:+ instruction_suffix)
       = CallRaises (errors (attempt + i))) ->
    client (calls_made w0 + j) (prompt +:+ instruction_suffix)
    = CallReturns chunks fails ->
    exists w' log,
      attempt_loop client now_iso remaining attempt prompt w0
      = (Some (mkResponse (PyStr.strip (fst (consume chunks ∅ "")))
                          (MetaOk AI_provider AI_model_id now_iso)), w') /\
      events w' = events w0 ++ log /\
      calls_in log = j + 1 /\
      seconds_slept log = retry_delay * j).
  { clear w j. induction j as [|j IH]; intros remaining attempt w0 Hsum Hj Herr Hok.
    - destruct remaining as [|k]; [lia|]. cbn [attempt_loop].
      rewrite Nat.add_0_r in Hok. rewrite Hok.
      destruct (consume chunks ∅ "") as [full broke]. cbn [fst].
      destruct (fails && negb broke).
      + do 2 eexists. split; [reflexivity|]. cbn [events].
        split; [rewrite <- app_assoc; reflexivity|]. split; reflexivity.
      + do 2 eexists. split; [reflexivity|]. cbn [events].
        split; [reflexivity|]. split; reflexivity.
    - destruct remaining as [|k]; [lia|]. cbn [attempt_loop].
      pose proof (Herr 0 ltac:(lia)) as H0. rewrite Nat.add_0_r in H0.
      rewrite H0.
      assert (Hlt : (attempt <? retry_attempts - 1)%nat = true)
        by (apply Nat.ltb_lt; unfold retry_attempts in *; lia).
      rewrite Hlt.
      destruct (IH k (S attempt)
                  (mkNet (S (calls_made w0))
                         ((events w0 ++ [EvCall (prompt +:+ instruction_suffix)])
                          ++ [EvSleep retry_delay])))
        as (w' & log & E & Hev & Hc & Hs).
      + lia.
      + lia.
      + intros i Hi. cbn [calls_made].
        replace (S (calls_made w0) + i) with (calls_made w0 + S i) by lia.
        replace (S attempt + i) with (attempt + S i) by lia.
        apply Herr. lia.
      + cbn [calls_made].
        replace (S (calls_made w0) + j) with (calls_made w0 + S j) by lia.
        exact Hok.
      + exists w',
          ([EvCall (prompt +:+ instruction_suffix); EvSleep retry_delay] ++ log).
        split; [exact E|]. cbn [events] in Hev.
        split; [rewrite Hev, <- !app_assoc; reflexivity|].
        rewrite calls_in_app, seconds_slept_app, Hc, Hs.
        change (calls_in [EvCall (prompt +:+ instruction_suffix); EvSleep retry_delay])
          with 1.
        change (seconds_slept [EvCall (prompt +:+ instruction_suffix); EvSleep retry_delay])
          with (retry_delay + 0).
        unfold retry_delay. split; lia. }
  intros Hj Herr Hok. apply (Hgen j retry_attempts 0 w); auto.
Qed.
End Budget.

Lemma first_answer_wins_witness :
  exists w' log,
    query_llama_stack
      (fun k _ => if (k <? 2)%nat then CallRaises "down"
                  else CallReturns [EventDelta " key: value "] false)
      "now" "p" (mkNet 0 [])
    = (Some (mkResponse "key: value"
                        (MetaOk AI_provider AI_model_id "now")), w') /\
    events w' = [] ++ log /\
    calls_in log = 3 /\
    seconds_slept log = 10.
Proof.
  apply (first_answer_wins
           (fun k _ => if (k <? 2)%nat then CallRaises "down"
                       else CallReturns [EventDelta " key: value "] false)
           "now" "p" (mkNet 0 []) 2 [EventDelta " key: value "] false
           (fun _ => "down")).
  - unfold retry_attempts. lia.
  - intros i Hi. cbn [calls_made]. destruct i as [|[|i]]; [reflexivity..|lia].
  - reflexivity.
Defined.

(** X5. A stream whose texts are pairwise different and together at most
    1000 characters long is assembled without loss: the result is the
    concatenation of all its texts, in order, and the loop is not left by
    [break]. *)
Theorem consume_lossless chunks :
  NoDup (delta_texts chunks) ->
  String.length (concat_texts (delta_texts chunks)) <= length_limit ->
  consume chunks ∅ "" = (concat_texts (delta_texts chunks), false).
Proof.
  assert (Hgen : forall chunks seen full,
    NoDup (delta_texts chunks) ->
    (forall t, In t (delta_texts chunks) -> t ∉ seen) ->
    String.length (full +:+ concat_texts (delta_texts chunks)) <= length_limit ->
    consume chunks seen full
    = (full +:+ concat_texts (delta_texts chunks), false)).
  { clear chunks. induction chunks as [|ch rest IH]; intros seen full Hnd Hfresh Hlen.
    - simpl. now rewrite PyStrFacts.append_empty_r.
    - unfold delta_texts in *. cbn [omap list_omap consume] in *.
      destruct (chunk_text ch) as [new_text|] eqn:Hch; cbn [concat_texts foldr] in *.
      + apply NoDup_cons in Hnd as [Hnotin Hnd].
        destruct (decide (new_text ∈ seen)) as [Hin|Hnin].
        { exfalso. apply (Hfresh new_text); [now left | exact Hin]. }
        rewrite <- PyStrFacts.append_assoc in Hlen.
        assert (Hnow : String.length (full +:+ new_text) <= length_limit).
        { rewrite PyStrFacts.length_append in Hlen. lia. }
        destruct (Nat.ltb_spec length_limit (String.length (full +:+ new_text)));
          [lia|].
        rewrite IH; [now rewrite PyStrFacts.append_assoc | exact Hnd | | exact Hlen].
        intros t Ht Hs. apply elem_of_union in Hs as [Hs|Hs].
        * apply elem_of_singleton in Hs. subst t. apply Hnotin.
          apply list_elem_of_In. exact Ht.
        * apply (Hfresh t); [now right | exact Hs].
      + apply IH; assumption. }
  intros Hnd Hlen. rewrite (Hgen chunks ∅ ""); [reflexivity | exact Hnd | | exact Hlen].
  intros t _ Hin. apply not_elem_of_empty in Hin. exact Hin.
Qed.

Lemma consume_lossless_witness :
  consume [EventDelta "key"; OtherChunk; ChoiceMessage ": "; EventDelta "value"]
          ∅ ""
  = ("key: value", false).
Proof.
  apply (consume_lossless
           [EventDelta "key"; OtherChunk; ChoiceMessage ": "; EventDelta "value"]).
  - vm_compute. repeat constructor; intros H;
      repeat (apply elem_of_cons in H as [H|H]; [discriminate|]);
      apply elem_of_nil in H; exact H.
  - apply Nat.leb_le. reflexivity.
Defined.

(** X6. Once the loop has been left by [break], nothing that follows in
    the stream is looked at. *)
Theorem consume_stops_at_break chunks extra seen full :
  snd (consume chunks seen full) = true ->
  consume (chunks ++ extra) seen full = consume chunks seen full /\
  length_limit < String.length (fst (consume chunks seen full)).
Proof.
  revert seen full. induction chunks as [|ch rest IH]; intros seen full Hb.
  - discriminate.
  - cbn [consume app] in *. destruct (chunk_text ch) as [new_text|].
    + destruct (decide (new_text ∈ seen)).
      * destruct (Nat.ltb_spec length_limit (String.length full));
          [split; [reflexivity | assumption] | apply IH; exact Hb].
      * destruct (Nat.ltb_spec length_limit (String.length (full +:+ new_text)));
          [split; [reflexivity | assumption] | apply IH; exact Hb].
    + apply IH. exact Hb.
Qed.

Lemma consume_stops_at_break_witness :
  let long := PyStr.join "" (PyStr.repeat_line "a" 1001) in
  consume ([EventDelta long] ++ [EventDelta "more"]) ∅ ""
  = consume [EventDelta long] ∅ "".
Proof.
  intros long.
  apply (consume_stops_at_break [EventDelta long] [EventDelta "more"] ∅ "").
  vm_compute. reflexivity.
Defined.

End AdapterMore.

Module AnalyzerMore.
Import Clipboard Notions.

(** X7. [format_previous_thoughts] labels the thoughts with the first keys
    of the roster: it succeeds for up to three thoughts and raises
    IndexError for more. *)
Theorem format_previous_thoughts_index thoughts :
  (length thoughts <= 3 -> exists s, format_previous_thoughts thoughts = Ok s) /\
  (3 < length thoughts -> format_previous_thoughts thoughts = Raise IndexError).
Proof.
  destruct thoughts as [|a [|b [|c [|d more]]]]; simpl length; split; intros H;
    try lia; try (eexists; reflexivity); reflexivity.
Qed.

Lemma format_previous_thoughts_index_witness :
  format_previous_thoughts ["a: 1"; "b: 2"; "c: 3"; "d: 4"] = Raise IndexError /\
  format_previous_thoughts ["a: 1"; "no colon"; "c: 3"]
  = Ok (block_of "curator" "a: 1" +:+ PyStr.nl
        +:+ block_of "analyst" "no colon" +:+ PyStr.nl
        +:+ block_of "synthesizer" "c: 3").
Proof.
  split.
  - apply (proj2 (format_previous_thoughts_index ["a: 1"; "b: 2"; "c: 3"; "d: 4"])).
    simpl. lia.
  - reflexivity.
Defined.

Lemma format_previous_thoughts_defined thoughts :
  length thoughts <= 3 -> exists s, format_previous_thoughts thoughts = Ok s.
Proof.
  destruct thoughts as [|a [|b [|c [|d more]]]]; simpl length; intros H;
    try lia; eexists; reflexivity.
Qed.

Section Loop.
Variable client : nat -> string -> call_result.
Variable now_iso : string.

Lemma agent_loop_general agents content ct thoughts final trace w :
  length thoughts + length agents <= 3 ->
  (forall a, In a agents -> In a AGENT_CONFIG) ->
  Forall (entry_ok ct) final ->
  exists final' trace' w' log,
    agent_loop client now_iso agents content ct thoughts final trace w
    = (Ok final', trace', w') /\
    Forall (entry_ok ct) final' /\
    events w' = events w ++ log /\
    calls_made w' = calls_made w + calls_in log /\
    length agents <= calls_in log <= 3 * length agents /\
    seconds_slept log <= 10 * length agents /\
    length final' <= length final + length agents.
Proof.
  revert thoughts final trace w.
  induction agents as [|[agent_id agent] rest IH];
    intros thoughts final trace w Hlen Hroster Hfinal.
  - exists final, trace, w, []. cbn [agent_loop length].
    rewrite app_nil_r. repeat split; auto; simpl; lia.
  - cbn [agent_loop]. cbn [length] in Hlen.
    destruct (format_previous_thoughts_defined thoughts) as [prev ->]; [lia|].
    set (prompt := render_prompt ct agent prev
                     (truncate_content (item_content content) 512)).
    destruct (AdapterMore.attempt_loop_budget client now_iso retry_attempts 0
                prompt w)
      as (r & w1 & log1 & E & Hev1 & Hc1 & Hn1 & Hs1 & Hstrip);
      [reflexivity | unfold retry_attempts; lia |].
    unfold query_llama_stack. rewrite E.
    assert (Hrest : forall a, In a rest -> In a AGENT_CONFIG)
      by (intros a Ha; apply Hroster; now right).
    unfold retry_delay, retry_attempts in *.
    destruct (rejected (PyStr.strip (response r))) eqn:K.
    + destruct (IH thoughts final
                  (trace ++ [mkStep agent_id prev prompt (PyStr.strip (response r)) false])
                  w1)
        as (final' & trace' & w' & log & E' & Hf & Hev & Hc & Hn & Hs & Hl);
        [lia | exact Hrest | exact Hfinal |].
      exists final', trace', w', (log1 ++ log). split; [exact E'|].
      split; [exact Hf|]. split; [rewrite Hev, Hev1, app_assoc; reflexivity|].
      rewrite AdapterMore.calls_in_app, AdapterMore.seconds_slept_app.
      cbn [length]. repeat split; lia.
    + destruct (IH (thoughts ++ [PyStr.strip (response r)])
                  (final ++ [(agent_id,
                              mkResult (PyStr.strip (response r)) ct prev
                                       (personality agent))])
                  (trace ++ [mkStep agent_id prev prompt (PyStr.strip (response r)) true])
                  w1)
        as (final' & trace' & w' & log & E' & Hf & Hev & Hc & Hn & Hs & Hl).
      * rewrite length_app. simpl. lia.
      * exact Hrest.
      * apply Forall_app. split; [exact Hfinal|]. constructor; [|constructor].
        unfold entry_ok. cbn [fst snd result_response context_content_type context_role].
        split; [exact K|]. split; [apply StringMore.strip_idempotent|].
        split; [reflexivity|]. exists agent. split; [|reflexivity].
        apply Hroster. now left.
      * exists final', trace', w', (log1 ++ log). split; [exact E'|].
        split; [exact Hf|]. split; [rewrite Hev, Hev1, app_assoc; reflexivity|].
        rewrite AdapterMore.calls_in_app, AdapterMore.seconds_slept_app.
        rewrite length_app in Hl. cbn [length] in *. repeat split; lia.
Qed.

(** X8. [analyze_content] never takes its [except] branch on an item of
    the pipeline: it returns a dict of at most three entries, each holding
    a non-empty answer that does not start with "Error:", has no white space
    around it, and is filed with the detected content type and the role of
    its persona. *)
Theorem analysis_entries_usable content w :
  exists final w',
    analyze_content client now_iso content w = (Some final, w') /\
    Forall (entry_ok (analyze_content_type content)) final /\
    length final <= 3.
Proof.
  destruct (agent_loop_general AGENT_CONFIG content (analyze_content_type content)
              [] [] [] w)
    as (final & trace & w' & log & E & Hf & _ & _ & _ & _ & Hl);
    [simpl; lia | auto | constructor |].
  exists final, w'. unfold analyze_content, analyze_content_traced.
  rewrite E. split; [reflexivity|]. split; [exact Hf | exact Hl].
Qed.

(** X9. One analysis costs between 3 and 9 calls to the server and at
    most 30 seconds of sleeping, and only appends to the log. *)
Theorem analysis_call_budget content w :
  exists final w' log,
    analyze_content client now_iso content w = (Some final, w') /\
    events w' = events w ++ log /\
    calls_made w' = calls_made w + calls_in log /\
    3 <= calls_in log <= 9 /\
    seconds_slept log <= 30.
Proof.
  destruct (agent_loop_general AGENT_CONFIG content (analyze_content_type content)
              [] [] [] w)
    as (final & trace & w' & log & E & _ & Hev & Hc & Hn & Hs & _);
    [simpl; lia | auto | constructor |].
  exists final, w', log. unfold analyze_content, analyze_content_traced.
  rewrite E. simpl in Hn, Hs. repeat split; try assumption; lia.
Qed.

End Loop.


End AnalyzerMore.

Module PipelineFacts.
Import Clipboard Pipeline Notions.

(* =================================================================== *)
(** ** The newest screenshot *)
(* =================================================================== *)

Lemma sorted_by_mtime_head x (l : list screenshot) :
  head (sorted_by_mtime (x :: l))
  = Some (match head (sorted_by_mtime l) with
          | None => x
          | Some y => if Qle_bool (snd y) (snd x) then x else y
          end).
Proof.
  unfold sorted_by_mtime. cbn [foldr].
  destruct (foldr insert_by_mtime [] l) as [|y more]; [reflexivity|].
  simpl. destruct (Qle_bool (snd y) (snd x)); reflexivity.
Qed.

Lemma newest_decomposition (l : list screenshot) y :
  head (sorted_by_mtime l) = Some y ->
  exists pre post,
    l = pre ++ y :: post /\
    Forall (fun z => snd z < snd y)%Q pre /\
    Forall (fun z => snd z <= snd y)%Q post.
Proof.
  revert y. induction l as [|x l IH]; intros y Hy; [discriminate|].
  rewrite sorted_by_mtime_head in Hy. injection Hy as Hy.
  destruct (head (sorted_by_mtime l)) as [z|] eqn:Hz.
  - destruct (IH z eq_refl) as (pre & post & -> & Hpre & Hpost).
    destruct (Qle_bool (snd z) (snd x)) eqn:Hle.
    + subst y. apply Qle_bool_iff in Hle. exists [], (pre ++ z :: post).
      split; [reflexivity|]. split; [constructor|].
      apply Forall_app. split.
      * eapply Forall_impl; [exact Hpre|]. intros a Ha. simpl in Ha.
        apply Qlt_le_weak. eapply Qlt_le_trans; eassumption.
      * constructor; [exact Hle|].
        eapply Forall_impl; [exact Hpost|]. intros a Ha. simpl in Ha.
        eapply Qle_trans; eassumption.
    + subst y. exists (x :: pre), post. split; [reflexivity|].
      split; [|exact Hpost]. constructor; [|exact Hpre].
      apply Qnot_le_lt. intros Hc. apply Qle_bool_iff in Hc. congruence.
  - subst y. destruct l as [|x' l'].
    + exists [], []. repeat split; constructor.
    + rewrite sorted_by_mtime_head in Hz. discriminate.
Qed.

(** X11. [get_latest_screenshot] answers [None] exactly for an empty
    directory; otherwise it answers a file that no other file is newer
    than, and among files of the same newest mtime the first of the
    listing. *)
Theorem latest_screenshot_is_newest (listing : list screenshot) :
  (get_latest_screenshot listing = None <-> listing = []) /\
  (forall path,
      get_latest_screenshot listing = Some path ->
      exists mtime pre post,
        listing = pre ++ (path, mtime) :: post /\
        Forall (fun z => snd z < mtime)%Q pre /\
        Forall (fun z => snd z <= mtime)%Q post).
Proof.
  unfold get_latest_screenshot. split.
  - split.
    + intros H. destruct listing as [|x l]; [reflexivity|].
      pose proof (sorted_by_mtime_head x l) as Hh.
      destruct (sorted_by_mtime (x :: l)); discriminate.
    + intros ->. reflexivity.
  - intros path H.
    destruct (sorted_by_mtime listing) as [|[p m] more] eqn:E; [discriminate|].
    injection H as <-.
    destruct (newest_decomposition listing (p, m)) as (pre & post & Hl & Hpre & Hpost).
    { rewrite E. reflexivity. }
    exists m, pre, post. auto.
Qed.

Lemma latest_screenshot_is_newest_witness :
  exists mtime pre post,
    [("a.png", 3%Q); ("b.png", (7 # 2)%Q); ("c.png", (7 # 2)%Q)]
    = pre ++ ("b.png", mtime) :: post /\
    Forall (fun z : screenshot => snd z < mtime)%Q pre /\
    Forall (fun z : screenshot => snd z <= mtime)%Q post.
Proof.
  apply (proj2 (latest_screenshot_is_newest
                  [("a.png", 3%Q); ("b.png", (7 # 2)%Q); ("c.png", (7 # 2)%Q)])
               "b.png").
  reflexivity.
Defined.

(* =================================================================== *)
(** ** What passes the gate *)
(* =================================================================== *)

Section GateMore.
Variable md5_hex get_image_hash : string -> string.

Local Abbreviation gate := (process_clipboard_content md5_hex get_image_hash).

Lemma truthy_false text : truthy text = false -> text = "".
Proof.
  unfold truthy. intros H. apply negb_false_iff in H.
  now apply String.eqb_eq in H.
Qed.

Lemma long_is_truthy text :
  min_content_length <= String.length text -> truthy text = true.
Proof.
  destruct text; simpl; [unfold min_content_length; lia | reflexivity].
Qed.

Lemma gate_accepts_hash text shot st item st' :
  gate text shot st = (Some item, st') ->
  last_content_hash st' = Some (item_hash item).
Proof.
  unfold process_clipboard_content.
  destruct (hash_is _ _ || _); [discriminate|].
  destruct (truthy text); [|destruct shot as [path|]];
    intros H; try discriminate; injection H as <- <-; reflexivity.
Qed.

(** X12. An item that passes the gate is either the clipboard text, of at
    least [min_content_length] characters, or, only when the clipboard is
    empty, the latest screenshot copied into the asset store under its
    digest; it carries the fingerprint that becomes the last one seen. *)
Theorem accepted_item_shape text shot st item st' :
  gate text shot st = (Some item, st') ->
  item_hash item = fingerprint md5_hex text shot /\
  last_content_hash st' = Some (item_hash item) /\
  ((item_type item = "text" /\ item_content item = text /\
    min_content_length <= String.length text /\ copied st' = copied st) \/
   (item_type item = "image" /\ text = "" /\
    exists path,
      shot = Some path /\
      item_content item
      = ASSETS_DIR +:+ "/" +:+ get_image_hash path +:+ ".png" /\
      copied st' = copied st ++ [(path, item_content item)])).
Proof.
  unfold process_clipboard_content, fingerprint.
  destruct (hash_is _ _ || _) eqn:Hskip; [discriminate|].
  apply orb_false_iff in Hskip as [_ Hshort].
  destruct (truthy text) eqn:Ht.
  - intros [= <- <-]. simpl. split; [reflexivity|]. split; [reflexivity|].
    left. repeat split; try reflexivity.
    simpl in Hshort. apply Nat.ltb_ge in Hshort. exact Hshort.
  - destruct shot as [path|]; [|discriminate].
    intros [= <- <-]. simpl. split; [reflexivity|]. split; [reflexivity|].
    right. split; [reflexivity|]. split; [now apply truthy_false|].
    exists path. repeat split; reflexivity.
Qed.

(** X13. Only the last fingerprint is remembered: content [a], then
    different content [b], then [a] again are all three accepted (with
    texts of at least [min_content_length] characters, whatever the
    screenshots). *)
Theorem only_last_fingerprint_remembered a b shot1 shot2 shot3 st :
  md5_hex a <> md5_hex b ->
  min_content_length <= String.length a ->
  min_content_length <= String.length b ->
  last_content_hash st <> Some (md5_hex a) ->
  exists st1 st2 st3,
    gate a shot1 st = (Some (mkContent "text" a (md5_hex a)), st1) /\
    gate b shot2 st1 = (Some (mkContent "text" b (md5_hex b)), st2) /\
    gate a shot3 st2 = (Some (mkContent "text" a (md5_hex a)), st3).
Proof.
  intros Hab Ha Hb Hlast.
  assert (Hnew : forall x y shot copies,
             md5_hex x <> md5_hex y ->
             min_content_length <= String.length y ->
             gate y shot (mkGate (Some (md5_hex x)) copies)
             = (Some (mkContent "text" y (md5_hex y)),
                mkGate (Some (md5_hex y)) copies)).
  { intros x y shot copies Hxy Hy.
    unfold process_clipboard_content, get_content_hash.
    rewrite (long_is_truthy y Hy). cbn [hash_is last_content_hash copied].
    destruct (String.eqb_spec (md5_hex y) (md5_hex x)) as [E|_]; [congruence|].
    destruct (Nat.ltb_spec (String.length y) min_content_length); [lia|].
    reflexivity. }
  assert (H1 : gate a shot1 st
               = (Some (mkContent "text" a (md5_hex a)),
                  mkGate (Some (md5_hex a)) (copied st))).
  { unfold process_clipboard_content, get_content_hash.
    rewrite (long_is_truthy a Ha).
    assert (Hh : hash_is (md5_hex a) (last_content_hash st) = false).
    { destruct (last_content_hash st) as [l|]; [|reflexivity]. simpl.
      destruct (String.eqb_spec (md5_hex a) l) as [E|_]; [|reflexivity].
      exfalso. apply Hlast. now rewrite E. }
    rewrite Hh.
    destruct (Nat.ltb_spec (String.length a) min_content_length); [lia|].
    reflexivity. }
  do 3 eexists. split; [exact H1|]. split.
  - apply Hnew; assumption.
  - apply Hnew; [congruence | assumption].
Qed.

(* =================================================================== *)
(** ** The collector and the bounded queue *)
(* =================================================================== *)

Lemma collector_step_cases text listing st queue :
  exists st1,
    (content_collector_step md5_hex get_image_hash text listing st queue
     = (st1, queue)) \/
    (exists item,
        full queue = false /\
        gate text (get_latest_screenshot listing) st = (Some item, st1) /\
        content_collector_step md5_hex get_image_hash text listing st queue
        = (st1, queue ++ [item])).
Proof.
  unfold content_collector_step.
  destruct (gate text (get_latest_screenshot listing) st) as [[item|] st1] eqn:E.
  - exists st1. destruct (full queue) eqn:F; simpl; [left; reflexivity|].
    right. exists item. auto.
  - exists st1. left. reflexivity.
Qed.

(** X14. The collector never makes the queue longer than
    [max_queue_size], and never removes or reorders what is queued: after
    any number of polls the queue is the old one followed by the items
    added. *)
Theorem collector_keeps_queue_bounded polls st queue :
  length queue <= max_queue_size ->
  exists added,
    snd (content_collector_run md5_hex get_image_hash polls st queue)
    = queue ++ added /\
    length (queue ++ added) <= max_queue_size /\
    length added <= length polls.
Proof.
  revert st queue. induction polls as [|[text listing] more IH];
    intros st queue Hq.
  - exists []. rewrite app_nil_r. simpl. auto with arith.
  - cbn [content_collector_run].
    destruct (collector_step_cases text listing st queue)
      as [st1 [E|(item & F & _ & E)]]; rewrite E.
    + destruct (IH st1 queue Hq) as (added & Hs & Hl & Hn).
      exists added. cbn [length]. repeat split; auto.
    + assert (Hq1 : length (queue ++ [item]) <= max_queue_size).
      { unfold full in F. apply Nat.leb_gt in F.
        rewrite length_app. simpl. lia. }
      destruct (IH st1 (queue ++ [item]) Hq1) as (added & Hs & Hl & Hn).
      exists (item :: added). rewrite <- app_assoc in Hs, Hl. simpl in Hs, Hl.
      cbn [length]. repeat split; auto. lia.
Qed.

(** X15. An item that passes the gate while the queue is full is lost for
    good: it is not queued, its fingerprint is recorded all the same, and
    polling the same clipboard and screenshots again, however often and
    whatever room the queue has by then, queues nothing. *)
Theorem full_queue_loses_item text listing st queue item st1 :
  full queue = true ->
  gate text (get_latest_screenshot listing) st = (Some item, st1) ->
  content_collector_step md5_hex get_image_hash text listing st queue
  = (st1, queue) /\
  last_content_hash st1 = Some (item_hash item) /\
  (forall n later_queue,
      content_collector_run md5_hex get_image_hash
        (repeat (text, listing) n) st1 later_queue
      = (st1, later_queue)).
Proof.
  intros Hfull Hgate. split; [|split].
  - unfold content_collector_step. rewrite Hgate, Hfull. reflexivity.
  - exact (gate_accepts_hash _ _ _ _ _ Hgate).
  - intros n later_queue.
    pose proof (ClipboardFacts.gate_then_skips md5_hex get_image_hash text
                  (get_latest_screenshot listing) st) as Hskip.
    rewrite Hgate in Hskip. cbn [snd] in Hskip.
    induction n as [|n IH]; [reflexivity|].
    cbn [repeat content_collector_run]. unfold content_collector_step.
    rewrite (ClipboardFacts.gate_skips _ _ _ _ _ Hskip). exact IH.
Qed.
End GateMore.

Lemma accepted_item_shape_witness :
  last_content_hash
    (mkGate (Some "m") [("shot.png", ASSETS_DIR +:+ "/" +:+ "d1" +:+ ".png")])
  = Some "m" /\
  fingerprint (fun _ => "m") "" (Some "shot.png") = "m".
Proof.
  destruct (accepted_item_shape (fun _ => "m") (fun _ => "d1")
              "" (Some "shot.png") (mkGate None [])
              (mkContent "image" (ASSETS_DIR +:+ "/" +:+ "d1" +:+ ".png") "m")
              (mkGate (Some "m")
                      [("shot.png", ASSETS_DIR +:+ "/" +:+ "d1" +:+ ".png")])
              eq_refl) as (Hh & Hl & _).
  split; [exact Hl | symmetry; exact Hh].
Defined.


Lemma only_last_fingerprint_remembered_witness :
  exists st1 st2 st3,
    process_clipboard_content (fun s => s) (fun s => s)
      "first clipboard text" None (mkGate None [])
    = (Some (mkContent "text" "first clipboard text" "first clipboard text"), st1) /\
    process_clipboard_content (fun s => s) (fun s => s)
      "second clipboard text" None st1
    = (Some (mkContent "text" "second clipboard text" "second clipboard text"), st2) /\
    process_clipboard_content (fun s => s) (fun s => s)
      "first clipboard text" None st2
    = (Some (mkContent "text" "first clipboard text" "first clipboard text"), st3).
Proof.
  apply (only_last_fingerprint_remembered (fun s => s) (fun s => s)
           "first clipboard text" "second clipboard text" None None None
           (mkGate None [])).
  - discriminate.
  - apply Nat.leb_le. reflexivity.
  - apply Nat.leb_le. reflexivity.
  - discriminate.
Defined.

Lemma collector_keeps_queue_bounded_witness :
  exists added,
    snd (content_collector_run (fun s => s) (fun s => s)
           [("first clipboard text", []); ("first clipboard text", []);
            ("short", []); ("second clipboard text", [])]
           (mkGate None []) [])
    = [] ++ added /\
    length ([] ++ added) <= max_queue_size /\
    length added <= 4.
Proof.
  apply (collector_keeps_queue_bounded (fun s => s) (fun s => s)
           [("first clipboard text", []); ("first clipboard text", []);
            ("short", []); ("second clipboard text", [])]
           (mkGate None []) []).
  apply Nat.leb_le. reflexivity.
Defined.

Lemma full_queue_loses_item_witness :
  let queue := repeat (mkContent "text" "queued clipboard text" "q") 100 in
  content_collector_run (fun s => s) (fun s => s)
    (repeat ("fresh clipboard text", []) 3)
    (mkGate (Some "fresh clipboard text") []) []
  = (mkGate (Some "fresh clipboard text") [], []).
Proof.
  intros queue.
  exact (proj2 (proj2 (full_queue_loses_item (fun s => s) (fun s => s)
                         "fresh clipboard text" [] (mkGate None []) queue
                         (mkContent "text" "fresh clipboard text"
                                    "fresh clipboard text")
                         (mkGate (Some "fresh clipboard text") [])
                         eq_refl eq_refl)) 3 []).
Defined.

(* =================================================================== *)
(** ** The processor *)
(* =================================================================== *)

Section ProcessorFacts.
Variable client : nat -> string -> call_result.
Variable now_iso : string.

Lemma query_down prompt w :
  (forall k msg, exists e, client k msg = CallRaises e) ->
  exists e w' log,
    query_llama_stack client now_iso prompt w = (Some (error_response e), w') /\
    events w' = events w ++ log /\
    calls_made w' = calls_made w + 3 /\
    calls_in log = 3 /\ seconds_slept log = 10.
Proof.
  intros Hdown. unfold query_llama_stack, retry_attempts. cbn [attempt_loop].
  destruct (Hdown (calls_made w) (prompt +:+ instruction_suffix)) as [e1 ->].
  cbn [Nat.ltb Nat.leb Nat.sub calls_made events].
  destruct (Hdown (S (calls_made w)) (prompt +:+ instruction_suffix)) as [e2 ->].
  cbn [Nat.ltb Nat.leb Nat.sub calls_made events].
  destruct (Hdown (S (S (calls_made w))) (prompt +:+ instruction_suffix)) as [e3 ->].
  cbn [Nat.ltb Nat.leb Nat.sub calls_made events].
  exists e3. do 2 eexists. split; [reflexivity|]. cbn [events calls_made].
  split; [rewrite <- !app_assoc; reflexivity|].
  split; [lia|]. split; reflexivity.
Qed.

Lemma agent_loop_down agents item ct final trace w :
  (forall k msg, exists e, client k msg = CallRaises e) ->
  exists trace' w' log,
    agent_loop client now_iso agents item ct [] final trace w
    = (Ok final, trace', w') /\
    events w' = events w ++ log /\
    calls_made w' = calls_made w + 3 * length agents /\
    calls_in log = 3 * length agents /\
    seconds_slept log = 10 * length agents.
Proof.
  intros Hdown. revert trace w.
  induction agents as [|[agent_id agent] rest IH]; intros trace w.
  - exists trace, w, []. rewrite app_nil_r. simpl. repeat split; lia.
  - cbn [agent_loop]. rewrite ClipboardFacts.format_previous_thoughts_none.
    destruct (query_down
                (render_prompt ct agent "no_previous: true"
                   (truncate_content (item_content item) 512)) w Hdown)
      as (e & w1 & log1 & -> & Hev1 & Hcm1 & Hc1 & Hs1).
    change (rejected (PyStr.strip (response (error_response e)))) with true.
    cbv iota.
    destruct (IH (trace ++
                    [mkStep agent_id "no_previous: true"
                       (render_prompt ct agent "no_previous: true"
                          (truncate_content (item_content item) 512))
                       (PyStr.strip (response (error_response e))) false])
                 w1)
      as (trace' & w' & log & E & Hev & Hcm & Hc & Hs).
    exists trace', w', (log1 ++ log). split; [exact E|].
    split; [rewrite Hev, Hev1, app_assoc; reflexivity|].
    rewrite AdapterMore.calls_in_app, AdapterMore.seconds_slept_app.
    cbn [length]. repeat split; lia.
Qed.

(** X17. While the server is down (every call raises), each queued item
    costs 9 calls and 30 seconds of sleeping and is then dropped: the queue
    is drained, nothing is written to the dataset and nothing is
    reported. *)
Theorem server_down_drops_items queue s :
  (forall k msg, exists e, client k msg = CallRaises e) ->
  exists log,
    sink_dataset (content_processor_drain client now_iso queue s)
    = sink_dataset s /\
    result_queue (content_processor_drain client now_iso queue s)
    = result_queue s /\
    events (sink_net (content_processor_drain client now_iso queue s))
    = events (sink_net s) ++ log /\
    calls_in log = 9 * length queue /\
    seconds_slept log = 30 * length queue.
Proof.
  intros Hdown. revert s. induction queue as [|item rest IH]; intros s.
  - exists []. rewrite app_nil_r. repeat split.
  - cbn [content_processor_drain content_processor_step].
    unfold analyze_content, analyze_content_traced.
    destruct (agent_loop_down AGENT_CONFIG item (analyze_content_type item)
                [] [] (sink_net s) Hdown)
      as (trace' & w' & log1 & -> & Hev1 & _ & Hc1 & Hs1).
    cbn [snd].
    destruct (IH (mkSink w' (sink_dataset s) (result_queue s)))
      as (log & Hd & Hr & Hev & Hc & Hs).
    cbn [sink_dataset result_queue sink_net] in *.
    exists (log1 ++ log). split; [exact Hd|]. split; [exact Hr|].
    split; [rewrite Hev, Hev1, app_assoc; reflexivity|].
    rewrite AdapterMore.calls_in_app, AdapterMore.seconds_slept_app.
    simpl length in *. lia.
Qed.
End ProcessorFacts.

Lemma server_down_drops_items_witness :
  let item := mkContent "text" "hello world this is a test clipboard entry" "h" in
  exists log,
    sink_dataset (content_processor_drain (fun _ _ => CallRaises "down") "now"
                    [item; item] (mkSink (mkNet 0 []) [] []))
    = [] /\
    result_queue (content_processor_drain (fun _ _ => CallRaises "down") "now"
                    [item; item] (mkSink (mkNet 0 []) [] []))
    = [] /\
    events (sink_net (content_processor_drain (fun _ _ => CallRaises "down") "now"
                        [item; item] (mkSink (mkNet 0 []) [] [])))
    = [] ++ log /\
    calls_in log = 9 * 2 /\
    seconds_slept log = 30 * 2.
Proof.
  intros item.
  apply (server_down_drops_items (fun _ _ => CallRaises "down") "now"
           [item; item] (mkSink (mkNet 0 []) [] [])).
  intros k msg. exists "down". reflexivity.
Defined.

(* =================================================================== *)
(** ** The processor threads side by side *)
(* =================================================================== *)

Lemma unreported_insert (ws : list worker) i old new :
  ws !! i = Some old ->
  match unreported new with Some e => [e] | None => [] end
  ++ omap unreported ws
  ≡ₚ match unreported old with Some e => [e] | None => [] end
     ++ omap unreported (<[ i := new ]> ws).
Proof.
  revert i. induction ws as [|w ws IH]; intros i Hi; [discriminate|].
  destruct i as [|i].
  - injection Hi as ->. cbn [omap list_omap insert list_insert].
    destruct (unreported old), (unreported new); cbn [app];
      try reflexivity; apply Permutation_swap.
  - cbn [lookup list_lookup] in Hi. specialize (IH i Hi).
    change (<[S i:=new]> (w :: ws)) with (w :: <[i:=new]> ws).
    cbn [omap list_omap].
    destruct (unreported w) as [e|]; [|exact IH].
    rewrite <- !Permutation_middle. now constructor.
Qed.

Lemma worker_ok_insert (ws : list worker) i new :
  Forall worker_ok ws -> worker_ok new -> Forall worker_ok (<[ i := new ]> ws).
Proof.
  intros Hall Hnew. revert i.
  induction Hall as [|w ws Hw Hws IH]; intros i; [constructor|].
  destruct i as [|i].
  - constructor; [exact Hnew | exact Hws].
  - change (<[S i:=new]> (w :: ws)) with (w :: <[i:=new]> ws).
    constructor; [exact Hw | apply IH].
Qed.

Lemma worker_ok_lookup (ws : list worker) i w :
  Forall worker_ok ws -> ws !! i = Some w -> worker_ok w.
Proof.
  intros Hall. revert i. induction Hall as [|w0 ws Hw _ IH]; intros i Hi;
    [discriminate|].
  destruct i as [|i]; [injection Hi as <-; exact Hw | exact (IH i Hi)].
Qed.

Lemma omap_unreported_idle (ws : list worker) :
  Forall (fun w => w = Idle) ws -> omap unreported ws = [].
Proof.
  induction 1 as [|w ws -> _ IH]; [reflexivity|]. exact IH.
Qed.

(** What one step keeps. *)
Lemma step_keeps st st' :
  step st st' ->
  Forall worker_ok (snd st) ->
  entries (shared_dataset (fst st))
  ≡ₚ shared_results (fst st) ++ omap unreported (snd st) ->
  Forall worker_ok (snd st') /\
  entries (shared_dataset (fst st'))
  ≡ₚ shared_results (fst st') ++ omap unreported (snd st') /\
  exists records,
    shared_dataset (fst st') = shared_dataset (fst st) ++ records /\
    Forall record_ok records.
Proof.
  intros Hstep.
  destruct Hstep
    as [s ws c Hfull
       |s ws i c rest Hi Hq
       |s ws i c client now_iso w entry more w1 Hi Ha
       |s ws i c client now_iso w w1 Hi Ha
       |s ws i c analysis now_iso Hi
       |s ws i c analysis Hi];
    cbn [fst snd shared_dataset shared_results shared_queue];
    intros Hok Hinv;
    assert (Hnone : exists records,
               shared_dataset s = shared_dataset s ++ records /\
               Forall record_ok records)
      by (exists []; rewrite app_nil_r; split; [reflexivity | constructor]).
  - split; [exact Hok|]. split; [exact Hinv | exact Hnone].
  - split; [apply worker_ok_insert; [exact Hok | exact I]|].
    split; [|exact Hnone].
    pose proof (unreported_insert ws i Idle (Holding c) Hi) as Hp.
    cbn [unreported app] in Hp. now rewrite <- Hp.
  - split.
    { apply worker_ok_insert; [exact Hok|]. split; [discriminate|].
      exists client, now_iso, w, w1. exact Ha. }
    split; [|exact Hnone].
    pose proof (unreported_insert ws i _ (Saving c (entry :: more)) Hi) as Hp.
    cbn [unreported app] in Hp. now rewrite <- Hp.
  - split; [apply worker_ok_insert; [exact Hok | exact I]|].
    split; [|exact Hnone].
    pose proof (unreported_insert ws i _ Idle Hi) as Hp.
    cbn [unreported app] in Hp. now rewrite <- Hp.
  - pose proof (worker_ok_lookup ws i _ Hok Hi) as Hw. cbn [worker_ok] in Hw.
    split; [apply worker_ok_insert; [exact Hok | exact Hw]|].
    split.
    + pose proof (unreported_insert ws i _ (Reporting c analysis) Hi) as Hp.
      cbn [unreported app] in Hp.
      unfold save_to_dataset, entries. rewrite map_app.
      cbn [map content ai_response].
      fold (entries (shared_dataset s)). rewrite Hinv, <- Hp.
      rewrite <- Permutation_cons_append, <- Permutation_middle.
      reflexivity.
    + eexists. split; [reflexivity|]. constructor; [|constructor].
      split; [exact Hw|]. split; reflexivity.
  - split; [apply worker_ok_insert; [exact Hok | exact I]|].
    split; [|exact Hnone].
    pose proof (unreported_insert ws i _ Idle Hi) as Hp.
    cbn [unreported app] in Hp.
    rewrite Hinv, Hp, <- app_assoc. reflexivity.
Qed.

(** X16. With the processor threads running side by side, the dataset and
    the results stay in step as collections, not as sequences.  Along any
    interleaving of the steps of the collector and of any number of
    processors, the records saved are, up to their order, the results
    reported followed by the results of the threads that have saved and
    not yet reported; when no thread is in between the two, the records
    and the results are the same up to their order.  Every record saved
    holds a non-empty analysis that [analyze_content] returned for its
    item, an agent count of 3 and the item's type. *)
Theorem dataset_matches_results st st' :
  rtc step st st' ->
  Forall worker_ok (snd st) ->
  entries (shared_dataset (fst st))
  ≡ₚ shared_results (fst st) ++ omap unreported (snd st) ->
  entries (shared_dataset (fst st'))
  ≡ₚ shared_results (fst st') ++ omap unreported (snd st') /\
  (Forall (fun w => w = Idle) (snd st') ->
   entries (shared_dataset (fst st')) ≡ₚ shared_results (fst st')) /\
  exists records,
    shared_dataset (fst st') = shared_dataset (fst st) ++ records /\
    Forall record_ok records.
Proof.
  intros Hrtc.
  assert (Hgen : Forall worker_ok (snd st) ->
            entries (shared_dataset (fst st))
            ≡ₚ shared_results (fst st) ++ omap unreported (snd st) ->
            Forall worker_ok (snd st') /\
            entries (shared_dataset (fst st'))
            ≡ₚ shared_results (fst st') ++ omap unreported (snd st') /\
            exists records,
              shared_dataset (fst st') = shared_dataset (fst st) ++ records /\
              Forall record_ok records).
  { induction Hrtc as [st | st mid st' Hstep _ IH]; intros Hok Hinv.
    - split; [exact Hok|]. split; [exact Hinv|].
      exists []. rewrite app_nil_r. split; [reflexivity | constructor].
    - destruct (step_keeps st mid Hstep Hok Hinv)
        as (Hok1 & Hinv1 & records1 & E1 & Hr1).
      destruct (IH Hok1 Hinv1) as (Hok2 & Hinv2 & records2 & E2 & Hr2).
      split; [exact Hok2|]. split; [exact Hinv2|].
      exists (records1 ++ records2). rewrite E2, E1, <- app_assoc.
      split; [reflexivity|]. apply Forall_app. auto. }
  intros Hok Hinv. destruct (Hgen Hok Hinv) as (_ & Hinv' & Hrec).
  split; [exact Hinv'|]. split; [|exact Hrec].
  intros Hidle. rewrite Hinv', (omap_unreported_idle _ Hidle).
  now rewrite app_nil_r.
Qed.

(** Two threads take "a" and "b" in this order, save them in the other
    order and report them in the first. *)
Lemma dataset_matches_results_witness :
  let a := mkContent "text" "the first clipboard text" "h1" in
  let b := mkContent "text" "the second clipboard text" "h2" in
  exists st',
    rtc step (mkShared [a; b] [] [], [Idle; Idle]) st' /\
    snd st' = [Idle; Idle] /\
    map content (shared_dataset (fst st')) = [b; a] /\
    map fst (shared_results (fst st')) = [a; b] /\
    entries (shared_dataset (fst st')) ≡ₚ shared_results (fst st').
Proof.
  intros a b.
  pose (client := fun (_ : nat) (_ : string) =>
                    CallReturns [EventDelta "key: value"] false).
  eassert (Hrtc : rtc step (mkShared [a; b] [] [], [Idle; Idle]) _).
  { eapply rtc_l; [eapply (processor_gets _ _ 0); reflexivity|].
    eapply rtc_l; [eapply (processor_gets _ _ 1); reflexivity|].
    eapply rtc_l.
    { eapply (processor_analyses _ _ 0 a client "now" (mkNet 0 []));
        [reflexivity | vm_compute; reflexivity]. }
    eapply rtc_l.
    { eapply (processor_analyses _ _ 1 b client "now" (mkNet 0 []));
        [reflexivity | vm_compute; reflexivity]. }
    eapply rtc_l; [eapply (processor_saves _ _ 1 _ _ "now"); reflexivity|].
    eapply rtc_l; [eapply (processor_saves _ _ 0 _ _ "now"); reflexivity|].
    eapply rtc_l; [eapply (processor_reports _ _ 0); reflexivity|].
    eapply rtc_l; [eapply (processor_reports _ _ 1); reflexivity|].
    apply rtc_refl. }
  eexists. split; [exact Hrtc|].
  split; [reflexivity|]. split; [reflexivity|]. split; [reflexivity|].
  apply (dataset_matches_results _ _ Hrtc).
  - repeat constructor.
  - reflexivity.
  - repeat constructor.
Defined.

End PipelineFacts.

Module TrackerMore.
Import Novelty Notions.

Section Observing.
Variable np_std : list Q -> Q.

Lemma observe_values_grows m values t files r t' files' :
  observe_values np_std m values t files = (r, t', files') -> grows t t'.
Proof.
  intros E. now apply NoveltyFacts.observe_values_keeps in E as (_ & _ & _ & _ & Hg).
Qed.

(** X18. The two frequency counters never decrease: whatever record is
    observed, and whether [add_response] returns or raises, every key and
    every value is counted at least as often afterwards as before. *)
Theorem counters_never_decrease rd m t files r t' files' :
  add_response np_std rd m t files = (r, t', files') ->
  forall k,
    freq (key_frequency t) k <= freq (key_frequency t') k /\
    freq (value_frequency t) k <= freq (value_frequency t') k.
Proof.
  unfold add_response.
  destruct (observe_values np_std m (map snd rd) t files) as [[r1 t1] f1] eqn:E1.
  apply observe_values_grows in E1.
  destruct r1 as [[]|e]; intros [= _ <- _]; exact E1.
Qed.

Lemma observe_values_history m values t files r t' files' :
  observe_values np_std m values t files = (r, t', files') ->
  response_history t' = response_history t /\ maxlen t' = maxlen t.
Proof.
  intros E. apply NoveltyFacts.observe_values_keeps in E as (_ & _ & Hh & Hm & _).
  auto.
Qed.

(** X19. The history is a bounded queue of the records observed without
    error: after a call that returns it is the old history followed by the
    record, cut at the front to at most [maxlen] entries (so the record is
    its last entry when [maxlen] is positive); a call that raises leaves it
    as it was. *)
Theorem history_is_bounded rd m t files r t' files' :
  add_response np_std rd m t files = (r, t', files') ->
  maxlen t' = maxlen t /\
  (r = Ok tt ->
   length (response_history t') <= maxlen t /\
   (exists dropped,
       response_history t ++ [rd] = dropped ++ response_history t') /\
   (0 < maxlen t -> last (response_history t') = Some rd)) /\
  (r <> Ok tt -> response_history t' = response_history t).
Proof.
  unfold add_response.
  destruct (observe_values np_std m (map snd rd) t files) as [[r1 t1] f1] eqn:E1.
  apply observe_values_history in E1 as [Hh Hm].
  destruct r1 as [[]|e]; intros [= <- <- _]; cbn [maxlen response_history].
  - split; [exact Hm|]. split; [|intros Hne; now contradiction Hne].
    intros _. unfold deque_append. rewrite Hh, Hm.
    set (d1 := response_history t ++ [rd]).
    split; [rewrite length_drop; lia|]. split.
    + exists (take (length d1 - maxlen t) d1). now rewrite take_drop.
    + intros Hpos. rewrite last_lookup, lookup_drop, length_drop.
      assert (Hlen : length d1 = S (length (response_history t)))
        by (unfold d1; rewrite length_app; simpl; lia).
      replace (length d1 - maxlen t + pred (length d1 - (length d1 - maxlen t)))
        with (length (response_history t)) by lia.
      unfold d1. rewrite lookup_app_r by lia.
      now rewrite Nat.sub_diag.
  - split; [exact Hm|]. split; [discriminate|]. intros _. exact Hh.
Qed.





Lemma raw_pairs_without_colon text :
  PyStr.contains_char PyStr.colon text = false -> raw_pairs text = [].
Proof.
  intros H. unfold raw_pairs.
  pose proof (StringMore.split_without PyStr.colon PyStr.newline text H) as Hall.
  induction Hall as [|line more Hline _ IH]; [reflexivity|].
  rewrite filter_cons. destruct (decide _) as [Hd|_]; [congruence | exact IH].
Qed.

(** X21. Values of the record that are not dicts, dicts without a
    ['response'] entry, and responses without any colon leave the counters,
    the baseline and the files untouched; such a record is only appended to
    the history. *)
Theorem record_without_pairs_only_logged rd m t files :
  Forall (fun entry =>
            match snd entry with
            | AgentDict (Some text) =>
                PyStr.contains_char PyStr.colon text = false
            | _ => True
            end) rd ->
  add_response np_std rd m t files
  = (Ok tt,
     mkTracker (deque_append (maxlen t) (response_history t) rd) (maxlen t)
               (key_frequency t) (value_frequency t) (baseline_metrics t)
               (is_baseline_period t),
     files).
Proof.
  intros Hall. unfold add_response.
  assert (E : observe_values np_std m (map snd rd) t files = (Ok tt, t, files)).
  { induction Hall as [|[agent v] more Hv _ IH]; [reflexivity|].
    cbn [map snd observe_values] in *.
    destruct v as [[text|]|]; try exact IH.
    rewrite (raw_pairs_without_colon text Hv). exact IH. }
  rewrite E. reflexivity.
Qed.
End Observing.

Lemma counters_never_decrease_witness :
  freq (key_frequency (new_tracker history_size "now")) "topic"
  <= freq (key_frequency
             (snd (fst (add_response (fun _ => 0%Q)
                          [("curator", AgentDict (Some (lines ["topic: space"; "time: 12:30"])))]
                          None (new_tracker history_size "now") []))))
          "topic".
Proof.
  destruct (add_response (fun _ => 0%Q)
              [("curator", AgentDict (Some (lines ["topic: space"; "time: 12:30"])))]
              None (new_tracker history_size "now") []) as [[r t'] files'] eqn:E.
  exact (proj1 (counters_never_decrease _ _ _ _ _ _ _ _ E "topic")).
Defined.

Lemma history_is_bounded_witness :
  maxlen (snd (fst (add_response (fun _ => 0%Q)
                      [("curator", AgentDict (Some "topic: space"))] None
                      (new_tracker 2 "now") [])))
  = 2.
Proof.
  destruct (add_response (fun _ => 0%Q)
              [("curator", AgentDict (Some "topic: space"))] None
              (new_tracker 2 "now") []) as [[r t'] files'] eqn:E.
  exact (proj1 (history_is_bounded _ _ _ _ _ _ _ _ E)).
Defined.


Lemma record_without_pairs_only_logged_witness :
  add_response (fun _ => 0%Q)
    [("curator", NotADict); ("analyst", AgentDict None);
     ("synthesizer", AgentDict (Some "nothing to report"))]
    None (new_tracker 2 "now") []
  = (Ok tt,
     mkTracker
       [[("curator", NotADict); ("analyst", AgentDict None);
         ("synthesizer", AgentDict (Some "nothing to report"))]]
       2 ∅ ∅ (mkBaseline 0 ∅ ∅ [] "now" [] []) true,
     []).
Proof.
  apply (record_without_pairs_only_logged (fun _ => 0%Q)
           [("curator", NotADict); ("analyst", AgentDict None);
            ("synthesizer", AgentDict (Some "nothing to report"))]
           None (new_tracker 2 "now") []).
  repeat constructor.
Defined.

Section Threshold.
Variable np_std : list Q -> Q.

(** X22. Once the baseline counter stands at the threshold (the latch is
    set and the next pair brings the counter to [baseline_period] or
    beyond), which is where a tracker stays from its hundredth pair on, a
    call counts at most the first pair of the record.  A record without a
    colon line is observed as before.  Of any other record, the first
    split line decides: with two fields its key and its value are counted
    once and NameError is raised; with another number of fields nothing is
    counted and ValueError is raised.  In both cases the record is not
    added to the history; in all cases no file is written and the tracker
    is still at the threshold. *)
Theorem first_pair_only_at_threshold rd m t files r t' files' :
  at_threshold t ->
  add_response np_std rd m t files = (r, t', files') ->
  at_threshold t' /\ files' = files /\
  (record_pairs rd = [] -> r = Ok tt) /\
  (forall fields rest, record_pairs rd = fields :: rest ->
     response_history t' = response_history t /\
     (length fields = 2 ->
      r = Raise NameError /\
      key_frequency t' = incr (key_frequency t) (key_of fields) /\
      value_frequency t' = incr (value_frequency t) (value_of fields)) /\
     (length fields <> 2 ->
      r = Raise ValueError /\
      key_frequency t' = key_frequency t /\
      value_frequency t' = value_frequency t)).
Proof.
  intros Ht E.
  destruct (record_pairs rd) as [|fields rest] eqn:Ep.
  - unfold add_response in E.
    rewrite (NoveltyFacts.observe_values_no_pairs np_std m (map snd rd) t files Ep)
      in E.
    injection E as <- <- <-.
    split; [exact Ht|]. split; [reflexivity|]. split; [reflexivity|].
    intros fields rest Hc. discriminate Hc.
  - destruct (NoveltyFacts.add_response_first_pair np_std rd m t files
                fields rest Ht Ep) as (r1 & t1 & E1 & Hh & Ht1 & H2 & Hbad).
    rewrite E1 in E. injection E as <- <- <-.
    split; [exact Ht1|]. split; [reflexivity|].
    split; [intros Hc; discriminate Hc|].
    intros fields' rest' [= <- <-]. split; [exact Hh|]. split; [exact H2|].
    intros Hne. destruct (Hbad Hne) as (-> & ->). auto.
Qed.
End Threshold.

(** A tracker that has been fed a hundred one-line responses, then a
    record of two lines. *)
Lemma first_pair_only_at_threshold_witness :
  let warm_up : response_dict * option matrix :=
    ([("curator", AgentDict (Some "warm: up"))], None) in
  let t := snd (fst (observe_all (fun _ => 0%Q) (repeat warm_up 100)
                       (new_tracker history_size "now") [])) in
  let rd := [("curator", AgentDict (Some (lines ["mood: calm"; "topic: space"])))] in
  let t' := snd (fst (add_response (fun _ => 0%Q) rd None t [])) in
  fst (fst (add_response (fun _ => 0%Q) rd None t [])) = Raise NameError /\
  freq (key_frequency t') "mood" = 1 /\
  freq (key_frequency t') "topic" = 0 /\
  response_history t' = response_history t.
Proof.
  intros warm_up t rd t'.
  destruct (add_response (fun _ => 0%Q) rd None t []) as [[r t1] files1] eqn:E.
  destruct (first_pair_only_at_threshold (fun _ => 0%Q) rd None t [] r t1 files1)
    as (_ & _ & _ & Hfirst); [split; vm_compute; [reflexivity | lia] | exact E |].
  destruct (Hfirst ["mood"; " calm"] [["topic"; " space"]] eq_refl)
    as (Hh & H2 & _).
  destruct (H2 eq_refl) as (Hr & Hk & _).
  unfold t'. cbn [fst snd].
  split; [exact Hr|]. rewrite Hk. split; [vm_compute; reflexivity|].
  split; [vm_compute; reflexivity | exact Hh].
Defined.

(* =================================================================== *)
(** ** Scores *)
(* =================================================================== *)

Lemma inverse_frequency_antitone f1 f2 :
  f1 <= f2 -> (inverse_frequency f2 <= inverse_frequency f1)%Q.
Proof.
  intros H. rewrite !NoveltyFacts.inverse_frequency_eq. unfold Qle. simpl. lia.
Qed.

Lemma inverse_frequency_positive f : (0 < inverse_frequency f)%Q.
Proof. rewrite NoveltyFacts.inverse_frequency_eq. reflexivity. Qed.

Lemma Qof_nat_positive n : 0 < n -> (0 < Qof_nat n)%Q.
Proof.
  intros H. unfold Qof_nat. change 0%Q with (inject_Z 0).
  rewrite <- Zlt_Qlt. lia.
Qed.

Lemma Qsum_pointwise (l1 l2 : list Q) :
  Forall2 Qle l1 l2 -> (Qsum l1 <= Qsum l2)%Q.
Proof.
  induction 1 as [|x y l1 l2 Hxy _ IH]; [apply Qle_refl|].
  cbn [Qsum foldr]. fold (Qsum l1) (Qsum l2). lra.
Qed.

Lemma np_mean_pointwise (l1 l2 : list Q) :
  Forall2 Qle l1 l2 -> (np_mean l1 <= np_mean l2)%Q.
Proof.
  intros H. unfold np_mean. rewrite (Forall2_length _ _ _ H).
  unfold Qdiv. apply Qmult_le_compat_r; [now apply Qsum_pointwise|].
  apply Qinv_le_0_compat. change 0%Q with (inject_Z 0).
  rewrite <- Zle_Qle. lia.
Qed.

Lemma Qsum_positive (l : list Q) :
  l <> [] -> Forall (fun x => 0 < x)%Q l -> (0 < Qsum l)%Q.
Proof.
  intros Hne Hall. destruct Hall as [|x l Hx Hall]; [contradiction|].
  cbn [Qsum foldr]. fold (Qsum l).
  assert (0 <= Qsum l)%Q.
  { clear Hne Hx. induction Hall as [|y l Hy _ IH]; [apply Qle_refl|].
    cbn [Qsum foldr]. fold (Qsum l). lra. }
  lra.
Qed.

Lemma np_mean_positive (l : list Q) :
  l <> [] -> Forall (fun x => 0 < x)%Q l -> (0 < np_mean l)%Q.
Proof.
  intros Hne Hall. unfold np_mean.
  apply Qlt_shift_div_l.
  - apply (Qof_nat_positive (length l)). destruct l; [contradiction | simpl; lia].
  - rewrite Qmult_0_l. now apply Qsum_positive.
Qed.

Lemma np_mean_of_ones (l : list Q) :
  l <> [] -> Forall (fun x => x == 1)%Q l -> (np_mean l == 1)%Q.
Proof.
  intros Hne Hall.
  assert (Hsum : (Qsum l == Qof_nat (length l))%Q).
  { clear Hne. induction Hall as [|x l Hx _ IH]; [reflexivity|].
    cbn [Qsum foldr length]. fold (Qsum l). rewrite Hx, IH.
    unfold Qof_nat. rewrite Nat2Z.inj_succ, <- Z.add_1_l, inject_Z_plus.
    reflexivity. }
  unfold np_mean. fold (Qof_nat (length l)). rewrite Hsum.
  apply Qmult_inv_r.
  assert (0 < Qof_nat (length l))%Q
    by (apply Qof_nat_positive; destruct l; [contradiction | simpl; lia]).
  lra.
Qed.

Lemma score_of_well_formed t text :
  raw_pairs text <> [] -> well_formed text ->
  get_novelty_score t text
  = Ok ((np_mean (map (key_novelty t) (raw_pairs text))
         + np_mean (map (value_novelty t) (raw_pairs text))) / 2)%Q.
Proof.
  intros Hne Hwf. unfold get_novelty_score, well_formed in *.
  destruct (raw_pairs text) as [|fields more] eqn:E; [contradiction|].
  rewrite NoveltyFacts.score_pairs_ok by assumption. reflexivity.
Qed.

Lemma score_returned_well_formed t text q :
  get_novelty_score t text = Ok q ->
  well_formed text.
Proof.
  intros Hq.
  destruct (Forall_Exists_dec (fun fields : list string => length fields = 2)
              (fun fields => length fields <> 2)
              (fun fields => Nat.eq_dec (length fields) 2)
              (raw_pairs text)) as [Hwf|Hex]; [exact Hwf|].
  unfold get_novelty_score in Hq.
  destruct (raw_pairs text) as [|fields more] eqn:E; [inversion Hex|].
  rewrite NoveltyFacts.score_pairs_raises in Hq by exact Hex. discriminate.
Qed.

(** X23. A score is 0 only for a text without colon lines: every returned
    score of a text that has one is positive, and it is exactly 1 when none
    of the text's keys and values has been counted before. *)
Theorem score_of_unseen_is_one t text q :
  get_novelty_score t text = Ok q ->
  raw_pairs text <> [] ->
  (0 < q)%Q /\
  ((forall fields, In fields (raw_pairs text) ->
      freq (key_frequency t) (key_of fields) = 0 /\
      freq (value_frequency t) (value_of fields) = 0) ->
   (q == 1)%Q).
Proof.
  intros Hq Hne. pose proof (score_returned_well_formed t text q Hq) as Hwf.
  rewrite (score_of_well_formed t text Hne Hwf) in Hq. injection Hq as <-.
  assert (Hm : forall f : Tracker -> list string -> Q,
             map (f t) (raw_pairs text) <> [])
    by (intros f; destruct (raw_pairs text); [contradiction | discriminate]).
  split.
  - assert (Hk : (0 < np_mean (map (key_novelty t) (raw_pairs text)))%Q).
    { apply np_mean_positive; [apply Hm|]. apply List.Forall_forall.
      intros x Hx. apply in_map_iff in Hx as (fields & <- & _).
      apply inverse_frequency_positive. }
    assert (Hv : (0 < np_mean (map (value_novelty t) (raw_pairs text)))%Q).
    { apply np_mean_positive; [apply Hm|]. apply List.Forall_forall.
      intros x Hx. apply in_map_iff in Hx as (fields & <- & _).
      apply inverse_frequency_positive. }
    apply Qlt_shift_div_l; [reflexivity | lra].
  - intros Hunseen.
    assert (Hk : (np_mean (map (key_novelty t) (raw_pairs text)) == 1)%Q).
    { apply np_mean_of_ones; [apply Hm|]. apply List.Forall_forall.
      intros x Hx. apply in_map_iff in Hx as (fields & <- & Hin).
      unfold key_novelty. rewrite (proj1 (Hunseen fields Hin)). reflexivity. }
    assert (Hv : (np_mean (map (value_novelty t) (raw_pairs text)) == 1)%Q).
    { apply np_mean_of_ones; [apply Hm|]. apply List.Forall_forall.
      intros x Hx. apply in_map_iff in Hx as (fields & <- & Hin).
      unfold value_novelty. rewrite (proj2 (Hunseen fields Hin)). reflexivity. }
    rewrite Hk, Hv. reflexivity.
Qed.

Lemma score_of_unseen_is_one_witness :
  (0 < (np_mean [1; 1] + np_mean [1; 1]) / 2)%Q.
Proof.
  refine (proj1 (score_of_unseen_is_one (new_tracker history_size "now")
                   (lines ["topic: space"; "mood: calm"])
                   ((np_mean [1; 1] + np_mean [1; 1]) / 2)%Q _ _)).
  - vm_compute. reflexivity.
  - vm_compute. discriminate.
Defined.

Section Decay.
Variable np_std : list Q -> Q.

(** X24. Observing never makes a text look more novel: after any
    [add_response], whether it returned or raised, every text that had a
    score still has one, and it is at most the score it had. *)
Theorem scores_never_increase rd m t files r t' files' text q :
  add_response np_std rd m t files = (r, t', files') ->
  get_novelty_score t text = Ok q ->
  exists q', get_novelty_score t' text = Ok q' /\ (q' <= q)%Q.
Proof.
  intros Hadd Hq.
  assert (Hg : grows t t').
  { unfold add_response in Hadd.
    destruct (observe_values np_std m (map snd rd) t files) as [[r1 t1] f1] eqn:E1.
    apply observe_values_grows in E1.
    destruct r1 as [[]|e]; injection Hadd as _ <- _; exact E1. }
  pose proof (score_returned_well_formed t text q Hq) as Hwf.
  destruct (raw_pairs text) as [|fields more] eqn:E.
  - unfold get_novelty_score in *. rewrite E in *. injection Hq as <-.
    exists 0%Q. split; [reflexivity | apply Qle_refl].
  - assert (Hne : raw_pairs text <> []) by (rewrite E; discriminate).
    rewrite (score_of_well_formed t text Hne Hwf) in Hq. injection Hq as <-.
    rewrite (score_of_well_formed t' text Hne Hwf). eexists. split; [reflexivity|].
    assert (Hk : Forall2 Qle (map (key_novelty t') (raw_pairs text))
                             (map (key_novelty t) (raw_pairs text))).
    { apply Forall2_fmap, Forall_Forall2_diag, List.Forall_forall.
      intros x _. apply inverse_frequency_antitone, Hg. }
    assert (Hv : Forall2 Qle (map (value_novelty t') (raw_pairs text))
                             (map (value_novelty t) (raw_pairs text))).
    { apply Forall2_fmap, Forall_Forall2_diag, List.Forall_forall.
      intros x _. apply inverse_frequency_antitone, Hg. }
    apply np_mean_pointwise in Hk, Hv.
    unfold Qdiv. apply Qmult_le_compat_r; [lra|]. discriminate.
Qed.
End Decay.

Lemma scores_never_increase_witness :
  exists q',
    get_novelty_score
      (snd (fst (add_response (fun _ => 0%Q)
                   [("curator", AgentDict (Some "topic: space"))] None
                   (new_tracker history_size "now") [])))
      (lines ["topic: space"; "mood: calm"]) = Ok q' /\
    (q' <= (np_mean [1; 1] + np_mean [1; 1]) / 2)%Q.
Proof.
  destruct (add_response (fun _ => 0%Q)
              [("curator", AgentDict (Some "topic: space"))] None
              (new_tracker history_size "now") []) as [[r t'] files'] eqn:E.
  apply (scores_never_increase (fun _ => 0%Q) _ _ _ _ _ _ _ _ _ E).
  vm_compute. reflexivity.
Defined.

End TrackerMore.

Module SelectionFacts.
Import Novelty Selection Notions.


Section QueryOllamaFacts.
Variable generate : nat -> string -> option string.
Variable best_index : Tracker -> list string -> nat.




End QueryOllamaFacts.



End SelectionFacts.

Module BatchFacts.
Import Clipboard Batch.

Lemma collect_batch_alone room looks batch taken queue :
  collect_batch alone room looks batch taken queue
  = (Collected, batch ++ take room queue, taken ++ take room queue,
     drop room queue).
Proof.
  revert looks batch taken queue.
  induction room as [|room IH]; intros looks batch taken queue.
  - cbn [collect_batch take drop]. now rewrite !app_nil_r.
  - cbn [collect_batch]. unfold alone at 1 2.
    destruct queue as [|content rest].
    + cbn [take drop]. now rewrite !app_nil_r.
    + rewrite IH. cbn [take drop]. now rewrite <- !app_assoc.
Qed.

Lemma collect_batch_any others room looks batch taken queue :
  exists new,
    snd (fst (collect_batch others room looks batch taken queue))
    = taken ++ new /\
    length new <= room /\
    (fst (fst (fst (collect_batch others room looks batch taken queue)))
     = Collected ->
     snd (fst (fst (collect_batch others room looks batch taken queue)))
     = batch ++ new) /\
    (fst (fst (fst (collect_batch others room looks batch taken queue)))
     = QueueEmpty ->
     snd (fst (fst (collect_batch others room looks batch taken queue))) = [] /\
     snd (collect_batch others room looks batch taken queue) = []).
Proof.
  revert looks batch taken queue.
  induction room as [|room IH]; intros looks batch taken queue.
  - exists []. cbn. rewrite !app_nil_r. repeat split; try discriminate; lia.
  - cbn [collect_batch].
    destruct (others looks queue) as [|s0 seen].
    + exists []. cbn. rewrite !app_nil_r.
      split; [reflexivity|]. split; [lia|]. split; [reflexivity | discriminate].
    + destruct (others (S looks) (s0 :: seen)) as [|content rest].
      * exists []. cbn. rewrite !app_nil_r.
        split; [reflexivity|]. split; [lia|]. split; [discriminate | auto].
      * destruct (IH (S (S looks)) (batch ++ [content]) (taken ++ [content]) rest)
          as (new & Ht & Hl & Hc & He).
        exists (content :: new). rewrite Ht, <- app_assoc.
        split; [reflexivity|]. split; [cbn [length]; lia|].
        split; [|exact He].
        intros Hend. rewrite (Hc Hend), <- app_assoc. reflexivity.
Qed.

(** X28. The batch of the batching [content_processor] holds at most
    [batch_size] items, all taken off the queue by this thread, whatever
    the other threads do to the queue meanwhile.  A thread that is alone
    on the queue collects its first [batch_size] items in their order and
    leaves the rest.  But when the queue is found empty by [get_nowait]
    after [empty()] said it was not (the other processor took the item in
    between), the handler clears the batch: the items this thread had
    taken are then neither in the batch nor in the queue. *)
Theorem collect_batch_race others queue :
  let '(how, batch, taken, remaining) := collect others queue in
  length batch <= batch_size /\
  length taken <= batch_size /\
  (how = Collected -> batch = taken) /\
  (how = QueueEmpty -> batch = [] /\ remaining = []) /\
  collect alone queue
  = (Collected, take batch_size queue, take batch_size queue,
     drop batch_size queue) /\
  (forall a b,
      collect (fun k q => if (k =? 3)%nat then [] else q) [a; b]
      = (QueueEmpty, [], [a], [])).
Proof.
  unfold collect.
  destruct (collect_batch_any others batch_size 0 [] [] queue)
    as (new & Ht & Hl & Hc & He).
  destruct (collect_batch others batch_size 0 [] [] queue)
    as [[[how batch] taken] remaining].
  cbn [fst snd app] in *. subst taken.
  split.
  { destruct how; [rewrite (Hc eq_refl); exact Hl|].
    destruct (He eq_refl) as [-> _]. cbn [length]. lia. }
  split; [exact Hl|]. split; [intros Hh; exact (Hc Hh)|].
  split; [exact He|].
  split; [apply (collect_batch_alone batch_size 0 [] [] queue)|].
  intros a b. reflexivity.
Qed.
End BatchFacts.

